(** * Ingestion pipeline of the Delta Lake landing zone

    A shallow embedding of [processamento/data_processor.py] and
    [processamento/file_watcher.py]: the tabular reader, the schema
    normalizer, the metadata annotator, the bronze writer and the cluster
    watcher, together with the properties the specification states about
    them.

    The dataframe, spreadsheet and storage libraries the code calls are not
    part of the repository.  Their operations are given here by small
    executable models of their documented behaviour (modules [Polars],
    [Pandas], [Delta]); what depends on the content of a file on disk (the
    parsers, the listing of a directory) and the renderings and casts of
    values the libraries make are fields of the class [Environment]. *)

From Stdlib Require Import ZArith QArith List Ascii String Bool Lia.
From stdpp Require Import base option list gmap strings pretty.
Import ListNotations.

Set Warnings "-register-all".

Local Open Scope string_scope.
Local Open Scope list_scope.

(** ** Python strings *)

Module Py.

(** [str.lower()] on the ASCII range.  No character outside that range
    lower-cases to an ASCII letter of an extension the pipeline supports,
    so bytes above 127 are left alone. *)
Definition lower_ascii (c : ascii) : ascii :=
  let n := nat_of_ascii c in
  if (65 <=? n)%nat && (n <=? 90)%nat then ascii_of_nat (n + 32) else c.

Fixpoint lower (s : string) : string :=
  match s with
  | EmptyString => EmptyString
  | String c s' => String (lower_ascii c) (lower s')
  end.

(** [s.rfind('.')]: index of the last dot, [None] for Python's [-1]. *)
Fixpoint rfind_dot_from (i : nat) (s : string) (last : option nat) : option nat :=
  match s with
  | EmptyString => last
  | String c s' =>
      rfind_dot_from (S i) s' (if Ascii.eqb c "."%char then Some i else last)
  end.

Definition rfind_dot (s : string) : option nat := rfind_dot_from 0 s None.

(** [s.startswith(p)]. *)
Definition startswith (p s : string) : bool := String.prefix p s.

(** [str(n)] for a natural number. *)
Definition str_nat (n : nat) : string := pretty n.

(** [str(z)] for an integer. *)
Definition str_int (z : Z) : string := pretty z.

End Py.

(** ** [pathlib.Path] *)

(** A path is the list of its components below the root. *)
Definition Path := list string.

Module PathLib.

Definition name (p : Path) : string := List.last p "".

(** [Path.suffix]: the part of the name from its last dot on, when that dot
    is neither the first nor the last character of the name. *)
Definition suffix (p : Path) : string :=
  let n := name p in
  match Py.rfind_dot n with
  | Some i =>
      if (0 <? i)%nat && (i <? String.length n - 1)%nat
      then String.substring i (String.length n - i) n
      else ""
  | None => ""
  end.

Definition stem (p : Path) : string :=
  let n := name p in
  match Py.rfind_dot n with
  | Some i =>
      if (0 <? i)%nat && (i <? String.length n - 1)%nat
      then String.substring 0 i n
      else n
  | None => n
  end.

(** [p.parent]. *)
Definition parent (p : Path) : Path := removelast p.

(** [p / child]. *)
Definition div (p : Path) (child : string) : Path := p ++ [child].

(** [str(p)]. *)
Definition str (p : Path) : string :=
  List.fold_right (fun c acc => "/" +:+ c +:+ acc) "" p.

(** [p.relative_to(base)]: the components of [p] below [base], or
    [None] where Python raises [ValueError]. *)
Fixpoint relative_to (p base : Path) : option Path :=
  match base, p with
  | [], _ => Some p
  | b :: base', c :: p' => if String.eqb b c then relative_to p' base' else None
  | _ :: _, [] => None
  end.

End PathLib.

(** ** Exceptions and results *)

(** The exceptions the pipeline can meet.  [ValueError] and [PyException]
    (any other error a library raises) derive from Python's [Exception];
    [CancelledError] and [KeyboardInterrupt] derive from [BaseException]
    only, so [except Exception] lets them through. *)
Inductive exn :=
| ValueError (msg : string)
| PyException (msg : string)
| CancelledError
| KeyboardInterrupt.

Definition is_Exception (e : exn) : bool :=
  match e with
  | ValueError _ | PyException _ => true
  | CancelledError | KeyboardInterrupt => false
  end.

(** [str(e)]. *)
Definition exn_str (e : exn) : string :=
  match e with
  | ValueError m | PyException m => m
  | CancelledError | KeyboardInterrupt => ""
  end.

Inductive result (A : Type) :=
| Ok (a : A)
| Raise (e : exn).
Arguments Ok {A} a.
Arguments Raise {A} e.

Definition result_bind {A B} (r : result A) (k : A -> result B) : result B :=
  match r with
  | Ok a => k a
  | Raise e => Raise e
  end.

(** All-or-nothing traversal: the first error wins. *)
Fixpoint result_map {A B} (f : A -> result B) (l : list A) : result (list B) :=
  match l with
  | [] => Ok []
  | x :: l' =>
      result_bind (f x) (fun y =>
      result_bind (result_map f l') (fun ys => Ok (y :: ys)))
  end.

(** ** Tables *)

(** A Python object held in a cell of a pandas [object] column or inside a
    nested polars value.  A float is carried by its exact rational value. *)
Inductive pyobj :=
| PyNone
| PyStr (s : string)
| PyInt (z : Z)
| PyFloat (q : Q)
| PyBool (b : bool)
| PyList (l : list pyobj)
| PyDict (fields : list (string * pyobj)).

(** Column types of a RawTable: string, number, boolean, null, list and
    struct. *)
Inductive dtype :=
| Utf8
| Int64
| Float64
| Boolean
| Null
| List (inner : dtype)
| Struct (fields : list (string * dtype)).

Fixpoint dtype_eqb (a b : dtype) : bool :=
  match a, b with
  | Utf8, Utf8 | Int64, Int64 | Float64, Float64
  | Boolean, Boolean | Null, Null => true
  | List x, List y => dtype_eqb x y
  | Struct fa, Struct fb =>
      (fix fields_eqb (fa fb : list (string * dtype)) : bool :=
         match fa, fb with
         | [], [] => true
         | (n1, t1) :: ra, (n2, t2) :: rb =>
             String.eqb n1 n2 && dtype_eqb t1 t2 && fields_eqb ra rb
         | _, _ => false
         end) fa fb
  | _, _ => false
  end.

(** The data of a polars column; its constructor is its dtype, [None] is
    a null cell. *)
Inductive Series :=
| SUtf8 (v : list (option string))
| SInt64 (v : list (option Z))
| SFloat64 (v : list (option Q))
| SBoolean (v : list (option bool))
| SNull (n : nat)
| SList (inner : dtype) (v : list (option (list pyobj)))
| SStruct (fields : list (string * dtype)) (v : list (option (list (string * pyobj)))).

Definition dtype_of (s : Series) : dtype :=
  match s with
  | SUtf8 _ => Utf8
  | SInt64 _ => Int64
  | SFloat64 _ => Float64
  | SBoolean _ => Boolean
  | SNull _ => Null
  | SList t _ => List t
  | SStruct fs _ => Struct fs
  end.

Definition series_len (s : Series) : nat :=
  match s with
  | SUtf8 v => length v
  | SInt64 v => length v
  | SFloat64 v => length v
  | SBoolean v => length v
  | SNull n => n
  | SList _ v => length v
  | SStruct _ v => length v
  end.

Record Column := { col_name : string; col_data : Series }.

(** A polars DataFrame: its columns, in order. *)
Definition DataFrame := list Column.

Definition columns (df : DataFrame) : list string := map col_name df.
Definition width (df : DataFrame) : nat := length df.
Definition height (df : DataFrame) : nat :=
  match df with
  | [] => 0
  | c :: _ => series_len (col_data c)
  end.
Definition col_dtype (c : Column) : dtype := dtype_of (col_data c).

(** The data of a pandas column, by its numpy dtype.  A [float64] cell is a
    number or NaN ([None]); an [object] cell is any Python object. *)
Inductive PSeries :=
| PInt64 (v : list Z)
| PFloat64 (v : list (option Q))
| PBool (v : list bool)
| PObject (v : list pyobj).

Record PColumn := { pcol_name : string; pcol_data : PSeries }.

Definition PandasDF := list PColumn.

(** ** The environment of a run *)

(** What the code obtains from the files on disk and from the libraries'
    formatting routines. *)
Class Environment := {
  (** [Path(__file__).parent.parent] of [config/settings.py] *)
  PROJECT_ROOT : Path;
  (** [pl.read_csv(path, separator=sep, encoding="utf8-lossy",
      ignore_errors=True, infer_schema_length=1000)] *)
  pl_read_csv : Path -> string -> result DataFrame;
  (** [pl.read_excel(path)] *)
  pl_read_excel : Path -> result DataFrame;
  (** [pd.read_csv(path, encoding='utf-8', on_bad_lines='skip')] *)
  pd_read_csv : Path -> result PandasDF;
  (** [pd.read_excel(path)] *)
  pd_read_excel : Path -> result PandasDF;
  (** [path.stat().st_size] *)
  st_size : Path -> Z;
  (** [path.iterdir()] with [is_file()] of each entry: [None] when
      [path.exists()] is false; for a path that exists, the entries, or the
      error [iterdir] raises when the path is not a directory or may not be
      listed *)
  iterdir : Path -> option (result (list (Path * bool)));
  (** polars' rendering of a float, of a list value and of a struct value
      when a column is cast to [pl.Utf8]; [None] where the installed
      polars refuses the cast. *)
  pl_float_str : Q -> string;
  pl_list_str : list pyobj -> option string;
  pl_struct_str : list (string * pyobj) -> option string;
  (** Python's [str] of a float, of a list and of a dict. *)
  py_float_str : Q -> string;
  py_list_str : list pyobj -> string;
  py_dict_str : list (string * pyobj) -> string;
  (** The storage engine's cast of an incoming column to the type a table
      has for it: the cast column, or the error for a value that cannot be
      cast. *)
  delta_cast : dtype -> PSeries -> result PSeries
}.

(** ** pandas, as far as the pipeline uses it *)

Module Pandas.

(** [pd.isna] on a cell of an [object] column. *)
Definition isna (o : pyobj) : bool :=
  match o with
  | PyNone => true
  | _ => false
  end.

(** Whether every cell of the column is missing: the column test of
    [dropna(axis=1, how='all')].  It holds of a column without rows. *)
Definition all_na (s : PSeries) : bool :=
  match s with
  | PInt64 v => forallb (fun _ => false) v
  | PFloat64 v => forallb (fun c => match c with None => true | Some _ => false end) v
  | PBool v => forallb (fun _ => false) v
  | PObject v => forallb isna v
  end.

Definition has_na (s : PSeries) : bool :=
  match s with
  | PInt64 _ | PBool _ => false
  | PFloat64 v => existsb (fun c => match c with None => true | Some _ => false end) v
  | PObject v => existsb isna v
  end.

(** [df.dropna(axis=1, how='all')]. *)
Definition dropna_all_columns (df : PandasDF) : PandasDF :=
  List.filter (fun c => negb (all_na (pcol_data c))) df.

(** [series.fillna('')]: a missing cell becomes the empty string; a
    [float64] column that had one becomes an [object] column. *)
Definition fillna_series (s : PSeries) : PSeries :=
  match s with
  | PInt64 v => PInt64 v
  | PBool v => PBool v
  | PFloat64 v =>
      if has_na (PFloat64 v)
      then PObject (map (fun c => match c with None => PyStr "" | Some q => PyFloat q end) v)
      else PFloat64 v
  | PObject v => PObject (map (fun o => if isna o then PyStr "" else o) v)
  end.

(** [df.fillna('')]. *)
Definition fillna (df : PandasDF) : PandasDF :=
  map (fun c => {| pcol_name := pcol_name c; pcol_data := fillna_series (pcol_data c) |}) df.

Section WithEnvironment.
Context `{Environment}.

(** Python's [str] of a cell. *)
Definition py_str (o : pyobj) : string :=
  match o with
  | PyNone => "None"
  | PyStr s => s
  | PyInt z => Py.str_int z
  | PyFloat q => py_float_str q
  | PyBool true => "True"
  | PyBool false => "False"
  | PyList l => py_list_str l
  | PyDict d => py_dict_str d
  end.

(** [series.astype(str)], as pandas 1 and 2 do it: every cell becomes its
    [str], a missing one included ("None" in an [object] column, "nan" in
    a [float64] one). *)
Definition astype_str (s : PSeries) : PSeries :=
  match s with
  | PInt64 v => PObject (map (fun z => PyStr (Py.str_int z)) v)
  | PFloat64 v =>
      PObject (map (fun c => match c with
                             | None => PyStr "nan"
                             | Some q => PyStr (py_float_str q)
                             end) v)
  | PBool v => PObject (map (fun b => PyStr (py_str (PyBool b))) v)
  | PObject v => PObject (map (fun o => PyStr (py_str o)) v)
  end.

End WithEnvironment.

End Pandas.

(** ** pyarrow's type inference, used by [pl.from_pandas] *)

Module Arrow.

(** The common type of two inferred types, when there is one. *)
Definition unify (a b : dtype) : option dtype :=
  match a, b with
  | Null, t | t, Null => Some t
  | Int64, Float64 | Float64, Int64 => Some Float64
  | _, _ => if dtype_eqb a b then Some a else None
  end.

Fixpoint infer (o : pyobj) : option dtype :=
  match o with
  | PyNone => Some Null
  | PyStr _ => Some Utf8
  | PyInt _ => Some Int64
  | PyFloat _ => Some Float64
  | PyBool _ => Some Boolean
  | PyList l =>
      List <$>
      (fix items (l : list pyobj) (acc : dtype) : option dtype :=
         match l with
         | [] => Some acc
         | x :: r =>
             match infer x with
             | Some t => match unify acc t with
                         | Some u => items r u
                         | None => None
                         end
             | None => None
             end
         end) l Null
  | PyDict d =>
      Struct <$>
      (fix fields (d : list (string * pyobj)) : option (list (string * dtype)) :=
         match d with
         | [] => Some []
         | (n, x) :: r =>
             match infer x, fields r with
             | Some t, Some ts => Some ((n, t) :: ts)
             | _, _ => None
             end
         end) d
  end.

(** The type of a whole [object] column: the common type of its cells. *)
Fixpoint infer_cells (v : list pyobj) (acc : dtype) : option dtype :=
  match v with
  | [] => Some acc
  | x :: r =>
      match infer x with
      | Some t => match unify acc t with
                  | Some u => infer_cells r u
                  | None => None
                  end
      | None => None
      end
  end.

(** The cells read at the inferred type. *)
Definition cells_to_series (t : dtype) (v : list pyobj) : Series :=
  match t with
  | Utf8 => SUtf8 (map (fun o => match o with PyStr s => Some s | _ => None end) v)
  | Int64 => SInt64 (map (fun o => match o with PyInt z => Some z | _ => None end) v)
  | Float64 =>
      SFloat64 (map (fun o => match o with
                              | PyFloat q => Some q
                              | PyInt z => Some (inject_Z z)
                              | _ => None
                              end) v)
  | Boolean => SBoolean (map (fun o => match o with PyBool b => Some b | _ => None end) v)
  | Null => SNull (length v)
  | List t' => SList t' (map (fun o => match o with PyList l => Some l | _ => None end) v)
  | Struct fs => SStruct fs (map (fun o => match o with PyDict d => Some d | _ => None end) v)
  end.

End Arrow.

(** ** polars, as far as the pipeline uses it *)

Module Polars.

(** [str(dtype)].  The pipeline looks only at how it starts. *)
Fixpoint dtype_str (t : dtype) : string :=
  match t with
  | Utf8 => "String"
  | Int64 => "Int64"
  | Float64 => "Float64"
  | Boolean => "Boolean"
  | Null => "Null"
  | List t' => "List(" +:+ dtype_str t' +:+ ")"
  | Struct fs =>
      "Struct({" +:+
      (fix fields (fs : list (string * dtype)) : string :=
         match fs with
         | [] => ""
         | (n, t') :: r => "'" +:+ n +:+ "': " +:+ dtype_str t' +:+ ", " +:+ fields r
         end) fs +:+ "})"
  end.

(** The first cell of an [object] column that is not [None]. *)
Fixpoint first_non_none (v : list pyobj) : option pyobj :=
  match v with
  | [] => None
  | PyNone :: r => first_non_none r
  | o :: _ => Some o
  end.

Definition is_str_or_none (o : pyobj) : bool :=
  match o with
  | PyStr _ | PyNone => true
  | _ => false
  end.

(** [pl.from_pandas] on one column.  A numpy-typed column keeps its type.
    An [object] column whose first value is a string must hold strings
    only; one without a value becomes an all-null string column; any other
    is left to pyarrow's inference, which refuses cells of mixed types. *)
Definition series_from_pandas (s : PSeries) : result Series :=
  match s with
  | PInt64 v => Ok (SInt64 (map Some v))
  | PFloat64 v => Ok (SFloat64 v)
  | PBool v => Ok (SBoolean (map Some v))
  | PObject v =>
      match first_non_none v with
      | None => Ok (SUtf8 (map (fun _ => None) v))
      | Some (PyStr _) =>
          if forallb is_str_or_none v
          then Ok (Arrow.cells_to_series Utf8 v)
          else Raise (PyException "Expected bytes, got a non-str object")
      | Some _ =>
          match Arrow.infer_cells v Null with
          | Some t => Ok (Arrow.cells_to_series t v)
          | None => Raise (PyException "Could not convert object column to a single type")
          end
      end
  end.

Definition from_pandas (pdf : PandasDF) : result DataFrame :=
  result_map (fun c =>
    result_bind (series_from_pandas (pcol_data c)) (fun s =>
    Ok {| col_name := pcol_name c; col_data := s |})) pdf.

Definition no_null {A} (v : list (option A)) : bool :=
  forallb (fun c => match c with Some _ => true | None => false end) v.

(** [series.to_pandas()].  An integer column with a null cell becomes a
    [float64] column with NaN there, a boolean column with a null cell an
    [object] column with [None] there. *)
Definition series_to_pandas (s : Series) : PSeries :=
  match s with
  | SUtf8 v =>
      PObject (map (fun c => match c with Some x => PyStr x | None => PyNone end) v)
  | SInt64 v =>
      if no_null v
      then PInt64 (map (fun c => match c with Some z => z | None => 0%Z end) v)
      else PFloat64 (map (fun c => inject_Z <$> c) v)
  | SFloat64 v => PFloat64 v
  | SBoolean v =>
      if no_null v
      then PBool (map (fun c => match c with Some b => b | None => false end) v)
      else PObject (map (fun c => match c with Some b => PyBool b | None => PyNone end) v)
  | SNull n => PObject (repeat PyNone n)
  | SList _ v =>
      PObject (map (fun c => match c with Some l => PyList l | None => PyNone end) v)
  | SStruct _ v =>
      PObject (map (fun c => match c with Some d => PyDict d | None => PyNone end) v)
  end.

Definition to_pandas (df : DataFrame) : PandasDF :=
  map (fun c => {| pcol_name := col_name c; pcol_data := series_to_pandas (col_data c) |}) df.

Section WithEnvironment.
Context `{Environment}.

(** [series.cast(pl.Utf8)].  A null column becomes an all-null string
    column; a nested value is rendered by polars, where it can. *)
Definition cast_utf8 (s : Series) : result Series :=
  match s with
  | SUtf8 v => Ok (SUtf8 v)
  | SInt64 v => Ok (SUtf8 (map (fun c => Py.str_int <$> c) v))
  | SFloat64 v => Ok (SUtf8 (map (fun c => pl_float_str <$> c) v))
  | SBoolean v =>
      Ok (SUtf8 (map (fun c => (fun b : bool => if b then "true" else "false") <$> c) v))
  | SNull n => Ok (SUtf8 (repeat None n))
  | SList _ v =>
      result_bind
        (result_map (fun c =>
           match c with
           | None => Ok None
           | Some l => match pl_list_str l with
                       | Some x => Ok (Some x)
                       | None => Raise (PyException "cannot cast List type to String")
                       end
           end) v)
        (fun v' => Ok (SUtf8 v'))
  | SStruct _ v =>
      result_bind
        (result_map (fun c =>
           match c with
           | None => Ok None
           | Some d => match pl_struct_str d with
                       | Some x => Ok (Some x)
                       | None => Raise (PyException "cannot cast Struct type to String")
                       end
           end) v)
        (fun v' => Ok (SUtf8 v'))
  end.

(** [df.cast(cast_dict)].  The pipeline only ever asks for [pl.Utf8]; a
    request for another type is outside this model and is refused. *)
Definition cast (df : DataFrame) (cast_dict : gmap string dtype) : result DataFrame :=
  result_map (fun c =>
    match cast_dict !! col_name c with
    | None => Ok c
    | Some Utf8 =>
        result_bind (cast_utf8 (col_data c)) (fun s =>
        Ok {| col_name := col_name c; col_data := s |})
    | Some _ => Raise (PyException "cast target outside the model")
    end) df.

End WithEnvironment.

(** A literal expression [pl.lit(v).alias(name)]. *)
Inductive lit :=
| LitStr (s : string)
| LitInt (z : Z).

(** The literal broadcast over [n] rows. *)
Definition lit_series (l : lit) (n : nat) : Series :=
  match l with
  | LitStr s => SUtf8 (repeat (Some s) n)
  | LitInt z => SInt64 (repeat (Some z) n)
  end.

(** Put one named column into a frame: in place of the column of that name
    when there is one, at the end otherwise. *)
Fixpoint set_column (df : DataFrame) (c : Column) : DataFrame :=
  match df with
  | [] => [c]
  | d :: df' =>
      if String.eqb (col_name d) (col_name c) then c :: df'
      else d :: set_column df' c
  end.

(** [df.with_columns([pl.lit(v).alias(name), ...])].  Each literal is
    broadcast to the height of [df], or to one row when [df] has no
    column. *)
Definition with_columns (df : DataFrame) (exprs : list (string * lit)) : DataFrame :=
  let n := match df with [] => 1 | _ => height df end in
  fold_left (fun acc e =>
               set_column acc {| col_name := fst e; col_data := lit_series (snd e) n |})
            exprs df.

End Polars.

(** ** The Delta Lake storage engine, as far as the Writer uses it *)

Module Delta.

(** A Delta table: its schema and the frames committed to it, oldest
    first. *)
Record DeltaTable := {
  schema : list (string * dtype);
  commits : list PandasDF
}.

Inductive write_mode := Overwrite | Append.

(** The Arrow type of a pandas column when the frame is handed to the
    engine. *)
Definition column_type (s : PSeries) : result dtype :=
  match s with
  | PInt64 _ => Ok Int64
  | PFloat64 _ => Ok Float64
  | PBool _ => Ok Boolean
  | PObject v =>
      match Arrow.infer_cells v Null with
      | Some t => Ok t
      | None => Raise (PyException "Could not convert object column to a single type")
      end
  end.

(** The schema of a frame.  The engine has no null type. *)
Definition frame_schema (pdf : PandasDF) : result (list (string * dtype)) :=
  result_map (fun c =>
    result_bind (column_type (pcol_data c)) (fun t =>
    if dtype_eqb t Null
    then Raise (PyException "Invalid data type for Delta Lake: Null")
    else Ok (pcol_name c, t))) pdf.

Fixpoint lookup_type (n : string) (sch : list (string * dtype)) : option dtype :=
  match sch with
  | [] => None
  | (m, t) :: r => if String.eqb m n then Some t else lookup_type n r
  end.

(** Schema merge: a column the table has keeps the type the table has for
    it; a column the table lacks is added after the others. *)
Fixpoint merge_schema (old new : list (string * dtype)) : list (string * dtype) :=
  match new with
  | [] => old
  | (n, t) :: r =>
      match lookup_type n old with
      | Some _ => merge_schema old r
      | None => merge_schema (old ++ [(n, t)]) r
      end
  end.

Fixpoint schema_eqb (a b : list (string * dtype)) : bool :=
  match a, b with
  | [], [] => true
  | (n1, t1) :: ra, (n2, t2) :: rb => String.eqb n1 n2 && dtype_eqb t1 t2 && schema_eqb ra rb
  | _, _ => false
  end.

(** The file system under the bronze root: for each directory that
    exists, the table in it, if one has been committed. *)
Abbreviation store := (gmap string (option DeltaTable)).

Section WithEnvironment.
Context `{Environment}.

(** An incoming column as a table of schema [old] takes it under schema
    merge: as it is when the table has no column of its name or has it at
    the same type, cast to the table's type otherwise. *)
Definition merge_column (old : list (string * dtype)) (c : PColumn) : result PColumn :=
  result_bind (column_type (pcol_data c)) (fun t =>
  match lookup_type (pcol_name c) old with
  | Some t0 =>
      if dtype_eqb t0 t then Ok c
      else result_bind (delta_cast t0 (pcol_data c)) (fun s =>
           Ok {| pcol_name := pcol_name c; pcol_data := s |})
  | None => Ok c
  end).

(** [write_deltalake(path, pdf, mode=..., schema_mode="merge" or unset)].
    The commit is atomic: on an error the store is left as it was. *)
Definition write_deltalake (st : store) (path : string) (pdf : PandasDF)
    (mode : write_mode) (merge : bool) : result store :=
  result_bind (frame_schema pdf) (fun sch =>
  match st !! path with
  | None | Some None =>
      Ok (<[path := Some {| schema := sch; commits := [pdf] |}]> st)
  | Some (Some t) =>
      match mode with
      | Overwrite =>
          if schema_eqb (schema t) sch
          then Ok (<[path := Some {| schema := sch; commits := [pdf] |}]> st)
          else Raise (PyException "Schema error: overwrite with a different schema")
      | Append =>
          if merge
          then result_bind (result_map (merge_column (schema t)) pdf) (fun pdf' =>
               Ok (<[path := Some {| schema := merge_schema (schema t) sch;
                                     commits := commits t ++ [pdf'] |}]> st))
          else if schema_eqb (schema t) sch
               then Ok (<[path := Some {| schema := schema t;
                                          commits := commits t ++ [pdf] |}]> st)
               else Raise (PyException "Schema error: append with a different schema")
      end
  end).

End WithEnvironment.

End Delta.

(** ** The state the pipeline acts on *)

Inductive level := INFO | WARNING | ERROR.

Record log_entry := { lvl : level; msg : string }.

Record world := {
  (** what [logger] has written, oldest first *)
  log : list log_entry;
  (** [datetime.now().isoformat()] *)
  now : string;
  (** the directories under [BRONZE_PATH] *)
  bronze : Delta.store
}.

(** A computation that reads and writes the world and may raise.  What it
    did before it raised stays done. *)
Definition M (A : Type) : Type := world -> result A * world.

#[global] Instance M_ret : MRet M := fun A a w => (Ok a, w).

#[global] Instance M_bind : MBind M := fun A B k m w =>
  match m w with
  | (Ok a, w') => k a w'
  | (Raise e, w') => (Raise e, w')
  end.

Definition raise {A} (e : exn) : M A := fun w => (Raise e, w).

Definition lift {A} (r : result A) : M A := fun w => (r, w).

(** [try: body  except Exception as e: handler e]. *)
Definition try_except {A} (body : M A) (handler : exn -> M A) : M A := fun w =>
  match body w with
  | (Ok a, w') => (Ok a, w')
  | (Raise e, w') => if is_Exception e then handler e w' else (Raise e, w')
  end.

Definition logger (l : level) (m : string) : M unit := fun w =>
  (Ok tt, {| log := log w ++ [{| lvl := l; msg := m |}]; now := now w; bronze := bronze w |}).

Definition get_now : M string := fun w => (Ok (now w), w).
Definition get_bronze : M Delta.store := fun w => (Ok (bronze w), w).
Definition put_bronze (st : Delta.store) : M unit := fun w =>
  (Ok tt, {| log := log w; now := now w; bronze := st |}).

(** ** [config/settings.py] *)

Section Settings.
Context `{Environment}.

Definition DATA_ROOT : Path := PathLib.div PROJECT_ROOT "dados".
Definition LANDING_ZONE : Path := PathLib.div (PathLib.parent PROJECT_ROOT) "Landing_zone".
Definition BRONZE_PATH : Path := PathLib.div DATA_ROOT "bronze".

End Settings.

(** ** [processamento/data_processor.py] *)

Section DataProcessor.
Context `{Environment}.

Definition TAB : string := String (ascii_of_nat 9) EmptyString.

(** The separators [_read_csv] tries, in the order it tries them. *)
Definition separators : list string := [","; ";"; TAB; "|"].

Definition shape_msg (df : DataFrame) : string :=
  Py.str_nat (height df) +:+ " linhas, " +:+ Py.str_nat (width df) +:+ " colunas".

Definition _read_excel (file_path : Path) : M DataFrame :=
  try_except
    (df ← lift (pl_read_excel file_path);
     logger INFO ("📈 Excel lido: " +:+ shape_msg df);;
     mret df)
    (fun e =>
       logger WARNING ("Polars falhou, tentando pandas: " +:+ exn_str e);;
       pdf ← lift (pd_read_excel file_path);
       df ← lift (Polars.from_pandas pdf);
       logger INFO ("📈 Excel lido (pandas): " +:+ shape_msg df);;
       mret df).

(** The [for sep in ...] loop of [_read_csv]: the first separator under
    which polars reads at least one row; an error under a separator moves
    on to the next one. *)
Fixpoint probe_separators (file_path : Path) (seps : list string) : M (option DataFrame) :=
  match seps with
  | [] => mret None
  | sep :: rest =>
      found ← try_except
        (df ← lift (pl_read_csv file_path sep);
         if (0 <? height df)%nat
         then logger INFO ("📈 CSV lido (sep '" +:+ sep +:+ "'): " +:+ shape_msg df);;
              mret (Some df)
         else mret None)
        (fun _ => mret None);
      match found with
      | Some df => mret (Some df)
      | None => probe_separators file_path rest
      end
  end.

Definition _read_csv (file_path : Path) : M DataFrame :=
  try_except
    (found ← probe_separators file_path separators;
     match found with
     | Some df => mret df
     | None =>
         pdf ← lift (pd_read_csv file_path);
         df ← lift (Polars.from_pandas pdf);
         logger INFO ("📈 CSV lido (pandas fallback): " +:+ shape_msg df);;
         mret df
     end)
    (fun e =>
       logger ERROR ("Erro ao ler CSV " +:+ PathLib.name file_path +:+ ": " +:+ exn_str e);;
       raise e).

(** [self.supported_formats]. *)
Definition supported_formats : gmap string (Path -> M DataFrame) :=
  <[".xlsx" := _read_excel]> (<[".xls" := _read_excel]> (<[".csv" := _read_csv]> ∅)).

(** The [try] block of [_read_file]: the reader of the extension is
    called, and an error of it is logged and turned into [None]. *)
Definition read_with (reader : Path -> M DataFrame) (file_path : Path) : M (option DataFrame) :=
  try_except
    (df ← reader file_path; mret (Some df))
    (fun e =>
       logger ERROR ("Erro ao ler " +:+ PathLib.name file_path +:+ ": " +:+ exn_str e);;
       mret None).

Definition _read_file (file_path : Path) : M (option DataFrame) :=
  let extension := Py.lower (PathLib.suffix file_path) in
  match supported_formats !! extension with
  | None => raise (ValueError ("Formato não suportado: " +:+ extension))
  | Some reader => read_with reader file_path
  end.

(** The loop of [_clean_null_columns] that collects the columns to cast:
    those of type [pl.Null] and those whose type prints as a list or a
    struct. *)
Definition collect_step (acc : gmap string dtype * nat) (c : Column) : gmap string dtype * nat :=
  let '(cast_dict, null_count) := acc in
  let dtype := col_dtype c in
  if dtype_eqb dtype Null
  then (<[col_name c := Utf8]> cast_dict, S null_count)
  else if Py.startswith "List" (Polars.dtype_str dtype)
          || Py.startswith "Struct" (Polars.dtype_str dtype)
  then (<[col_name c := Utf8]> cast_dict, S null_count)
  else (cast_dict, null_count).

Definition collect_casts (df : DataFrame) : gmap string dtype * nat :=
  fold_left collect_step df (∅, 0%nat).

(** First part of the [try] block: the cast.  Its result is the new value
    of the local variable [df]. *)
Definition clean_cast (df : DataFrame) : M DataFrame :=
  let '(cast_dict, null_count) := collect_casts df in
  if bool_decide (cast_dict = ∅) then mret df
  else
    logger WARNING ("🔧 Convertendo " +:+ Py.str_nat null_count
                    +:+ " colunas problemáticas para String");;
    lift (Polars.cast df cast_dict).

(** Second part of the [try] block: the trip through pandas. *)
Definition clean_pandas (df : DataFrame) : M DataFrame :=
  let pandas_df := Polars.to_pandas df in
  let pandas_df := Pandas.dropna_all_columns pandas_df in
  let pandas_df := Pandas.fillna pandas_df in
  df_clean ← lift (Polars.from_pandas pandas_df);
  logger INFO ("✅ DataFrame limpo: " +:+ shape_msg df_clean);;
  mret df_clean.

(** The [except] block: every column of [df], as the [try] block left it,
    becomes a column of strings. *)
Definition clean_last_resort (df : DataFrame) (e : exn) : M DataFrame :=
  logger ERROR ("❌ Erro ao limpar DataFrame: " +:+ exn_str e);;
  try_except
    (let pandas_df := Polars.to_pandas df in
     let pandas_df :=
       map (fun c => {| pcol_name := pcol_name c;
                        pcol_data := Pandas.fillna_series (Pandas.astype_str (pcol_data c)) |})
           pandas_df in
     df_final ← lift (Polars.from_pandas pandas_df);
     logger WARNING "⚠️  Fallback aplicado: todas colunas convertidas para string";;
     mret df_final)
    (fun final_e =>
       logger ERROR ("❌ Fallback final falhou: " +:+ exn_str final_e);;
       raise final_e).

Definition _clean_null_columns (df : DataFrame) : M DataFrame := fun w =>
  match clean_cast df w with
  | (Raise e, w1) => if is_Exception e then clean_last_resort df e w1 else (Raise e, w1)
  | (Ok df1, w1) =>
      match clean_pandas df1 w1 with
      | (Raise e, w2) => if is_Exception e then clean_last_resort df1 e w2 else (Raise e, w2)
      | (Ok df_clean, w2) => (Ok df_clean, w2)
      end
  end.

(** The five audit columns, in the order [_add_metadata] adds them. *)
Definition audit_columns : list string :=
  ["_source_file"; "_cluster"; "_ingested_at"; "_file_size_bytes"; "_row_count"].

Definition _add_metadata (df : DataFrame) (file_path : Path) (cluster : string) : M DataFrame :=
  df_clean ← _clean_null_columns df;
  ingested_at ← get_now;
  mret (Polars.with_columns df_clean
          [("_source_file", Polars.LitStr (PathLib.name file_path));
           ("_cluster", Polars.LitStr cluster);
           ("_ingested_at", Polars.LitStr ingested_at);
           ("_file_size_bytes", Polars.LitInt (st_size file_path));
           ("_row_count", Polars.LitInt (Z.of_nat (height df)))]).

(** [BRONZE_PATH / f"{cluster}_bronze"]. *)
Definition table_path (cluster : string) : Path :=
  PathLib.div BRONZE_PATH (cluster +:+ "_bronze").

Definition _save_to_bronze (df : DataFrame) (cluster : string) (file_stem : string) : M unit :=
  let table_path := PathLib.str (table_path cluster) in
  let pandas_df := Polars.to_pandas df in
  try_except
    (st ← get_bronze;
     if bool_decide (is_Some (st !! table_path))
     then
       st' ← lift (Delta.write_deltalake st table_path pandas_df Delta.Append true);
       put_bronze st';;
       logger INFO ("📊 Dados adicionados à tabela existente: " +:+ cluster +:+ "_bronze")
     else
       let st1 := <[table_path := None]> st in
       put_bronze st1;;
       st' ← lift (Delta.write_deltalake st1 table_path pandas_df Delta.Overwrite false);
       put_bronze st';;
       logger INFO ("🆕 Nova tabela Delta criada: " +:+ cluster +:+ "_bronze"))
    (fun e =>
       logger ERROR ("❌ Erro ao salvar no Delta Lake: " +:+ exn_str e);;
       raise e).

Definition process_file (file_path : Path) (cluster : string) : M unit :=
  try_except
    (logger INFO ("📊 Lendo arquivo: " +:+ PathLib.name file_path);;
     df ← _read_file file_path;
     match df with
     | None =>
         logger WARNING ("⚠️  Arquivo vazio ou inválido: " +:+ PathLib.name file_path)
     | Some df =>
         if (height df =? 0)%nat
         then logger WARNING ("⚠️  Arquivo vazio ou inválido: " +:+ PathLib.name file_path)
         else
           df_with_metadata ← _add_metadata df file_path cluster;
           _save_to_bronze df_with_metadata cluster (PathLib.stem file_path);;
           logger INFO ("✅ Arquivo salvo no Bronze: " +:+ PathLib.name file_path
                        +:+ " (" +:+ Py.str_nat (height df) +:+ " registros)")
     end)
    (fun e =>
       logger ERROR ("❌ Erro ao processar " +:+ PathLib.name file_path +:+ ": " +:+ exn_str e);;
       raise e).

End DataProcessor.

(** ** [processamento/file_watcher.py] *)

Section FileWatcher.
Context `{Environment}.

(** A watchdog event: [event.is_directory] and [Path(event.src_path)]. *)
Record event := { is_directory : bool; src_path : Path }.

(** A task made by [asyncio.create_task(self._process_file_async(file_path,
    cluster))] that has not finished: it has not started, or it is waiting
    in its settle delay. *)
Record task := { task_path : Path; task_cluster : string }.

(** The handler, the tasks of the event loop and the observer. *)
Record watcher := {
  (** [handler.processing_files], the in-flight set *)
  processing_files : gset string;
  (** the tasks that are scheduled and not finished *)
  tasks : list task;
  (** whether the observer thread is running *)
  observing : bool;
  outside : world
}.

(** [self.supported_extensions]. *)
Definition supported_extensions : gset string := {[ ".xlsx"; ".xls"; ".csv" ]}.

Definition with_world (st : watcher) (w : world) : watcher :=
  {| processing_files := processing_files st; tasks := tasks st;
     observing := observing st; outside := w |}.

Definition _detect_cluster (file_path : Path) : string :=
  match PathLib.relative_to file_path
          (PathLib.div (PathLib.div LANDING_ZONE "data") "raw") with
  | Some relative_path =>
      match relative_path with
      | cluster :: _ => cluster
      | [] => "unknown"
      end
  | None => "unknown"
  end.

(** [asyncio.create_task(coro)].  [loop] says whether the calling thread
    runs an event loop: the task is scheduled when it does, and
    [RuntimeError("no running event loop")] is raised when it does not. *)
Definition create_task (loop : bool) (t : task) (st : watcher) : result unit * watcher :=
  if loop
  then (Ok tt, {| processing_files := processing_files st;
                  tasks := tasks st ++ [t];
                  observing := observing st;
                  outside := outside st |})
  else (Raise (PyException "no running event loop"), st).

(** [LandingZoneHandler.on_created], called in a thread that runs an event
    loop or not.  The path is put into the in-flight set and the file is
    announced before [asyncio.create_task] is called, so both stay when
    that call raises.  watchdog calls the handler in its observer thread,
    which runs no event loop. *)
Definition on_created (loop : bool) (ev : event) (st : watcher) : result unit * watcher :=
  if is_directory ev then (Ok tt, st)
  else
    let file_path := src_path ev in
    if bool_decide (Py.lower (PathLib.suffix file_path) ∉ supported_extensions)
    then (Ok tt,
          with_world st
            (snd (logger INFO ("Arquivo ignorado (formato não suportado): "
                               +:+ PathLib.name file_path) (outside st))))
    else if bool_decide (PathLib.str file_path ∈ processing_files st) then (Ok tt, st)
    else
      let cluster := _detect_cluster file_path in
      create_task loop {| task_path := file_path; task_cluster := cluster |}
        {| processing_files := processing_files st ∪ {[ PathLib.str file_path ]};
           tasks := tasks st;
           observing := observing st;
           outside := snd (logger INFO ("📁 Novo arquivo detectado: "
                                        +:+ PathLib.name file_path
                                        +:+ " (cluster: " +:+ cluster +:+ ")") (outside st)) |}.

(** [await asyncio.sleep(1)]: it returns, or raises [CancelledError] when
    the task is cancelled while it waits. *)
Definition sleep (cancelled : bool) : M unit :=
  if cancelled then raise CancelledError else mret tt.

(** The [try]/[except] part of [_process_file_async]. *)
Definition process_file_guarded (file_path : Path) (cluster : string) (cancelled : bool) : M unit :=
  try_except
    (sleep cancelled;;
     logger INFO ("🔄 Iniciando processamento: " +:+ PathLib.name file_path);;
     process_file file_path cluster;;
     logger INFO ("✅ Processamento concluído: " +:+ PathLib.name file_path))
    (fun e =>
       logger ERROR ("❌ Erro ao processar " +:+ PathLib.name file_path +:+ ": " +:+ exn_str e)).

(** [_process_file_async]: the guarded part, then the [finally] block,
    which takes the path out of the in-flight set however the guarded part
    ended. *)
Definition _process_file_async (file_path : Path) (cluster : string) (cancelled : bool)
    (st : watcher) : result unit * watcher :=
  let '(r, w') := process_file_guarded file_path cluster cancelled (outside st) in
  (r, {| processing_files := processing_files st ∖ {[ PathLib.str file_path ]};
         tasks := tasks st;
         observing := observing st;
         outside := w' |}).

(** How the event loop ends a task. *)
Inductive ending :=
| Runs                 (** the task runs to its end *)
| CancelledInDelay     (** the task is cancelled while it waits in its delay *)
| CancelledUnstarted.  (** the task is cancelled before its first step *)

(** The event loop ends the [i]-th unfinished task.  The body of a
    coroutine cancelled before its first step is never entered: neither
    its [try] nor its [finally] runs. *)
Definition run_task (i : nat) (how : ending) (st : watcher) : watcher :=
  match tasks st !! i with
  | None => st
  | Some t =>
      let st1 := {| processing_files := processing_files st;
                    tasks := take i (tasks st) ++ drop (S i) (tasks st);
                    observing := observing st;
                    outside := outside st |} in
      match how with
      | Runs => snd (_process_file_async (task_path t) (task_cluster t) false st1)
      | CancelledInDelay => snd (_process_file_async (task_path t) (task_cluster t) true st1)
      | CancelledUnstarted => st1
      end
  end.

(** [FileWatcher.stop]: [observer.stop()] and [observer.join()], between
    two log lines. *)
Definition stop (st : watcher) : watcher :=
  let w1 := snd (logger INFO "🛑 Parando File System Watcher..." (outside st)) in
  let w2 := snd (logger INFO "✅ File System Watcher parado!" w1) in
  {| processing_files := processing_files st;
     tasks := tasks st;
     observing := false;
     outside := w2 |}.

(** What can happen to a running watcher: the observer thread hands a
    create event to the handler, the event loop ends a task, the watcher
    is stopped.  The observer thread runs no event loop; what the handler
    raises there stays in that thread. *)
Inductive action :=
| Created (ev : event)
| Finish (i : nat) (how : ending)
| Stop.

Definition step (a : action) (st : watcher) : watcher :=
  match a with
  | Created ev => if observing st then snd (on_created false ev st) else st
  | Finish i how => run_task i how st
  | Stop => stop st
  end.

Definition run (acts : list action) (st : watcher) : watcher :=
  fold_left (fun s a => step a s) acts st.

(** A watcher that has just been started. *)
Definition started (w : world) : watcher :=
  {| processing_files := ∅; tasks := []; observing := true; outside := w |}.

(** The cluster directories, in the order the code lists them. *)
Definition cluster_directories : list Path :=
  map (fun c => PathLib.div (PathLib.div (PathLib.div LANDING_ZONE "data") "raw") c)
      ["diabetes"; "emagrecimento"; "rejuvenescimento"; "relacionamento"; "renda_extra"].

(** The [try] block of the inner loop of [scan_existing_files]: the file
    is processed and counted; an error is logged and the file not
    counted. *)
Definition scan_process (cluster : string) (processed_count : nat) (file_path : Path) : M nat :=
  try_except
    (logger INFO ("📄 Processando existente: " +:+ PathLib.name file_path
                  +:+ " (cluster: " +:+ cluster +:+ ")");;
     process_file file_path cluster;;
     mret (S processed_count))
    (fun e =>
       logger ERROR ("❌ Erro ao processar " +:+ PathLib.name file_path +:+ ": " +:+ exn_str e);;
       mret processed_count).

(** The body of the inner loop of [scan_existing_files] for one directory
    entry; [processed_count] is threaded through. *)
Definition scan_entry (cluster : string) (processed_count : nat) (entry : Path * bool) : M nat :=
  let '(file_path, is_file) := entry in
  if is_file && bool_decide (Py.lower (PathLib.suffix file_path)
                             ∈ ({[ ".xlsx"; ".xls"; ".csv" ]} : gset string))
  then scan_process cluster processed_count file_path
  else mret processed_count.

Fixpoint scan_entries (cluster : string) (processed_count : nat) (entries : list (Path * bool))
    : M nat :=
  match entries with
  | [] => mret processed_count
  | entry :: rest =>
      n ← scan_entry cluster processed_count entry;
      scan_entries cluster n rest
  end.

Fixpoint scan_directories (processed_count : nat) (dirs : list Path) : M nat :=
  match dirs with
  | [] => mret processed_count
  | cluster_dir :: rest =>
      match iterdir cluster_dir with
      | None => scan_directories processed_count rest
      | Some listing =>
          entries ← lift listing;
          n ← scan_entries (PathLib.name cluster_dir) processed_count entries;
          scan_directories n rest
      end
  end.

Definition scan_existing_files : M unit :=
  logger INFO "🔍 Escaneando arquivos existentes na Landing Zone...";;
  processed_count ← scan_directories 0 cluster_directories;
  logger INFO ("✅ Scan concluído! " +:+ Py.str_nat processed_count +:+ " arquivos processados.").

End FileWatcher.

(** ** Vocabulary of the specification *)

(** The column types that must not reach the Writer: null, list, struct. *)
Definition is_null_or_nested (t : dtype) : bool :=
  match t with
  | Null | List _ | Struct _ => true
  | _ => false
  end.

(** [df[name]]: the column of that name. *)
Definition get_column (df : DataFrame) (name : string) : option Column :=
  find (fun c => String.eqb (col_name c) name) df.

Definition is_none {A} (c : option A) : bool :=
  match c with
  | None => true
  | Some _ => false
  end.

(** For each row of a column, whether its cell is empty (null). *)
Definition null_mask (s : Series) : list bool :=
  match s with
  | SUtf8 v => map is_none v
  | SInt64 v => map is_none v
  | SFloat64 v => map is_none v
  | SBoolean v => map is_none v
  | SNull n => repeat true n
  | SList _ v => map is_none v
  | SStruct _ v => map is_none v
  end.

(** Empty in all rows. *)
Definition all_empty (c : Column) : bool := forallb id (null_mask (col_data c)).

(** Empty in some but not all rows. *)
Definition partly_empty (c : Column) : bool :=
  existsb id (null_mask (col_data c)) && negb (all_empty c).

(** The string in row [i] of a string column. *)
Definition str_cell (s : Series) (i : nat) : option string :=
  match s with
  | SUtf8 v => mjoin (v !! i)
  | _ => None
  end.

(** What the specification asks of the normalizer's output [out] for the
    input [df]: a column empty in all rows is gone, a column empty in some
    rows is there with the empty string in those rows. *)
Definition drops_and_fills (df out : DataFrame) : Prop :=
  (forall c, In c df -> all_empty c = true -> ~ In (col_name c) (columns out)) /\
  (forall c, In c df -> partly_empty c = true ->
     exists c', get_column out (col_name c) = Some c' /\
                forall i, nth i (null_mask (col_data c)) false = true ->
                          str_cell (col_data c') i = Some "").

(** A cell that holds no list and no dict. *)
Definition scalar_cell (o : pyobj) : bool :=
  match o with
  | PyList _ | PyDict _ => false
  | _ => true
  end.

Definition scalar_cells (s : PSeries) : Prop :=
  match s with
  | PObject v => Forall (fun o => scalar_cell o = true) v
  | _ => True
  end.

Definition scalar_or_null (t : dtype) : bool :=
  match t with
  | List _ | Struct _ => false
  | _ => true
  end.

(** An [object] column that holds strings only. *)
Definition all_str (s : PSeries) : Prop :=
  match s with
  | PObject v => Forall (fun o => exists x, o = PyStr x) v
  | _ => False
  end.

(** A result that is a value or an ordinary exception. *)
Definition ordinary {A} (r : result A) : Prop :=
  match r with
  | Ok _ => True
  | Raise e => is_Exception e = true
  end.

Definition add_log (w : world) (l : level) (m : string) : world :=
  {| log := log w ++ [{| lvl := l; msg := m |}]; now := now w; bronze := bronze w |}.

(** A computation that leaves the bronze tables alone. *)
Definition keeps_bronze {A} (m : M A) : Prop :=
  forall w r w', m w = (r, w') -> bronze w' = bronze w.

Section SpecificationTerms.
Context `{Environment}.

(** The string-only frame the last-resort pass hands back to polars. *)
Definition last_resort_frame (df : DataFrame) : PandasDF :=
  map (fun c => {| pcol_name := pcol_name c;
                   pcol_data := Pandas.fillna_series (Pandas.astype_str (pcol_data c)) |})
      (Polars.to_pandas df).

(** A separator under which polars reads no row: it reads an empty table
    or raises an ordinary exception. *)
Definition yields_no_row (file_path : Path) (sep : string) : Prop :=
  match pl_read_csv file_path sep with
  | Ok d => height d = 0%nat
  | Raise e => is_Exception e = true
  end.


(** Among the tables of this model (columns of strings, integers, floats,
    booleans, nulls, lists and structs), those on which the [try] block of
    [_clean_null_columns] runs to its end: polars can render every nested
    value, and no number or boolean column is empty in some but not all
    rows. *)
Definition primary_ok_column (c : Column) : bool :=
  match col_data c with
  | SInt64 _ | SFloat64 _ | SBoolean _ => negb (partly_empty c)
  | SList _ v =>
      forallb (fun cell => match cell with
                           | Some l => negb (is_none (pl_list_str l))
                           | None => true
                           end) v
  | SStruct _ v =>
      forallb (fun cell => match cell with
                           | Some d => negb (is_none (pl_struct_str d))
                           | None => true
                           end) v
  | SUtf8 _ | SNull _ => true
  end.

Definition primary_ok (df : DataFrame) : bool := forallb primary_ok_column df.

(** A null or nested column after the cast to [pl.Utf8]. *)
Definition coerced (s : Series) : Series :=
  match s with
  | SNull n => SUtf8 (repeat None n)
  | SList _ v => SUtf8 (map (fun cell => cell ≫= pl_list_str) v)
  | SStruct _ v => SUtf8 (map (fun cell => cell ≫= pl_struct_str) v)
  | _ => s
  end.

Definition coerce_column (c : Column) : Column :=
  {| col_name := col_name c; col_data := coerced (col_data c) |}.

(** A string column with its empty cells filled. *)
Definition filled (s : Series) : Series :=
  match s with
  | SUtf8 v => SUtf8 (map (fun cell => Some (default "" cell)) v)
  | _ => s
  end.

(** The table the primary pass produces, column by column. *)
Definition normalized (df : DataFrame) : DataFrame :=
  map (fun c => {| col_name := col_name c; col_data := filled (coerced (col_data c)) |})
      (List.filter (fun c => negb (all_empty c)) df).

End SpecificationTerms.

(** The extension of a path is one of the three the pipeline reads,
    whatever the case of its letters. *)
Definition supported (file_path : Path) : bool :=
  let extension := Py.lower (PathLib.suffix file_path) in
  String.eqb extension ".xlsx" || String.eqb extension ".xls" || String.eqb extension ".csv".

(** ** Sample data *)

(** A landing zone with one delimited file,
    [id;nome / 1;Ana / 2;Rui], and one spreadsheet without rows. *)
Definition sample_csv : Path :=
  ["srv"; "Landing_zone"; "data"; "raw"; "diabetes"; "PACIENTES.CSV"].

Definition sample_xlsx : Path :=
  ["srv"; "Landing_zone"; "data"; "raw"; "diabetes"; "vazio.xlsx"].

Definition sample_broken : Path :=
  ["srv"; "Landing_zone"; "data"; "raw"; "diabetes"; "quebrado.xls"].

Definition sample_csv_one_column : DataFrame :=
  [ {| col_name := "id;nome"; col_data := SUtf8 [Some "1;Ana"; Some "2;Rui"] |} ].

Definition sample_csv_two_columns : DataFrame :=
  [ {| col_name := "id"; col_data := SInt64 [Some 1%Z; Some 2%Z] |};
    {| col_name := "nome"; col_data := SUtf8 [Some "Ana"; Some "Rui"] |} ].

Definition path_eqb (p q : Path) : bool := bool_decide (p = q).

(** The number a string of decimal digits denotes. *)
Fixpoint digits_value (s : string) (acc : Z) : option Z :=
  match s with
  | EmptyString => Some acc
  | String c s' =>
      let n := nat_of_ascii c in
      if (48 <=? n)%nat && (n <=? 57)%nat
      then digits_value s' (10 * acc + Z.of_nat (n - 48))
      else None
  end.

(** The casts of the storage engine the samples meet: integers to their
    decimal strings, and strings of decimal digits to integers. *)
Definition sample_cast (t : dtype) (s : PSeries) : result PSeries :=
  match t, s with
  | Utf8, PInt64 v => Ok (PObject (map (fun z => PyStr (Py.str_int z)) v))
  | Int64, PObject v =>
      result_bind
        (result_map (fun o =>
           match o with
           | PyStr (String c x) =>
               match digits_value (String c x) 0 with
               | Some z => Ok z
               | None => Raise (PyException ("Cannot cast string '" +:+ String c x
                                             +:+ "' to value of Int64 type"))
               end
           | _ => Raise (PyException "Cannot cast value to Int64 type")
           end) v)
        (fun zs => Ok (PInt64 zs))
  | _, _ => Raise (PyException "Cast not supported")
  end.

Definition sample_env : Environment := {|
  PROJECT_ROOT := ["srv"; "Delta_lake"];
  pl_read_csv := fun p sep =>
    if path_eqb p sample_csv
    then if String.eqb sep ";" then Ok sample_csv_two_columns else Ok sample_csv_one_column
    else Raise (PyException "No such file or directory");
  pl_read_excel := fun p =>
    if path_eqb p sample_xlsx then Ok []
    else Raise (PyException "No such file or directory");
  pd_read_csv := fun _ => Raise (PyException "No such file or directory");
  pd_read_excel := fun _ => Raise (PyException "No such file or directory");
  st_size := fun _ => 20%Z;
  iterdir := fun p =>
    if path_eqb p ["srv"; "Landing_zone"; "data"; "raw"; "diabetes"]
    then Some (Ok [(sample_csv, true); (sample_xlsx, true)])
    else None;
  pl_float_str := fun _ => "0.0";
  pl_list_str := fun _ => Some "[]";
  pl_struct_str := fun _ => Some "{}";
  py_float_str := fun _ => "0.0";
  py_list_str := fun _ => "[]";
  py_dict_str := fun _ => "{}";
  delta_cast := sample_cast
|}.

Definition sample_world : world :=
  {| log := []; now := "2024-05-01T12:00:00"; bronze := ∅ |}.

(** A table with a number column empty in one row, an all-null column and
    a string column empty in one row. *)
Definition sample_mixed : DataFrame :=
  [ {| col_name := "idade"; col_data := SInt64 [Some 41%Z; None] |};
    {| col_name := "obs"; col_data := SNull 2 |};
    {| col_name := "nome"; col_data := SUtf8 [Some "Ana"; None] |} ].

(** A table with an all-null column, a string column empty in one row and
    a list column empty in one row. *)
Definition sample_nested : DataFrame :=
  [ {| col_name := "obs"; col_data := SNull 2 |};
    {| col_name := "nome"; col_data := SUtf8 [Some "Ana"; None] |};
    {| col_name := "tags"; col_data := SList Int64 [Some [PyInt 1]; None] |} ].

(** What the normalizer makes of [sample_nested]. *)
Definition sample_nested_clean : DataFrame :=
  Eval vm_compute in
    match fst (_clean_null_columns (H := sample_env) sample_nested sample_world) with
    | Ok d => d
    | Raise _ => []
    end.

Definition sample_nested_world : world :=
  Eval vm_compute in snd (_clean_null_columns (H := sample_env) sample_nested sample_world).

(** A world in which the table of cluster "diabetes" exists, with a string
    column [id]. *)
Definition sample_world_with_table : world :=
  {| log := [];
     now := "2024-05-02T08:30:00";
     bronze := {[ PathLib.str (table_path (H := sample_env) "diabetes")
                  := Some {| Delta.schema := [("id", Utf8)]; Delta.commits := [] |} ]} |}.



(** ** Terms for the further properties *)

(** The number of rows of a pandas column. *)
Definition plen (s : PSeries) : nat :=
  match s with
  | PInt64 v => length v
  | PFloat64 v => length v
  | PBool v => length v
  | PObject v => length v
  end.

(** No cell of the column is null. *)
Definition no_null_cells (s : Series) : bool := negb (existsb id (null_mask s)).

(** The column [c] stands for the column [c0] in a normalized table: it has
    the name and the number of rows of [c0], a type that is neither null
    nor nested, and no null cell. *)
Definition kept_as (c0 c : Column) : Prop :=
  col_name c = col_name c0 /\
  series_len (col_data c) = series_len (col_data c0) /\
  is_null_or_nested (col_dtype c) = false /\
  no_null_cells (col_data c) = true.

(** All the columns of a frame have the height of the frame, as polars
    guarantees. *)
Definition rectangular (df : DataFrame) : bool :=
  forallb (fun c => (series_len (col_data c) =? height df)%nat) df.

(** [df.schema]: the names and types of the columns. *)
Definition schema_of (df : DataFrame) : list (string * dtype) :=
  map (fun c => (col_name c, col_dtype c)) df.

(** A column as the normalizer leaves it when the table has rows. *)
Definition clean_column (c : Column) : Prop :=
  is_null_or_nested (col_dtype c) = false /\
  no_null_cells (col_data c) = true /\
  series_len (col_data c) <> 0%nat.

(** The cell [o] can be read at the type [t]. *)
Definition fits (o : pyobj) (t : dtype) : bool :=
  match o, t with
  | PyStr _, Utf8 | PyInt _, Int64 | PyInt _, Float64
  | PyFloat _, Float64 | PyBool _, Boolean => true
  | _, _ => false
  end.

(** The type [a] is taken up by the type [b] when pyarrow unifies them. *)
Definition widens (a b : dtype) : bool :=
  match a, b with
  | Null, _ => true
  | Int64, Float64 => true
  | _, _ => dtype_eqb a b
  end.

(** A cell that holds a string, a number or a boolean. *)
Definition value_cell (o : pyobj) : bool :=
  match o with
  | PyStr _ | PyInt _ | PyFloat _ | PyBool _ => true
  | _ => false
  end.

(** The world after [sample_csv] has been read in the world [w]. *)
Definition sample_read_world (w : world) : world :=
  add_log (add_log w INFO "📊 Lendo arquivo: PACIENTES.CSV")
          INFO "📈 CSV lido (sep ','): 2 linhas, 1 colunas".

(** The annotated table of [sample_csv]. *)
Definition sample_annotated : DataFrame :=
  Eval vm_compute in
    match fst (_add_metadata (H := sample_env) sample_csv_one_column sample_csv "diabetes"
                 (sample_read_world sample_world)) with
    | Ok d => d
    | Raise _ => []
    end.

(** The table of cluster "diabetes" after [sample_csv] has been ingested
    once. *)
Definition sample_table : Delta.DeltaTable :=
  {| Delta.schema := schema_of sample_annotated;
     Delta.commits := [Polars.to_pandas sample_annotated] |}.

Definition sample_world_ingested : world :=
  {| log := [];
     now := "2024-05-01T12:00:00";
     bronze := {[ PathLib.str (table_path (H := sample_env) "diabetes") := Some sample_table ]} |}.

(** A world in which the table of cluster "diabetes" holds the row count as
    strings: the row count of a file, an integer, can be cast to it. *)
Definition sample_world_castable : world :=
  {| log := [];
     now := "2024-05-01T12:00:00";
     bronze := {[ PathLib.str (table_path (H := sample_env) "diabetes")
                  := Some {| Delta.schema := [("_row_count", Utf8)];
                             Delta.commits := [] |} ]} |}.

(** The annotated table of [sample_csv] as that table takes it. *)
Definition sample_annotated_cast : PandasDF :=
  Eval vm_compute in
    match result_map (Delta.merge_column (H := sample_env) [("_row_count", Utf8)])
            (Polars.to_pandas sample_annotated) with
    | Ok pdf => pdf
    | Raise _ => []
    end.

(** A world in which the table of cluster "diabetes" holds the column
    [id;nome] as integers: the strings of [sample_csv] in that column
    cannot be cast to it. *)
Definition sample_world_conflict : world :=
  {| log := [];
     now := "2024-05-01T12:00:00";
     bronze := {[ PathLib.str (table_path (H := sample_env) "diabetes")
                  := Some {| Delta.schema := [("id;nome", Int64)];
                             Delta.commits := [] |} ]} |}.

(** A computation that changes the bronze store at the key [k] at most. *)
Definition touches_only {A} (k : string) (m : M A) : Prop :=
  forall w r w', m w = (r, w') ->
  forall k', k' <> k -> bronze w' !! k' = bronze w !! k'.

(** A computation that lets no ordinary exception out. *)
Definition contained {A} (m : M A) : Prop :=
  forall w e w', m w = (Raise e, w') -> is_Exception e = false.

(** The entries of a directory the backlog scan processes: the files with a
    supported extension. *)
Definition scanned (entries : list (Path * bool)) : list (Path * bool) :=
  List.filter (fun entry => snd entry && supported (fst entry)) entries.

(** What a table of schema [old] takes for an incoming column [c] under
    schema merge: [c] itself when the table has no column of that name, or
    has it at the type of [c]; otherwise [c] cast to the type the table
    has. *)
Definition taken_as `{Environment} (old : list (string * dtype)) (c c' : PColumn) : Prop :=
  pcol_name c' = pcol_name c /\
  match Delta.lookup_type (pcol_name c) old with
  | None => c' = c
  | Some t0 =>
      (Delta.column_type (pcol_data c) = Ok t0 -> c' = c) /\
      (Delta.column_type (pcol_data c) <> Ok t0 ->
       delta_cast t0 (pcol_data c) = Ok (pcol_data c'))
  end.

(** Whether a task ends by a cancellation in its delay. *)
Definition in_delay (how : ending) : bool :=
  match how with
  | CancelledInDelay => true
  | Runs | CancelledUnstarted => false
  end.

(** * Properties *)

(** ** Paths and extensions *)

Example suffix_upper : PathLib.suffix ["landing"; "DATA.CSV"] = ".CSV".
Proof. reflexivity. Qed.

Example lower_upper : Py.lower ".CSV" = ".csv".
Proof. reflexivity. Qed.

(** ** The library models *)

Lemma result_map_Ok {A B} (f : A -> result B) (l : list A) (l' : list B) :
  result_map f l = Ok l' -> Forall2 (fun x y => f x = Ok y) l l'.
Proof.
  revert l'. induction l as [|x l IH]; simpl; intros l' Hl.
  - injection Hl as <-. constructor.
  - destruct (f x) as [y|e] eqn:Hx; simpl in Hl; [|discriminate].
    destruct (result_map f l) as [ys|e] eqn:Hys; simpl in Hl; [|discriminate].
    injection Hl as <-. constructor; auto.
Qed.

Lemma unify_scalar a b u :
  scalar_or_null a = true -> scalar_or_null b = true -> Arrow.unify a b = Some u ->
  scalar_or_null u = true /\ (u = Null -> a = Null /\ b = Null).
Proof.
  destruct a, b; simpl; try discriminate; intros _ _ [= <-]; split; auto; discriminate.
Qed.

Lemma infer_scalar o :
  scalar_cell o = true ->
  exists t, Arrow.infer o = Some t /\ scalar_or_null t = true /\ (t = Null -> o = PyNone).
Proof.
  destruct o; simpl; try discriminate; intros _; eexists; (split; [reflexivity|]);
    split; auto; discriminate.
Qed.

Lemma infer_cells_scalar v : forall acc t,
  Forall (fun o => scalar_cell o = true) v -> scalar_or_null acc = true ->
  Arrow.infer_cells v acc = Some t ->
  scalar_or_null t = true /\ (t = Null -> acc = Null /\ Forall (fun o => o = PyNone) v).
Proof.
  induction v as [|o v IH]; simpl; intros acc t Hv Hacc Ht.
  - injection Ht as <-. auto.
  - inversion Hv as [|? ? Ho Hv']; subst.
    destruct (infer_scalar o Ho) as (to & Hto & Hs & Hn). rewrite Hto in Ht.
    destruct (Arrow.unify acc to) as [u|] eqn:Hu; [|discriminate].
    destruct (unify_scalar _ _ _ Hacc Hs Hu) as [Hus Hun].
    destruct (IH u t Hv' Hus Ht) as [Hts Htn]. split; [exact Hts|].
    intros Heq. destruct (Htn Heq) as [-> Hall].
    destruct (Hun eq_refl) as [-> ->]. split; [reflexivity|].
    constructor; auto.
Qed.

Lemma first_non_none_Some v o :
  Polars.first_non_none v = Some o -> o <> PyNone /\ In o v.
Proof.
  induction v as [|x v IH]; simpl; [discriminate|].
  destruct x; try (intros [= <-]; split; [discriminate | left; reflexivity]).
  intros Hv. destruct (IH Hv). split; auto.
Qed.

Lemma cells_to_series_dtype t v : dtype_of (Arrow.cells_to_series t v) = t.
Proof. destruct t; reflexivity. Qed.

(** Reading a pandas column without nested cells never yields a null, list
    or struct column. *)
Lemma series_from_pandas_scalar s s' :
  scalar_cells s -> Polars.series_from_pandas s = Ok s' ->
  is_null_or_nested (dtype_of s') = false.
Proof.
  destruct s as [v|v|v|v]; simpl; intros Hs Hr; try (injection Hr as <-; reflexivity).
  destruct (Polars.first_non_none v) as [o|] eqn:Hfirst.
  - assert (Hgen : match Arrow.infer_cells v Null with
                   | Some t => is_null_or_nested t = false
                   | None => True
                   end).
    { destruct (Arrow.infer_cells v Null) as [t|] eqn:Ht; [|exact I].
      destruct (infer_cells_scalar v Null t Hs eq_refl Ht) as [Hts Htn].
      destruct t; simpl in *; try reflexivity; try discriminate.
      destruct (Htn eq_refl) as [_ Hall].
      destruct (first_non_none_Some _ _ Hfirst) as [Hne Hin].
      rewrite Forall_forall in Hall. elim Hne. apply Hall.
      apply list_elem_of_In. exact Hin. }
    destruct o;
      try (destruct (Arrow.infer_cells v Null) as [t|]; [|discriminate];
           injection Hr as <-; rewrite cells_to_series_dtype; exact Hgen).
    destruct (forallb Polars.is_str_or_none v); [|discriminate].
    injection Hr as <-. reflexivity.
  - injection Hr as <-. reflexivity.
Qed.

Lemma series_to_pandas_scalar s :
  scalar_or_null (dtype_of s) = true -> scalar_cells (Polars.series_to_pandas s).
Proof.
  destruct s as [v|v|v|v|n|t v|fs v]; simpl; try discriminate; intros _.
  - apply Forall_map, Forall_forall. intros [x|] _; reflexivity.
  - destruct (Polars.no_null v); exact I.
  - exact I.
  - destruct (Polars.no_null v); [exact I|].
    apply Forall_map, Forall_forall. intros [x|] _; reflexivity.
  - apply Forall_forall. intros o Ho. apply list_elem_of_In, repeat_spec in Ho.
    subst. reflexivity.
Qed.

Lemma fillna_series_scalar s :
  scalar_cells s -> scalar_cells (Pandas.fillna_series s).
Proof.
  destruct s as [v|v|v|v]; simpl; auto.
  - intros _. destruct (existsb _ v); [|exact I].
    apply Forall_map, Forall_forall. intros [q|] _; reflexivity.
  - intros Hv. apply Forall_map. eapply Forall_impl; [exact Hv|].
    intros o Ho. simpl. destruct (Pandas.isna o); auto.
Qed.

Lemma from_pandas_Ok pdf df :
  Polars.from_pandas pdf = Ok df ->
  Forall2 (fun c d => col_name d = pcol_name c /\
                      Polars.series_from_pandas (pcol_data c) = Ok (col_data d)) pdf df.
Proof.
  intros Hr. apply result_map_Ok in Hr.
  eapply Forall2_impl; [exact Hr|]. intros c d. simpl.
  destruct (Polars.series_from_pandas (pcol_data c)) as [s|e]; simpl; [|discriminate].
  intros [= <-]. auto.
Qed.

Lemma from_pandas_scalar pdf df :
  Forall (fun c => scalar_cells (pcol_data c)) pdf ->
  Polars.from_pandas pdf = Ok df ->
  Forall (fun c => is_null_or_nested (col_dtype c) = false) df.
Proof.
  intros Hs Hr. apply from_pandas_Ok in Hr.
  induction Hr as [|c d pdf df [_ Hcd] _ IH]; [constructor|].
  inversion Hs; subst. constructor; [|auto].
  eapply series_from_pandas_scalar; eauto.
Qed.

(** A column of strings is read back as a string column, without error. *)
Lemma series_from_pandas_str s :
  all_str s ->
  exists v, Polars.series_from_pandas s = Ok (SUtf8 v).
Proof.
  destruct s as [v|v|v|v]; simpl; try contradiction. intros Hv.
  destruct v as [|o v]; simpl; [eauto|].
  inversion Hv as [|? ? [x ->] Hv']; subst. simpl.
  replace (forallb Polars.is_str_or_none v) with true; [simpl; eauto|].
  symmetry. apply forallb_forall. intros o Ho.
  rewrite Forall_forall in Hv'. destruct (Hv' o) as [y ->]; [|reflexivity].
  apply list_elem_of_In. exact Ho.
Qed.


(** The library models raise ordinary exceptions only. *)
Lemma result_bind_ordinary {A B} (r : result A) (k : A -> result B) :
  ordinary r -> (forall a, ordinary (k a)) -> ordinary (result_bind r k).
Proof. destruct r; simpl; auto. Qed.

Lemma result_map_ordinary {A B} (f : A -> result B) (l : list A) :
  (forall x, ordinary (f x)) -> ordinary (result_map f l).
Proof.
  intros Hf. induction l as [|x l IH]; simpl; [exact I|].
  apply result_bind_ordinary; [apply Hf|]. intros y.
  apply result_bind_ordinary; [exact IH|]. intros ys. exact I.
Qed.

Lemma series_from_pandas_ordinary s : ordinary (Polars.series_from_pandas s).
Proof.
  destruct s as [v|v|v|v]; simpl; auto.
  destruct (Polars.first_non_none v) as [o|]; [|exact I].
  destruct o;
    try solve [destruct (Arrow.infer_cells v Null); simpl; auto].
  destruct (forallb Polars.is_str_or_none v); simpl; auto.
Qed.

Lemma from_pandas_ordinary pdf : ordinary (Polars.from_pandas pdf).
Proof.
  apply result_map_ordinary. intros c.
  apply result_bind_ordinary; [apply series_from_pandas_ordinary|]. intros; exact I.
Qed.

Lemma cast_ordinary `{Environment} df cast_dict : ordinary (Polars.cast df cast_dict).
Proof.
  apply result_map_ordinary. intros c.
  destruct (cast_dict !! col_name c) as [t|]; [|exact I].
  destruct t; try reflexivity.
  apply result_bind_ordinary; [|intros; exact I].
  destruct (col_data c); simpl; try exact I;
    (apply result_bind_ordinary; [|intros; exact I]);
    apply result_map_ordinary; intros [x|]; simpl; try exact I.
  - destruct (pl_list_str x); reflexivity.
  - destruct (pl_struct_str x); reflexivity.
Qed.

(** ** The Schema Normalizer *)

Ltac unfold_M :=
  unfold mbind, M_bind, mret, M_ret, try_except, logger, lift, raise,
    get_now, get_bronze, put_bronze in *.

Section NormalizerFacts.
Context `{Environment}.

Lemma astype_fill_all_str s : all_str (Pandas.fillna_series (Pandas.astype_str s)).
Proof.
  destruct s as [v|v|v|v]; simpl; apply Forall_map, Forall_map, Forall_forall;
    intros x _; simpl.
  - eauto.
  - destruct x; simpl; eauto.
  - eauto.
  - eauto.
Qed.

Lemma last_resort_from_pandas df :
  exists out, Polars.from_pandas (last_resort_frame df) = Ok out /\
              columns out = columns df /\
              Forall (fun c => col_dtype c = Utf8) out.
Proof.
  unfold last_resort_frame, Polars.to_pandas, Polars.from_pandas.
  induction df as [|c df (out & Hout & Hcols & Hty)]; simpl.
  - exists []. repeat split; constructor.
  - destruct (series_from_pandas_str _ (astype_fill_all_str (Polars.series_to_pandas (col_data c))))
      as [v Hv].
    rewrite Hv. simpl. rewrite Hout. simpl.
    eexists. split; [reflexivity|]. split.
    + simpl. f_equal. exact Hcols.
    + constructor; [reflexivity|exact Hty].
Qed.

(** The last-resort pass cannot fail: it returns every column of its
    input as a string column. *)
Lemma clean_last_resort_total df e w :
  exists out w',
    clean_last_resort df e w = (Ok out, w') /\
    columns out = columns df /\
    Forall (fun c => col_dtype c = Utf8) out /\
    bronze w' = bronze w /\ now w' = now w.
Proof.
  destruct (last_resort_from_pandas df) as (out & Hout & Hcols & Hty).
  unfold clean_last_resort. fold (last_resort_frame df). unfold_M. simpl.
  rewrite Hout. simpl. eauto 10.
Qed.

Lemma cast_condition t :
  dtype_eqb t Null
  || (Py.startswith "List" (Polars.dtype_str t) || Py.startswith "Struct" (Polars.dtype_str t))
  = is_null_or_nested t.
Proof. destruct t; reflexivity. Qed.

Lemma collect_step_eq acc c :
  collect_step acc c =
  if is_null_or_nested (col_dtype c)
  then (<[col_name c := Utf8]> (fst acc), S (snd acc))
  else acc.
Proof.
  destruct acc as [d n]. unfold collect_step. rewrite <- cast_condition.
  destruct (dtype_eqb (col_dtype c) Null); simpl; [reflexivity|].
  destruct (_ || _); reflexivity.
Qed.

(** What the collecting loop leaves in [cast_dict]: exactly the names of
    the null and nested columns, each bound to [pl.Utf8]. *)
Lemma collect_casts_lookup df k :
  (fst (collect_casts df)) !! k =
  if existsb (fun c => String.eqb (col_name c) k && is_null_or_nested (col_dtype c)) df
  then Some Utf8 else None.
Proof.
  unfold collect_casts.
  assert (Hgen : forall acc,
    fst (fold_left collect_step df acc) !! k =
    if existsb (fun c => String.eqb (col_name c) k && is_null_or_nested (col_dtype c)) df
    then Some Utf8 else fst acc !! k).
  { induction df as [|c df IH]; intros acc; simpl; [reflexivity|].
    rewrite IH, collect_step_eq.
    destruct (existsb _ df); [rewrite orb_true_r; reflexivity|]. rewrite orb_false_r.
    destruct (is_null_or_nested (col_dtype c)); simpl.
    - destruct (String.eqb_spec (col_name c) k) as [->|Hne]; simpl.
      + apply lookup_insert_eq.
      + apply lookup_insert_ne. exact Hne.
    - rewrite andb_false_r. reflexivity. }
  rewrite Hgen. simpl. rewrite lookup_empty. reflexivity.
Qed.

Lemma cast_utf8_dtype s s' : Polars.cast_utf8 s = Ok s' -> dtype_of s' = Utf8.
Proof.
  destruct s; simpl; try (intros [= <-]; reflexivity);
    (destruct (result_map _ v); simpl; [intros [= <-]; reflexivity|discriminate]).
Qed.

Lemma cast_covering (cast_dict : gmap string dtype) df df1 :
  (forall c, In c df -> is_null_or_nested (col_dtype c) = true ->
             cast_dict !! col_name c = Some Utf8) ->
  Polars.cast df cast_dict = Ok df1 ->
  Forall (fun c => is_null_or_nested (col_dtype c) = false) df1.
Proof.
  unfold Polars.cast. intros Hcov Hr. apply result_map_Ok in Hr.
  induction Hr as [|c c1 cols cols1 Hc _ IH]; [constructor|].
  constructor; [|apply IH; intros; apply Hcov; [right|]; assumption].
  destruct (is_null_or_nested (col_dtype c)) eqn:Hn.
  - rewrite (Hcov c (or_introl eq_refl) Hn) in Hc.
    destruct (Polars.cast_utf8 (col_data c)) as [s|] eqn:Hs; simpl in Hc; [|discriminate].
    injection Hc as <-. unfold col_dtype. simpl.
    rewrite (cast_utf8_dtype _ _ Hs). reflexivity.
  - destruct (cast_dict !! col_name c) as [t|]; [|injection Hc as <-; exact Hn].
    destruct t; try discriminate.
    destruct (Polars.cast_utf8 (col_data c)) as [s|] eqn:Hs; simpl in Hc; [|discriminate].
    injection Hc as <-. unfold col_dtype. simpl.
    rewrite (cast_utf8_dtype _ _ Hs). reflexivity.
Qed.

Lemma cast_collected df df1 :
  Polars.cast df (fst (collect_casts df)) = Ok df1 ->
  Forall (fun c => is_null_or_nested (col_dtype c) = false) df1.
Proof.
  apply cast_covering. intros c Hin Hn. rewrite collect_casts_lookup.
  replace (existsb _ df) with true; [reflexivity|].
  symmetry. apply existsb_exists. exists c. split; [exact Hin|].
  rewrite String.eqb_refl, Hn. reflexivity.
Qed.

Lemma collect_casts_empty df :
  fst (collect_casts df) = ∅ ->
  Forall (fun c => is_null_or_nested (col_dtype c) = false) df.
Proof.
  intros He. apply Forall_forall. intros c Hin. apply list_elem_of_In in Hin.
  destruct (is_null_or_nested (col_dtype c)) eqn:Hn; [|reflexivity].
  assert (Hl := collect_casts_lookup df (col_name c)). rewrite He, lookup_empty in Hl.
  replace (existsb _ df) with true in Hl; [discriminate|].
  symmetry. apply existsb_exists. exists c. split; [exact Hin|].
  rewrite String.eqb_refl, Hn. reflexivity.
Qed.

(** After the cast no column is null or nested. *)
Lemma clean_cast_scalar df w df1 w1 :
  clean_cast df w = (Ok df1, w1) ->
  Forall (fun c => is_null_or_nested (col_dtype c) = false) df1.
Proof.
  unfold clean_cast.
  destruct (collect_casts df) as [cast_dict null_count] eqn:Hc.
  assert (Hd : cast_dict = fst (collect_casts df)) by (rewrite Hc; reflexivity).
  case_bool_decide as He.
  - unfold_M. intros [= <- <-]. apply collect_casts_empty. congruence.
  - unfold_M. simpl.
    destruct (Polars.cast df cast_dict) as [d|e] eqn:Hcast; [|discriminate].
    intros [= <- <-]. subst cast_dict. eapply cast_collected; eauto.
Qed.

(** The trip through pandas brings back no null or nested column. *)
Lemma clean_pandas_scalar df w out w' :
  Forall (fun c => is_null_or_nested (col_dtype c) = false) df ->
  clean_pandas df w = (Ok out, w') ->
  Forall (fun c => is_null_or_nested (col_dtype c) = false) out.
Proof.
  intros Hdf. unfold clean_pandas. unfold_M.
  destruct (Polars.from_pandas _) as [d|e] eqn:Hfp; simpl; [|discriminate].
  intros [= <- <-]. eapply from_pandas_scalar; [|exact Hfp].
  unfold Pandas.fillna, Pandas.dropna_all_columns, Polars.to_pandas.
  apply Forall_map. simpl. apply Forall_forall. intros c Hin.
  apply list_elem_of_In, filter_In in Hin. destruct Hin as [Hin _].
  apply in_map_iff in Hin. destruct Hin as (c0 & <- & Hin0). simpl.
  apply fillna_series_scalar, series_to_pandas_scalar.
  rewrite Forall_forall in Hdf. specialize (Hdf c0).
  unfold col_dtype in Hdf.
  destruct (dtype_of (col_data c0)); simpl in *; try reflexivity;
    symmetry; apply Hdf, list_elem_of_In; exact Hin0.
Qed.

(** The normalizer returns a table for every input, and that table has no
    null and no nested column. *)
Lemma clean_cast_ordinary df w e w1 :
  clean_cast df w = (Raise e, w1) -> is_Exception e = true.
Proof.
  unfold clean_cast. destruct (collect_casts df) as [cast_dict null_count].
  case_bool_decide; unfold_M; simpl; [discriminate|].
  assert (Ho := cast_ordinary df cast_dict).
  destruct (Polars.cast df cast_dict); [discriminate|].
  intros [= <- <-]. exact Ho.
Qed.

Lemma clean_pandas_ordinary df w e w1 :
  clean_pandas df w = (Raise e, w1) -> is_Exception e = true.
Proof.
  unfold clean_pandas. unfold_M.
  match goal with |- context [Polars.from_pandas ?p] => assert (Ho := from_pandas_ordinary p);
    destruct (Polars.from_pandas p) end; simpl; [discriminate|].
  intros [= <- <-]. exact Ho.
Qed.

End NormalizerFacts.

(** ** The primary pass of the normalizer, column by column *)

Section PrimaryPassFacts.
Context `{Environment}.

Lemma no_null_mask {A} (v : list (option A)) :
  Polars.no_null v = negb (existsb id (map is_none v)).
Proof.
  unfold Polars.no_null. induction v as [|[x|] v IH]; simpl; auto.
Qed.

Lemma from_pandas_strings (l : list string) :
  Polars.series_from_pandas (PObject (map PyStr l)) = Ok (SUtf8 (map Some l)).
Proof.
  destruct l as [|x l]; simpl; [reflexivity|].
  replace (forallb Polars.is_str_or_none (map PyStr l)) with true.
  - simpl. do 3 f_equal. rewrite map_map. reflexivity.
  - symmetry. apply forallb_forall. intros o Ho. apply in_map_iff in Ho.
    destruct Ho as (y & <- & _). reflexivity.
Qed.

(** A string column comes back from pandas with its empty cells filled. *)
Lemma trip_utf8 v :
  Polars.series_from_pandas (Pandas.fillna_series (Polars.series_to_pandas (SUtf8 v)))
  = Ok (filled (SUtf8 v)).
Proof.
  unfold Polars.series_to_pandas, Pandas.fillna_series, filled. rewrite map_map.
  rewrite (map_ext _ (fun c : option string => PyStr (default "" c)))
    by (intros [x|]; reflexivity).
  rewrite <- (map_map (default "") PyStr), from_pandas_strings, map_map. reflexivity.
Qed.

(** A number or boolean column without an empty cell comes back as it
    was. *)
Lemma trip_no_null s :
  match s with SInt64 _ | SFloat64 _ | SBoolean _ => True | _ => False end ->
  existsb id (null_mask s) = false ->
  Polars.series_from_pandas (Pandas.fillna_series (Polars.series_to_pandas s)) = Ok s.
Proof.
  destruct s as [v|v|v|v|n|t v|fs v]; simpl; try contradiction; intros _ Hn.
  - rewrite no_null_mask, Hn. simpl. rewrite map_map. do 2 f_equal.
    induction v as [|[x|] v IH]; simpl in *; try discriminate; [reflexivity|].
    rewrite IH; auto.
  - assert (He : existsb (fun c : option Q => match c with None => true | Some _ => false end) v
                 = existsb id (map is_none v))
      by (clear; induction v as [|[x|] v IH]; simpl; auto).
    rewrite He, Hn. reflexivity.
  - rewrite no_null_mask, Hn. simpl. rewrite map_map. do 2 f_equal.
    induction v as [|[x|] v IH]; simpl in *; try discriminate; [reflexivity|].
    rewrite IH; auto.
Qed.

(** pandas sees a column as all missing exactly when every cell of it is
    empty. *)
Lemma all_na_to_pandas s :
  is_null_or_nested (dtype_of s) = false ->
  Pandas.all_na (Polars.series_to_pandas s) = forallb id (null_mask s).
Proof.
  assert (Hnil : forall A (v : list (option A)),
            existsb id (map is_none v) = false -> forallb id (map is_none v) = true ->
            v = []).
  { intros A [|[x|] v]; simpl; auto; discriminate. }
  destruct s as [v|v|v|v|n|t v|fs v]; simpl; try discriminate; intros _.
  - induction v as [|[x|] v IH]; simpl; auto.
  - rewrite no_null_mask. destruct (existsb id (map is_none v)) eqn:Hn; simpl.
    + clear. induction v as [|[x|] v IH]; simpl; auto.
    + destruct (forallb id (map is_none v)) eqn:Ha.
      * rewrite (Hnil _ v Hn Ha). reflexivity.
      * destruct v as [|[x|] v]; simpl in *; try discriminate; reflexivity.
  - induction v as [|[x|] v IH]; simpl; auto.
  - rewrite no_null_mask. destruct (existsb id (map is_none v)) eqn:Hn; simpl.
    + clear. induction v as [|[x|] v IH]; simpl; auto.
    + destruct (forallb id (map is_none v)) eqn:Ha.
      * rewrite (Hnil _ v Hn Ha). reflexivity.
      * destruct v as [|[x|] v]; simpl in *; try discriminate; reflexivity.
Qed.

Lemma coerced_dtype s :
  is_null_or_nested (dtype_of (coerced s)) = false.
Proof. destruct s; reflexivity. Qed.

Lemma render_cells {A} (f : A -> option string) (msg : string) (v : list (option A)) :
  forallb (fun cell => match cell with
                       | Some l => negb (is_none (f l))
                       | None => true
                       end) v = true ->
  result_map (fun c => match c with
                       | None => Ok None
                       | Some l => match f l with
                                   | Some x => Ok (Some x)
                                   | None => Raise (PyException msg)
                                   end
                       end) v
  = Ok (map (fun cell => cell ≫= f) v) /\
  map is_none (map (fun cell => cell ≫= f) v) = map is_none v.
Proof.
  induction v as [|[l|] v IH]; simpl; intros Hv; [auto| |].
  - apply andb_prop in Hv. destruct Hv as [Hl Hv]. destruct (IH Hv) as [-> ->].
    destruct (f l); simpl in *; [auto|discriminate].
  - destruct (IH Hv) as [-> ->]. auto.
Qed.

Lemma coerced_scalar s : is_null_or_nested (dtype_of s) = false -> coerced s = s.
Proof. destruct s; simpl; auto; discriminate. Qed.

Lemma coerced_mask c :
  primary_ok_column c = true -> null_mask (coerced (col_data c)) = null_mask (col_data c).
Proof.
  unfold primary_ok_column.
  destruct (col_data c) as [v|v|v|v|n|t v|fs v]; simpl; auto; intros Hv.
  - induction n; simpl; f_equal; auto.
  - apply (render_cells pl_list_str "" v Hv).
  - apply (render_cells pl_struct_str "" v Hv).
Qed.

Lemma result_map_pointwise {A B} (f : A -> result B) (g : A -> B) (l : list A) :
  (forall x, In x l -> f x = Ok (g x)) -> result_map f l = Ok (map g l).
Proof.
  induction l as [|x l IH]; simpl; intros Hf; [reflexivity|].
  rewrite (Hf x (or_introl eq_refl)), IH by (intros; apply Hf; right; assumption).
  reflexivity.
Qed.

Lemma coerce_column_scalar c :
  is_null_or_nested (col_dtype c) = false -> coerce_column c = c.
Proof.
  unfold coerce_column, col_dtype. intros Hc. rewrite coerced_scalar by exact Hc.
  destruct c; reflexivity.
Qed.

Lemma primary_ok_In df c : primary_ok df = true -> In c df -> primary_ok_column c = true.
Proof. unfold primary_ok. rewrite forallb_forall. auto. Qed.

Lemma from_pandas_columns (d : DataFrame) :
  Polars.from_pandas (Pandas.fillna (Pandas.dropna_all_columns (Polars.to_pandas d))) =
  result_map
    (fun c => result_bind
                (Polars.series_from_pandas
                   (Pandas.fillna_series (Polars.series_to_pandas (col_data c))))
                (fun s => Ok {| col_name := col_name c; col_data := s |}))
    (List.filter (fun c => negb (Pandas.all_na (Polars.series_to_pandas (col_data c)))) d).
Proof.
  unfold Polars.from_pandas, Pandas.fillna, Pandas.dropna_all_columns, Polars.to_pandas.
  induction d as [|c d IH]; simpl; [reflexivity|].
  destruct (Pandas.all_na (Polars.series_to_pandas (col_data c))); simpl; [exact IH|].
  rewrite IH. reflexivity.
Qed.

(** The pandas stage on a table of the primary pass. *)
Lemma clean_pandas_primary df w :
  primary_ok df = true ->
  exists w1, clean_pandas (map coerce_column df) w = (Ok (normalized df), w1) /\
             bronze w1 = bronze w /\ now w1 = now w.
Proof.
  intros Hok. unfold clean_pandas. rewrite from_pandas_columns.
  assert (Hfilter :
    List.filter (fun c => negb (Pandas.all_na (Polars.series_to_pandas (col_data c))))
                (map coerce_column df)
    = map coerce_column (List.filter (fun c => negb (all_empty c)) df)).
  { clear - Hok. induction df as [|c df IH]; simpl; [reflexivity|].
    simpl in Hok. apply andb_prop in Hok. destruct Hok as [Hc Hok].
    rewrite all_na_to_pandas by apply coerced_dtype.
    rewrite (coerced_mask c Hc). fold (all_empty c).
    destruct (all_empty c); simpl; rewrite IH by exact Hok; reflexivity. }
  rewrite Hfilter.
  assert (Hmap :
    result_map
      (fun c => result_bind
                  (Polars.series_from_pandas
                     (Pandas.fillna_series (Polars.series_to_pandas (col_data c))))
                  (fun s => Ok {| col_name := col_name c; col_data := s |}))
      (map coerce_column (List.filter (fun c => negb (all_empty c)) df))
    = Ok (normalized df)).
  { replace (normalized df)
      with (map (fun c => {| col_name := col_name c; col_data := filled (col_data c) |})
                (map coerce_column (List.filter (fun c => negb (all_empty c)) df)))
      by (rewrite map_map; reflexivity).
    apply result_map_pointwise. intros c1 Hin1.
    apply in_map_iff in Hin1. destruct Hin1 as (c & <- & Hin).
    apply filter_In in Hin. destruct Hin as [Hin Hne].
    assert (Hc := primary_ok_In _ _ Hok Hin).
    assert (Hmask := coerced_mask c Hc).
    unfold coerce_column. simpl.
    unfold primary_ok_column, partly_empty, all_empty in *.
    destruct (col_data c) as [v|v|v|v|n|t v|fs v] eqn:Hdata; cbn [coerced];
      try (rewrite trip_utf8; reflexivity).
    - rewrite trip_no_null; [reflexivity|exact I|].
      simpl in *. destruct (existsb id (map is_none v)); [|reflexivity].
      destruct (forallb id (map is_none v)); discriminate.
    - rewrite trip_no_null; [reflexivity|exact I|].
      simpl in *. destruct (existsb id (map is_none v)); [|reflexivity].
      destruct (forallb id (map is_none v)); discriminate.
    - rewrite trip_no_null; [reflexivity|exact I|].
      simpl in *. destruct (existsb id (map is_none v)); [|reflexivity].
      destruct (forallb id (map is_none v)); discriminate. }
  unfold_M. rewrite Hmap. simpl. eauto.
Qed.

End PrimaryPassFacts.

(** ** The Metadata Annotator *)

Lemma get_column_set_column df c n :
  get_column (Polars.set_column df c) n =
  if String.eqb (col_name c) n then Some c else get_column df n.
Proof.
  unfold get_column. induction df as [|d df IH]; simpl.
  - destruct (String.eqb (col_name c) n); reflexivity.
  - destruct (String.eqb_spec (col_name d) (col_name c)) as [Heq|Hne]; simpl.
    + rewrite Heq. destruct (String.eqb (col_name c) n); reflexivity.
    + destruct (String.eqb_spec (col_name d) n) as [Hdn|Hdn].
      * subst n. destruct (String.eqb_spec (col_name c) (col_name d)); congruence.
      * exact IH.
Qed.

Lemma columns_set_column df c n :
  In n (columns (Polars.set_column df c)) <-> n = col_name c \/ In n (columns df).
Proof.
  unfold columns. induction df as [|d df IH]; simpl.
  - intuition.
  - destruct (String.eqb_spec (col_name d) (col_name c)) as [Heq|Hne]; simpl.
    + rewrite Heq. intuition.
    + rewrite IH. intuition.
Qed.

Lemma NoDup_set_column df c :
  NoDup (columns df) -> NoDup (columns (Polars.set_column df c)).
Proof.
  unfold columns. induction df as [|d df IH]; simpl; intros Hnd.
  - repeat constructor. apply not_elem_of_nil.
  - inversion Hnd as [|? ? Hd Hnd']; subst.
    destruct (String.eqb_spec (col_name d) (col_name c)) as [Heq|Hne]; simpl.
    + rewrite <- Heq. constructor; assumption.
    + constructor; [|auto]. rewrite list_elem_of_In. fold (columns (Polars.set_column df c)).
      rewrite columns_set_column. intros [Hc|Hin]; [congruence|].
      apply Hd, list_elem_of_In, Hin.
Qed.

(** ** The Tabular Reader *)

Section ReaderFacts.
Context `{Environment}.

Lemma probe_separators_first file_path before sep after df w :
  Forall (yields_no_row file_path) before ->
  pl_read_csv file_path sep = Ok df ->
  (0 < height df)%nat ->
  probe_separators file_path (before ++ sep :: after) w
  = (Ok (Some df),
     add_log w INFO ("📈 CSV lido (sep '" +:+ sep +:+ "'): " +:+ shape_msg df)).
Proof.
  intros Hbefore Hsep Hrows.
  induction Hbefore as [|s before Hs _ IH]; simpl.
  - unfold_M. rewrite Hsep.
    destruct (0 <? height df)%nat eqn:Hlt; [reflexivity|].
    apply Nat.ltb_ge in Hlt. lia.
  - unfold yields_no_row in Hs. unfold_M.
    destruct (pl_read_csv file_path s) as [d|e].
    + rewrite Hs. simpl. exact IH.
    + rewrite Hs. exact IH.
Qed.

Lemma keeps_bronze_ret {A} (a : A) : keeps_bronze (mret a).
Proof. intros w r w'. unfold_M. intros [= _ <-]. reflexivity. Qed.

Lemma keeps_bronze_raise {A} (e : exn) : keeps_bronze (raise (A := A) e).
Proof. intros w r w'. unfold_M. intros [= _ <-]. reflexivity. Qed.

Lemma keeps_bronze_lift {A} (x : result A) : keeps_bronze (lift x).
Proof. intros w r w'. unfold_M. intros [= _ <-]. reflexivity. Qed.

Lemma keeps_bronze_logger l m : keeps_bronze (logger l m).
Proof. intros w r w'. unfold_M. intros [= _ <-]. reflexivity. Qed.

Lemma keeps_bronze_bind {A B} (m : M A) (k : A -> M B) :
  keeps_bronze m -> (forall a, keeps_bronze (k a)) -> keeps_bronze (m ≫= k).
Proof.
  intros Hm Hk w r w'. unfold mbind, M_bind.
  destruct (m w) as [[a|e] w1] eqn:Hmw.
  - intros Hka. rewrite (Hk a _ _ _ Hka). eapply Hm; eauto.
  - intros [= _ <-]. eapply Hm; eauto.
Qed.

Lemma keeps_bronze_try_except {A} (m : M A) (h : exn -> M A) :
  keeps_bronze m -> (forall e, keeps_bronze (h e)) -> keeps_bronze (try_except m h).
Proof.
  intros Hm Hh w r w'. unfold try_except.
  destruct (m w) as [[a|e] w1] eqn:Hmw.
  - intros [= _ <-]. eapply Hm; eauto.
  - destruct (is_Exception e).
    + intros Hhe. rewrite (Hh e _ _ _ Hhe). eapply Hm; eauto.
    + intros [= _ <-]. eapply Hm; eauto.
Qed.

Ltac keeps_bronze :=
  repeat first
    [ apply keeps_bronze_ret | apply keeps_bronze_raise | apply keeps_bronze_lift
    | apply keeps_bronze_logger
    | apply keeps_bronze_bind; [|intros ?]
    | apply keeps_bronze_try_except; [|intros ?]
    | match goal with |- keeps_bronze (match ?x with _ => _ end) => destruct x end
    | match goal with |- keeps_bronze (if ?x then _ else _) => destruct x end ].

Lemma read_excel_keeps_bronze file_path : keeps_bronze (_read_excel file_path).
Proof. unfold _read_excel. keeps_bronze. Qed.

Lemma probe_separators_keeps_bronze file_path seps :
  keeps_bronze (probe_separators file_path seps).
Proof.
  induction seps as [|sep seps IH]; simpl; keeps_bronze. exact IH.
Qed.

Lemma read_csv_keeps_bronze file_path : keeps_bronze (_read_csv file_path).
Proof.
  unfold _read_csv. apply keeps_bronze_try_except; [|intros ?; keeps_bronze].
  apply keeps_bronze_bind; [apply probe_separators_keeps_bronze|].
  intros ?. keeps_bronze.
Qed.

Lemma supported_formats_lookup ext reader :
  supported_formats !! ext = Some reader ->
  (ext = ".xlsx" \/ ext = ".xls" \/ ext = ".csv") /\
  (reader = _read_excel \/ reader = _read_csv).
Proof.
  unfold supported_formats. intros Hl.
  destruct (decide (ext = ".xlsx")) as [->|H1]; [rewrite lookup_insert_eq in Hl; naive_solver|].
  rewrite lookup_insert_ne in Hl by congruence.
  destruct (decide (ext = ".xls")) as [->|H2]; [rewrite lookup_insert_eq in Hl; naive_solver|].
  rewrite lookup_insert_ne in Hl by congruence.
  destruct (decide (ext = ".csv")) as [->|H3]; [rewrite lookup_insert_eq in Hl; naive_solver|].
  rewrite lookup_insert_ne, lookup_empty in Hl by congruence. discriminate.
Qed.

Lemma reader_keeps_bronze ext reader file_path :
  supported_formats !! ext = Some reader -> keeps_bronze (reader file_path).
Proof.
  intros Hl. destruct (supported_formats_lookup _ _ Hl) as [_ [-> | ->]].
  - apply read_excel_keeps_bronze.
  - apply read_csv_keeps_bronze.
Qed.

Lemma read_file_keeps_bronze file_path : keeps_bronze (_read_file file_path).
Proof.
  unfold _read_file.
  destruct (supported_formats !! _) as [reader|] eqn:Hl; [|apply keeps_bronze_raise].
  unfold read_with. apply keeps_bronze_try_except; [|intros ?; keeps_bronze].
  apply keeps_bronze_bind; [|intros ?; keeps_bronze].
  eapply reader_keeps_bronze; eauto.
Qed.

End ReaderFacts.

(** ** The Bronze Table Writer *)

Lemma dtype_eqb_true : forall a b, dtype_eqb a b = true -> a = b.
Proof.
  fix dtype_eqb_true 1.
  intros a. destruct a as [| | | | |a'|fa]; intros [| | | | |b'|fb]; simpl;
    try discriminate; try reflexivity.
  - intros Hab. f_equal. apply dtype_eqb_true. exact Hab.
  - intros Hab. f_equal. revert fb Hab.
    refine ((fix fields (fa : list (string * dtype)) :
               forall fb, _ fa fb = true -> fa = fb :=
               match fa with
               | [] => fun fb => match fb with [] => fun _ => eq_refl | _ :: _ => _ end
               | (n1, t1) :: ra => fun fb =>
                   match fb with
                   | [] => _
                   | (n2, t2) :: rb => fun Hab => _
                   end
               end) fa).
    + intros Hab. discriminate Hab.
    + intros Hab. discriminate Hab.
    + apply andb_prop in Hab. destruct Hab as [Hab Hr].
      apply andb_prop in Hab. destruct Hab as [Hn Ht].
      apply String.eqb_eq in Hn. apply dtype_eqb_true in Ht. apply fields in Hr.
      subst. reflexivity.
Qed.

Lemma lookup_type_app n old m t :
  Delta.lookup_type n (old ++ [(m, t)]) =
  match Delta.lookup_type n old with
  | Some x => Some x
  | None => if String.eqb m n then Some t else None
  end.
Proof.
  induction old as [|[k x] old IH]; simpl; [reflexivity|].
  destruct (String.eqb k n); [reflexivity|exact IH].
Qed.

Lemma dtype_eqb_refl : forall a, dtype_eqb a a = true.
Proof.
  fix dtype_eqb_refl 1.
  intros [| | | | |a'|fa]; simpl; try reflexivity.
  - apply dtype_eqb_refl.
  - refine ((fix fields (fa : list (string * dtype)) : _ fa fa = true :=
               match fa with
               | [] => eq_refl
               | (n, t) :: ra => _
               end) fa).
    rewrite String.eqb_refl, (dtype_eqb_refl t), (fields ra). reflexivity.
Qed.

(** Schema merge keeps the type of every column the table has and adds
    the columns it lacks. *)
Lemma merge_schema_lookup new : forall old n,
  Delta.lookup_type n (Delta.merge_schema old new) =
  match Delta.lookup_type n old with
  | Some t0 => Some t0
  | None => Delta.lookup_type n new
  end.
Proof.
  induction new as [|[m t] new IH]; simpl; intros old n.
  - destruct (Delta.lookup_type n old); reflexivity.
  - destruct (Delta.lookup_type m old) as [t0|] eqn:Hmo.
    + rewrite (IH _ n).
      destruct (Delta.lookup_type n old) eqn:Hno; [reflexivity|].
      destruct (String.eqb_spec m n); [congruence|reflexivity].
    + rewrite (IH _ n), lookup_type_app.
      destruct (Delta.lookup_type n old); [reflexivity|].
      destruct (String.eqb m n); reflexivity.
Qed.

(** Every column of a frame that has a schema has a type. *)
Lemma frame_schema_types pdf : forall sch,
  Delta.frame_schema pdf = Ok sch ->
  Forall (fun c => exists t, Delta.column_type (pcol_data c) = Ok t) pdf.
Proof.
  unfold Delta.frame_schema.
  induction pdf as [|c pdf IH]; simpl; intros sch Hsch; [constructor|].
  destruct (Delta.column_type (pcol_data c)) as [t|e] eqn:Ht; [|discriminate].
  simpl in Hsch. destruct (dtype_eqb t Null); [discriminate|]. simpl in Hsch.
  destruct (result_map _ pdf) as [r|e] eqn:Hr; [|discriminate].
  constructor; [eauto|]. eapply IH. reflexivity.
Qed.

Section MergeFacts.
Context `{Environment}.

(** The columns a table takes, one by one, are what the engine commits. *)
Lemma merge_columns_taken old pdf pdf' :
  Forall (fun c => exists t, Delta.column_type (pcol_data c) = Ok t) pdf ->
  Forall2 (taken_as old) pdf pdf' ->
  result_map (Delta.merge_column old) pdf = Ok pdf'.
Proof.
  intros Hty Htaken. induction Htaken as [|c c' pdf pdf' [Hname Hc] _ IH]; [reflexivity|].
  inversion Hty as [|? ? [t Ht] Hty']; subst. simpl.
  assert (Hone : Delta.merge_column old c = Ok c').
  { unfold Delta.merge_column. rewrite Ht. simpl.
    destruct (Delta.lookup_type (pcol_name c) old) as [t0|]; [|rewrite Hc; reflexivity].
    destruct Hc as [Hsame Hcast].
    destruct (dtype_eqb t0 t) eqn:Heq.
    - apply dtype_eqb_true in Heq. subst t0. rewrite (Hsame Ht). reflexivity.
    - rewrite Hcast; [|intros Hn; rewrite Ht in Hn; injection Hn as <-;
                         rewrite dtype_eqb_refl in Heq; discriminate].
      simpl. destruct c' as [n' d']. simpl in *. rewrite Hname. reflexivity. }
  rewrite Hone. simpl. rewrite (IH Hty'). reflexivity.
Qed.

(** The engine fails on a column it has to cast and cannot, and on no
    other. *)
Lemma merge_columns_fail old pdf e :
  Forall (fun c => exists t, Delta.column_type (pcol_data c) = Ok t) pdf ->
  result_map (Delta.merge_column old) pdf = Raise e ->
  exists c t0,
    In c pdf /\ Delta.lookup_type (pcol_name c) old = Some t0 /\
    Delta.column_type (pcol_data c) <> Ok t0 /\
    delta_cast t0 (pcol_data c) = Raise e.
Proof.
  induction pdf as [|c pdf IH]; simpl; intros Hty Hr; [discriminate|].
  inversion Hty as [|? ? [t Ht] Hty']; subst.
  destruct (Delta.merge_column old c) as [c'|e'] eqn:Hone; simpl in Hr.
  - destruct (result_map (Delta.merge_column old) pdf) as [r|e'] eqn:Hrest; [discriminate|].
    injection Hr as ->. destruct (IH Hty' eq_refl) as (x & t0 & Hin & Hx).
    exists x, t0. split; [right; exact Hin|exact Hx].
  - injection Hr as ->. exists c. unfold Delta.merge_column in Hone. rewrite Ht in Hone.
    simpl in Hone.
    destruct (Delta.lookup_type (pcol_name c) old) as [t0|]; [|discriminate].
    destruct (dtype_eqb t0 t) eqn:Heq; [discriminate|].
    destruct (delta_cast t0 (pcol_data c)) as [d|e'] eqn:Hcast; [discriminate|].
    injection Hone as ->. exists t0. split; [left; reflexivity|]. split; [reflexivity|].
    split; [|exact Hcast].
    rewrite Ht. intros [= ->]. rewrite dtype_eqb_refl in Heq. discriminate.
Qed.

Lemma merge_columns_uncastable old pdf c t0 e :
  Forall (fun c => exists t, Delta.column_type (pcol_data c) = Ok t) pdf ->
  In c pdf -> Delta.lookup_type (pcol_name c) old = Some t0 ->
  Delta.column_type (pcol_data c) <> Ok t0 ->
  delta_cast t0 (pcol_data c) = Raise e ->
  exists e', result_map (Delta.merge_column old) pdf = Raise e'.
Proof.
  induction pdf as [|x pdf IH]; simpl; intros Hty Hin Hold Hne Hcast; [contradiction|].
  inversion Hty as [|? ? [t Ht] Hty']; subst.
  destruct (Delta.merge_column old x) as [x'|e'] eqn:Hone; simpl; [|eauto].
  destruct Hin as [->|Hin].
  - exfalso. unfold Delta.merge_column in Hone. rewrite Ht, Hold in Hone. simpl in Hone.
    destruct (dtype_eqb t0 t) eqn:Heq.
    + apply dtype_eqb_true in Heq. subst. contradiction.
    + rewrite Hcast in Hone. discriminate.
  - destruct (IH Hty' Hin Hold Hne Hcast) as [e' ->]. simpl. eauto.
Qed.

(** Where a table exists and every column is taken, the Writer appends. *)
Lemma save_to_bronze_merged df cluster file_stem w sch t pdf' :
  Delta.frame_schema (Polars.to_pandas df) = Ok sch ->
  bronze w !! PathLib.str (table_path cluster) = Some (Some t) ->
  result_map (Delta.merge_column (Delta.schema t)) (Polars.to_pandas df) = Ok pdf' ->
  _save_to_bronze df cluster file_stem w
  = (Ok tt,
     {| log := log w ++ [{| lvl := INFO;
                            msg := "📊 Dados adicionados à tabela existente: "
                                   +:+ cluster +:+ "_bronze" |}];
        now := now w;
        bronze := <[PathLib.str (table_path cluster)
                    := Some {| Delta.schema := Delta.merge_schema (Delta.schema t) sch;
                               Delta.commits := Delta.commits t ++ [pdf'] |}]>
                    (bronze w) |}).
Proof.
  intros Hsch Hsome Hmerge. unfold _save_to_bronze. unfold_M. simpl.
  rewrite bool_decide_eq_true_2 by (rewrite Hsome; eauto).
  unfold Delta.write_deltalake. rewrite Hsch. simpl. rewrite Hsome, Hmerge. reflexivity.
Qed.

(** Where a table exists and the engine fails on a column, the Writer logs
    the error and raises it; the store is as it was. *)
Lemma save_to_bronze_refused df cluster file_stem w sch t e :
  Delta.frame_schema (Polars.to_pandas df) = Ok sch ->
  bronze w !! PathLib.str (table_path cluster) = Some (Some t) ->
  result_map (Delta.merge_column (Delta.schema t)) (Polars.to_pandas df) = Raise e ->
  _save_to_bronze df cluster file_stem w
  = (Raise e,
     if is_Exception e
     then {| log := log w ++ [{| lvl := ERROR;
                                 msg := "❌ Erro ao salvar no Delta Lake: " +:+ exn_str e |}];
             now := now w;
             bronze := bronze w |}
     else w).
Proof.
  intros Hsch Hsome Hmerge. unfold _save_to_bronze. unfold_M. simpl.
  rewrite bool_decide_eq_true_2 by (rewrite Hsome; eauto).
  unfold Delta.write_deltalake. rewrite Hsch. simpl. rewrite Hsome, Hmerge. simpl.
  destruct (is_Exception e); reflexivity.
Qed.

End MergeFacts.

Lemma append_right_cancel (x y z : string) : x +:+ z = y +:+ z -> x = y.
Proof.
  assert (Hlen : forall a b, String.length (a +:+ b) = (String.length a + String.length b)%nat).
  { induction a; simpl; auto. }
  revert y. induction x as [|c x IH]; intros [|d y]; simpl; intros Hxy; auto.
  - apply (f_equal String.length) in Hxy.
    rewrite (Hlen "" z), (Hlen (String d y) z) in Hxy. simpl in Hxy. lia.
  - apply (f_equal String.length) in Hxy.
    rewrite (Hlen "" z), (Hlen (String c x) z) in Hxy. simpl in Hxy. lia.
  - injection Hxy as -> Hxy. f_equal. auto.
Qed.

Lemma append_cons c s t : String c s +:+ t = String c (s +:+ t).
Proof. reflexivity. Qed.

Lemma append_nil_r s : s +:+ "" = s.
Proof. induction s as [|c s IH]; [reflexivity|]. rewrite append_cons, IH. reflexivity. Qed.

Lemma append_assoc a b c : (a +:+ b) +:+ c = a +:+ (b +:+ c).
Proof.
  induction a as [|x a IH]; [reflexivity|]. rewrite !append_cons, IH. reflexivity.
Qed.

Lemma str_div p child : PathLib.str (PathLib.div p child) = PathLib.str p +:+ "/" +:+ child.
Proof.
  unfold PathLib.div, PathLib.str. induction p as [|c p IH]; simpl.
  - rewrite append_nil_r. reflexivity.
  - rewrite IH, !append_assoc. reflexivity.
Qed.

(** One cluster, one table location. *)
Lemma table_path_inj `{Environment} c1 c2 :
  PathLib.str (table_path c1) = PathLib.str (table_path c2) -> c1 = c2.
Proof.
  unfold table_path. rewrite !str_div. intros Heq.
  apply String.app_inj in Heq. apply String.app_inj in Heq.
  apply append_right_cancel in Heq. exact Heq.
Qed.

(** ** The Cluster Watcher *)

Section WatcherFacts.
Context `{Environment}.

Lemma supported_extensions_spec ext :
  ext ∈ supported_extensions <-> ext = ".xlsx" \/ ext = ".xls" \/ ext = ".csv".
Proof.
  unfold supported_extensions. rewrite !elem_of_union, !elem_of_singleton. tauto.
Qed.

Lemma supported_spec file_path :
  supported file_path = true <-> Py.lower (PathLib.suffix file_path) ∈ supported_extensions.
Proof.
  rewrite supported_extensions_spec. unfold supported.
  rewrite !orb_true_iff, !String.eqb_eq. tauto.
Qed.

(** A create event for a path in flight is dropped, wherever the handler
    is called. *)
Lemma on_created_in_flight loop file_path st :
  supported file_path = true ->
  PathLib.str file_path ∈ processing_files st ->
  on_created loop {| is_directory := false; src_path := file_path |} st = (Ok tt, st).
Proof.
  intros Hsup Hin. unfold on_created. simpl.
  rewrite bool_decide_eq_false_2 by (intros Hn; apply Hn, supported_spec, Hsup).
  rewrite bool_decide_eq_true_2 by exact Hin. reflexivity.
Qed.

(** A create event for a supported path not in flight marks and announces
    the path, and then calls [asyncio.create_task]. *)
Lemma on_created_fresh loop file_path st :
  supported file_path = true ->
  PathLib.str file_path ∉ processing_files st ->
  on_created loop {| is_directory := false; src_path := file_path |} st
  = create_task loop {| task_path := file_path; task_cluster := _detect_cluster file_path |}
      {| processing_files := processing_files st ∪ {[ PathLib.str file_path ]};
         tasks := tasks st;
         observing := observing st;
         outside := add_log (outside st) INFO
                      ("📁 Novo arquivo detectado: " +:+ PathLib.name file_path
                       +:+ " (cluster: " +:+ _detect_cluster file_path +:+ ")") |}.
Proof.
  intros Hsup Hfresh. unfold on_created. simpl.
  rewrite bool_decide_eq_false_2 by (intros Hn; apply Hn, supported_spec, Hsup).
  rewrite bool_decide_eq_false_2 by exact Hfresh. reflexivity.
Qed.

Lemma create_task_marker loop t st :
  processing_files (snd (create_task loop t st)) = processing_files st /\
  outside (snd (create_task loop t st)) = outside st /\
  observing (snd (create_task loop t st)) = observing st.
Proof. unfold create_task. destruct loop; auto. Qed.

(** What [on_created] does to the in-flight set and to the world does not
    depend on whether the task could be scheduled. *)
Lemma on_created_marker loop ev st :
  processing_files st ⊆ processing_files (snd (on_created loop ev st)) /\
  bronze (outside (snd (on_created loop ev st))) = bronze (outside st) /\
  observing (snd (on_created loop ev st)) = observing st.
Proof.
  unfold on_created.
  destruct (is_directory ev); [auto|].
  case_bool_decide; [auto|].
  case_bool_decide; [auto|].
  match goal with |- context [create_task loop ?t ?s] =>
    destruct (create_task_marker loop t s) as (-> & -> & ->) end.
  simpl. split; [apply union_subseteq_l|auto].
Qed.

Lemma on_created_marks loop ev st :
  is_directory ev = false -> supported (src_path ev) = true ->
  PathLib.str (src_path ev) ∈ processing_files (snd (on_created loop ev st)).
Proof.
  intros Hdir Hsup. unfold on_created. rewrite Hdir.
  apply supported_spec in Hsup.
  rewrite bool_decide_eq_false_2 by (intros Hn; exact (Hn Hsup)).
  case_bool_decide as Hin; [exact Hin|].
  match goal with |- context [create_task loop ?t ?s] =>
    destruct (create_task_marker loop t s) as (-> & _) end.
  simpl. apply elem_of_union_r, elem_of_singleton. reflexivity.
Qed.

(** In the observer thread no task is made. *)
Lemma on_created_no_task ev st : tasks (snd (on_created false ev st)) = tasks st.
Proof.
  unfold on_created.
  destruct (is_directory ev); [reflexivity|].
  case_bool_decide; [reflexivity|].
  case_bool_decide; reflexivity.
Qed.

Lemma process_file_async_marker file_path cluster cancelled st :
  processing_files (snd (_process_file_async file_path cluster cancelled st))
  = processing_files st ∖ {[ PathLib.str file_path ]} /\
  tasks (snd (_process_file_async file_path cluster cancelled st)) = tasks st /\
  observing (snd (_process_file_async file_path cluster cancelled st)) = observing st.
Proof.
  unfold _process_file_async.
  destruct (process_file_guarded file_path cluster cancelled (outside st)) as [r w'].
  auto.
Qed.

(** One step of a watcher without tasks: it stays without tasks, loses no
    marker and writes nothing. *)
Lemma step_without_tasks a st :
  tasks st = [] ->
  tasks (step a st) = [] /\
  processing_files st ⊆ processing_files (step a st) /\
  bronze (outside (step a st)) = bronze (outside st).
Proof.
  intros Hnone. destruct a as [ev|i how|]; simpl.
  - destruct (observing st); [|auto].
    rewrite on_created_no_task. destruct (on_created_marker false ev st) as (Hsub & Hb & _).
    auto.
  - unfold run_task. rewrite Hnone, lookup_nil. auto.
  - auto.
Qed.

Lemma run_without_tasks acts : forall st,
  tasks st = [] ->
  tasks (run acts st) = [] /\
  processing_files st ⊆ processing_files (run acts st) /\
  bronze (outside (run acts st)) = bronze (outside st).
Proof.
  unfold run. induction acts as [|a acts IH]; simpl; intros st Hnone; [auto|].
  destruct (step_without_tasks a st Hnone) as (Hn1 & Hs1 & Hb1).
  destruct (IH _ Hn1) as (Hn2 & Hs2 & Hb2).
  split; [exact Hn2|]. split; [|congruence].
  etrans; eassumption.
Qed.

End WatcherFacts.

(** * The claims of the specification *)

(** ** Schema Normalizer *)

(** C1.  For every input table, whatever its columns (an all-null column,
    a list or a struct column included), the normalizer returns a table,
    and no column of that table has type null, list or struct. *)
Theorem normalizer_output_never_null_or_nested `{Environment} (df : DataFrame) (w : world) :
  exists out w',
    _clean_null_columns df w = (Ok out, w') /\
    Forall (fun c => is_null_or_nested (col_dtype c) = false) out.
Proof.
  assert (Hlast : forall d e w0, exists out w',
            clean_last_resort d e w0 = (Ok out, w') /\
            Forall (fun c => is_null_or_nested (col_dtype c) = false) out).
  { intros d e w0. destruct (clean_last_resort_total d e w0) as (out & w' & Hr & _ & Hty & _).
    exists out, w'. split; [exact Hr|].
    eapply Forall_impl; [exact Hty|]. intros c ->. reflexivity. }
  unfold _clean_null_columns.
  destruct (clean_cast df w) as [[df1|e] w1] eqn:Hcast.
  - destruct (clean_pandas df1 w1) as [[out|e] w2] eqn:Hp.
    + exists out, w2. split; [reflexivity|].
      eapply clean_pandas_scalar; [|exact Hp]. eapply clean_cast_scalar; eauto.
    + rewrite (clean_pandas_ordinary _ _ _ _ Hp). apply Hlast.
  - rewrite (clean_cast_ordinary _ _ _ _ Hcast). apply Hlast.
Qed.

(** C4, on the code.  On a table with a number column empty in one row,
    an all-null column and a string column empty in one row, the [try]
    block casts the all-null column to strings and then fails on its own
    fill: the number column with the empty string in it is no column polars
    takes back.  The [except] block starts again from the cast table,
    drops nothing, and calls [fillna] after [astype(str)], when no cell is
    missing any more: the all-null column is kept and the empty cells read
    ["nan"] and ["None"], not the empty string. *)
Theorem failed_fill_keeps_the_empty_column `{Environment} (w : world) :
  let cast_df :=
    [ {| col_name := "idade"; col_data := SInt64 [Some 41%Z; None] |};
      {| col_name := "obs"; col_data := SUtf8 [None; None] |};
      {| col_name := "nome"; col_data := SUtf8 [Some "Ana"; None] |} ] in
  let out :=
    [ {| col_name := "idade";
         col_data := SUtf8 [Some (py_float_str (inject_Z 41)); Some "nan"] |};
      {| col_name := "obs"; col_data := SUtf8 [Some "None"; Some "None"] |};
      {| col_name := "nome"; col_data := SUtf8 [Some "Ana"; Some "None"] |} ] in
  (exists w1, clean_cast sample_mixed w = (Ok cast_df, w1) /\
     exists e w2, clean_pandas cast_df w1 = (Raise e, w2) /\ is_Exception e = true) /\
  fst (_clean_null_columns sample_mixed w) = Ok out /\
  ~ drops_and_fills sample_mixed out.
Proof.
  intros cast_df out. split; [|split].
  - eexists. split; [vm_compute; reflexivity|].
    eexists. eexists. split; [vm_compute; reflexivity|reflexivity].
  - vm_compute. reflexivity.
  - intros [Hdrop _].
    apply (Hdrop {| col_name := "obs"; col_data := SNull 2 |}).
    + simpl. auto.
    + reflexivity.
    + simpl. auto.
Qed.

(** ** Metadata Annotator *)

(** C5.  The annotated table has exactly the columns of the normalized
    table and the five audit columns.  Each audit column holds one value in
    all rows: the file name, the cluster, the time of ingestion, the file
    size, the row count of the table as it was read.  A column of the
    normalized table that bears one of the five names is replaced by the
    audit column; every other column is as it was. *)
Theorem annotator_adds_audit_columns `{Environment}
    (df : DataFrame) (file_path : Path) (cluster : string) (w : world)
    (clean : DataFrame) (w1 : world) :
  _clean_null_columns df w = (Ok clean, w1) ->
  exists out,
    _add_metadata df file_path cluster w = (Ok out, w1) /\
    (forall n, In n (columns out) <-> In n (columns clean) \/ In n audit_columns) /\
    (NoDup (columns clean) -> NoDup (columns out)) /\
    (let rows := match clean with [] => 1%nat | _ => height clean end in
     get_column out "_source_file"
       = Some {| col_name := "_source_file";
                 col_data := SUtf8 (repeat (Some (PathLib.name file_path)) rows) |} /\
     get_column out "_cluster"
       = Some {| col_name := "_cluster"; col_data := SUtf8 (repeat (Some cluster) rows) |} /\
     get_column out "_ingested_at"
       = Some {| col_name := "_ingested_at"; col_data := SUtf8 (repeat (Some (now w1)) rows) |} /\
     get_column out "_file_size_bytes"
       = Some {| col_name := "_file_size_bytes";
                 col_data := SInt64 (repeat (Some (st_size file_path)) rows) |} /\
     get_column out "_row_count"
       = Some {| col_name := "_row_count";
                 col_data := SInt64 (repeat (Some (Z.of_nat (height df))) rows) |}) /\
    (forall n, ~ In n audit_columns -> get_column out n = get_column clean n).
Proof.
  intros Hclean. unfold _add_metadata. unfold_M. rewrite Hclean. simpl.
  eexists. split; [reflexivity|].
  unfold Polars.with_columns. cbn [fold_left fst snd].
  split; [|split; [|split]].
  - intros n. rewrite !columns_set_column. cbn [col_name]. unfold audit_columns. simpl.
    intuition (subst; auto).
  - intros Hnd. do 5 apply NoDup_set_column. exact Hnd.
  - cbv zeta. rewrite !get_column_set_column. cbn [col_name Polars.lit_series].
    repeat split; reflexivity.
  - intros n Hn. rewrite !get_column_set_column. cbn [col_name].
    unfold audit_columns in Hn. simpl in Hn.
    repeat match goal with
           | |- context [String.eqb ?a n] =>
               destruct (String.eqb_spec a n); [exfalso; apply Hn; subst; tauto|]
           end.
    reflexivity.
Qed.

Lemma annotator_adds_audit_columns_witness :
  _clean_null_columns (H := sample_env) sample_nested sample_world
    = (Ok sample_nested_clean, sample_nested_world) /\
  exists out,
    _add_metadata (H := sample_env) sample_nested sample_csv "diabetes" sample_world
      = (Ok out, sample_nested_world) /\
    get_column out "_cluster"
      = Some {| col_name := "_cluster";
                col_data := SUtf8 [Some "diabetes"; Some "diabetes"] |} /\
    get_column out "nome" = get_column sample_nested_clean "nome".
Proof.
  assert (Hrun : _clean_null_columns (H := sample_env) sample_nested sample_world
                 = (Ok sample_nested_clean, sample_nested_world))
    by (vm_compute; reflexivity).
  split; [exact Hrun|].
  destruct (annotator_adds_audit_columns (H := sample_env) sample_nested sample_csv "diabetes"
              sample_world sample_nested_clean sample_nested_world Hrun)
    as (out & Hout & _ & _ & (_ & Hcluster & _) & Hother).
  exists out. split; [exact Hout|]. split; [exact Hcluster|].
  apply Hother. unfold audit_columns. simpl. intuition discriminate.
Defined.

(** ** Tabular Reader *)

(** C3.  When a delimited file reads with at least one row under some
    candidate separator, and under no separator that comes before it in the
    order comma, semicolon, tab, pipe, the Reader returns the table read
    under that separator, whatever the later separators would give. *)
Theorem csv_first_successful_separator `{Environment}
    (file_path : Path) (before after : list string) (sep : string)
    (df : DataFrame) (w : world) :
  separators = before ++ sep :: after ->
  Forall (yields_no_row file_path) before ->
  pl_read_csv file_path sep = Ok df ->
  (0 < height df)%nat ->
  separators = [","; ";"; TAB; "|"] /\
  _read_csv file_path w
  = (Ok df, add_log w INFO ("📈 CSV lido (sep '" +:+ sep +:+ "'): " +:+ shape_msg df)).
Proof.
  intros Hseps Hbefore Hsep Hrows. split; [reflexivity|].
  unfold _read_csv, try_except. unfold mbind at 1. unfold M_bind at 1.
  rewrite Hseps, (probe_separators_first _ _ _ _ _ _ Hbefore Hsep Hrows).
  reflexivity.
Qed.

Lemma csv_first_successful_separator_witness :
  pl_read_csv (Environment := sample_env) sample_csv ";" = Ok sample_csv_two_columns /\
  _read_csv (H := sample_env) sample_csv sample_world
  = (Ok sample_csv_one_column,
     add_log sample_world INFO "📈 CSV lido (sep ','): 2 linhas, 1 colunas").
Proof.
  split; [reflexivity|].
  apply (csv_first_successful_separator (H := sample_env)
           sample_csv [] [";"; TAB; "|"] "," sample_csv_one_column sample_world).
  - reflexivity.
  - constructor.
  - reflexivity.
  - simpl. lia.
Defined.

(** ** The pipeline on a file it cannot use *)

(** C7.  When the read of a file yields a table without rows,
    [process_file] logs a warning and returns without an error, and the
    bronze tables are as they were. *)
Theorem empty_file_is_skipped `{Environment}
    (file_path : Path) (cluster : string) (w : world) (df : DataFrame) (w1 : world) :
  _read_file file_path (add_log w INFO ("📊 Lendo arquivo: " +:+ PathLib.name file_path))
    = (Ok (Some df), w1) ->
  height df = 0%nat ->
  process_file file_path cluster w
    = (Ok tt, add_log w1 WARNING ("⚠️  Arquivo vazio ou inválido: " +:+ PathLib.name file_path))
  /\ bronze (snd (process_file file_path cluster w)) = bronze w.
Proof.
  intros Hread Hrows.
  assert (Hrun : process_file file_path cluster w
    = (Ok tt, add_log w1 WARNING ("⚠️  Arquivo vazio ou inválido: "
                                   +:+ PathLib.name file_path))).
  { unfold process_file, try_except, mbind, M_bind. unfold logger at 1.
    fold (add_log w INFO ("📊 Lendo arquivo: " +:+ PathLib.name file_path)).
    rewrite Hread, Hrows. reflexivity. }
  split; [exact Hrun|]. rewrite Hrun. simpl.
  apply (read_file_keeps_bronze _ _ _ _ Hread).
Qed.

Lemma empty_file_is_skipped_witness :
  let w1 := add_log (add_log sample_world INFO "📊 Lendo arquivo: vazio.xlsx")
                    INFO "📈 Excel lido: 0 linhas, 0 colunas" in
  process_file (H := sample_env) sample_xlsx "diabetes" sample_world
    = (Ok tt, add_log w1 WARNING "⚠️  Arquivo vazio ou inválido: vazio.xlsx")
  /\ bronze (snd (process_file (H := sample_env) sample_xlsx "diabetes" sample_world))
     = bronze sample_world.
Proof.
  apply (empty_file_is_skipped (H := sample_env) sample_xlsx "diabetes" sample_world []).
  - vm_compute. reflexivity.
  - reflexivity.
Defined.

(** C9.  When the reader of a supported file raises an exception,
    [process_file] returns without an error and the bronze tables are as
    they were: [_read_file] logs the error and returns [None], and
    [process_file] then logs the warning of the empty file and stops, as it
    does for a table without rows. *)
Theorem read_failure_is_skipped `{Environment}
    (file_path : Path) (cluster : string) (w : world)
    (reader : Path -> M DataFrame) (e : exn) (w1 : world) :
  supported_formats !! Py.lower (PathLib.suffix file_path) = Some reader ->
  reader file_path (add_log w INFO ("📊 Lendo arquivo: " +:+ PathLib.name file_path))
    = (Raise e, w1) ->
  is_Exception e = true ->
  process_file file_path cluster w
    = (Ok tt,
       add_log
         (add_log w1 ERROR ("Erro ao ler " +:+ PathLib.name file_path +:+ ": " +:+ exn_str e))
         WARNING ("⚠️  Arquivo vazio ou inválido: " +:+ PathLib.name file_path))
  /\ bronze (snd (process_file file_path cluster w)) = bronze w.
Proof.
  intros Hreader Hraise He.
  assert (Hrun : process_file file_path cluster w
    = (Ok tt,
       add_log
         (add_log w1 ERROR ("Erro ao ler " +:+ PathLib.name file_path +:+ ": " +:+ exn_str e))
         WARNING ("⚠️  Arquivo vazio ou inválido: " +:+ PathLib.name file_path))).
  { unfold process_file, try_except at 1. unfold mbind at 1. unfold M_bind at 1.
    unfold logger at 1.
    fold (add_log w INFO ("📊 Lendo arquivo: " +:+ PathLib.name file_path)).
    unfold mbind at 1. unfold M_bind at 1.
    unfold _read_file. rewrite Hreader. unfold read_with.
    unfold try_except at 1. unfold mbind at 1. unfold M_bind at 1.
    rewrite Hraise, He. reflexivity. }
  split; [exact Hrun|]. rewrite Hrun. simpl.
  apply (reader_keeps_bronze _ _ _ Hreader _ _ _ Hraise).
Qed.

Lemma read_failure_is_skipped_witness :
  let w1 := add_log (add_log sample_world INFO "📊 Lendo arquivo: quebrado.xls")
                    WARNING "Polars falhou, tentando pandas: No such file or directory" in
  process_file (H := sample_env) sample_broken "diabetes" sample_world
    = (Ok tt,
       add_log (add_log w1 ERROR "Erro ao ler quebrado.xls: No such file or directory")
               WARNING "⚠️  Arquivo vazio ou inválido: quebrado.xls")
  /\ bronze (snd (process_file (H := sample_env) sample_broken "diabetes" sample_world))
     = bronze sample_world.
Proof.
  apply (read_failure_is_skipped (H := sample_env) sample_broken "diabetes" sample_world
           (_read_excel (H := sample_env)) (PyException "No such file or directory")).
  - vm_compute. reflexivity.
  - vm_compute. reflexivity.
  - reflexivity.
Defined.

(** ** Bronze Table Writer *)

(** C6, as the specification states it, fails: the table of the cluster
    holds the column [id] as strings, the file brings it as integers, and
    the write succeeds, the integers cast to strings. *)
Lemma mismatched_type_is_cast_not_refused :
  ~ (forall (E : Environment) (df : DataFrame) (cluster file_stem : string) (w : world)
            (sch : list (string * dtype)) (t : Delta.DeltaTable)
            (n : string) (t0 t1 : dtype),
       Delta.frame_schema (Polars.to_pandas df) = Ok sch ->
       bronze w !! PathLib.str (table_path cluster) = Some (Some t) ->
       Delta.lookup_type n (Delta.schema t) = Some t0 -> In (n, t1) sch -> t0 <> t1 ->
       exists e w', _save_to_bronze df cluster file_stem w = (Raise e, w')).
Proof.
  intros Hclaim.
  destruct (Hclaim sample_env sample_csv_two_columns "diabetes" "PACIENTES"
              sample_world_with_table [("id", Int64); ("nome", Utf8)]
              {| Delta.schema := [("id", Utf8)]; Delta.commits := [] |}
              "id" Utf8 Int64) as (e & w' & Hrun).
  - reflexivity.
  - vm_compute. reflexivity.
  - reflexivity.
  - simpl. auto.
  - discriminate.
  - vm_compute in Hrun. discriminate.
Qed.

(** C6, amended.  The table of a cluster lies at one place, which no other
    cluster shares.  Where nothing exists at that place the Writer creates
    it and the table written is the baseline: its schema is that of the
    annotated table.  Where a table exists the Writer appends with schema
    merge: every column the table had keeps its type and the new columns
    are added; a column that arrives with another type than the table has
    is cast to the table's type and committed so.  The write fails only on
    a column that cannot be cast: the error is logged once and raised on to
    the caller, and the table is as it was. *)
Theorem writer_creates_or_appends `{Environment}
    (df : DataFrame) (cluster file_stem : string) (w : world)
    (sch : list (string * dtype)) :
  let path := PathLib.str (table_path cluster) in
  let pdf := Polars.to_pandas df in
  Delta.frame_schema pdf = Ok sch ->
  (forall other, PathLib.str (table_path other) = path -> other = cluster) /\
  (bronze w !! path = None ->
   _save_to_bronze df cluster file_stem w
   = (Ok tt,
      {| log := log w ++ [{| lvl := INFO;
                             msg := "🆕 Nova tabela Delta criada: " +:+ cluster +:+ "_bronze" |}];
         now := now w;
         bronze := <[path := Some {| Delta.schema := sch; Delta.commits := [pdf] |}]>
                     (bronze w) |})) /\
  (forall t, bronze w !! path = Some (Some t) ->
     (forall pdf', Forall2 (taken_as (Delta.schema t)) pdf pdf' ->
        _save_to_bronze df cluster file_stem w
        = (Ok tt,
           {| log := log w ++ [{| lvl := INFO;
                                  msg := "📊 Dados adicionados à tabela existente: "
                                         +:+ cluster +:+ "_bronze" |}];
              now := now w;
              bronze := <[path := Some {| Delta.schema
                                            := Delta.merge_schema (Delta.schema t) sch;
                                          Delta.commits := Delta.commits t ++ [pdf'] |}]>
                          (bronze w) |})) /\
     (forall n, Delta.lookup_type n (Delta.merge_schema (Delta.schema t) sch)
                = match Delta.lookup_type n (Delta.schema t) with
                  | Some t0 => Some t0
                  | None => Delta.lookup_type n sch
                  end) /\
     (forall c t0 e0,
        In c pdf -> Delta.lookup_type (pcol_name c) (Delta.schema t) = Some t0 ->
        Delta.column_type (pcol_data c) <> Ok t0 ->
        delta_cast t0 (pcol_data c) = Raise e0 ->
        exists e w', _save_to_bronze df cluster file_stem w = (Raise e, w')) /\
     (forall e w',
        _save_to_bronze df cluster file_stem w = (Raise e, w') ->
        (exists c t0,
           In c pdf /\ Delta.lookup_type (pcol_name c) (Delta.schema t) = Some t0 /\
           Delta.column_type (pcol_data c) <> Ok t0 /\
           delta_cast t0 (pcol_data c) = Raise e) /\
        bronze w' = bronze w /\
        (is_Exception e = true ->
         log w' = log w ++ [{| lvl := ERROR;
                               msg := "❌ Erro ao salvar no Delta Lake: " +:+ exn_str e |}]))).
Proof.
  intros path pdf Hsch. split; [|split].
  - intros other Heq. apply table_path_inj. exact Heq.
  - intros Hnone. unfold _save_to_bronze. fold path. fold pdf. unfold_M. simpl.
    rewrite bool_decide_eq_false_2 by (rewrite Hnone; apply is_Some_None).
    simpl. unfold Delta.write_deltalake. rewrite Hsch. simpl.
    rewrite lookup_insert_eq. simpl. rewrite insert_insert_eq. reflexivity.
  - intros t Hsome. assert (Hty := frame_schema_types pdf sch Hsch).
    split; [|split; [|split]].
    + intros pdf' Htaken.
      apply (save_to_bronze_merged df cluster file_stem w sch t pdf' Hsch Hsome).
      apply merge_columns_taken; assumption.
    + intros n. apply merge_schema_lookup.
    + intros c t0 e0 Hin Hold Hne Hcast.
      destruct (merge_columns_uncastable (Delta.schema t) pdf c t0 e0 Hty Hin Hold Hne Hcast)
        as [e He].
      rewrite (save_to_bronze_refused df cluster file_stem w sch t e Hsch Hsome He). eauto.
    + intros e w' Hrun.
      destruct (result_map (Delta.merge_column (Delta.schema t)) pdf) as [pdf'|e'] eqn:Hm.
      * rewrite (save_to_bronze_merged df cluster file_stem w sch t pdf' Hsch Hsome Hm) in Hrun.
        discriminate.
      * rewrite (save_to_bronze_refused df cluster file_stem w sch t e' Hsch Hsome Hm) in Hrun.
        injection Hrun as <- <-. split; [apply merge_columns_fail; assumption|].
        destruct (is_Exception e'); split; try reflexivity; discriminate.
Qed.

Lemma writer_creates_or_appends_witness :
  Delta.frame_schema (Polars.to_pandas sample_csv_two_columns)
    = Ok [("id", Int64); ("nome", Utf8)] /\
  (exists w', _save_to_bronze (H := sample_env) sample_csv_two_columns "diabetes" "PACIENTES"
                sample_world = (Ok tt, w')) /\
  (exists w', _save_to_bronze (H := sample_env) sample_csv_two_columns "diabetes" "PACIENTES"
                sample_world_with_table = (Ok tt, w') /\
              bronze w' !! PathLib.str (table_path (H := sample_env) "diabetes")
              = Some (Some {| Delta.schema := [("id", Utf8); ("nome", Utf8)];
                              Delta.commits :=
                                [[ {| pcol_name := "id";
                                      pcol_data := PObject [PyStr "1"; PyStr "2"] |};
                                   {| pcol_name := "nome";
                                      pcol_data := PObject [PyStr "Ana"; PyStr "Rui"] |} ]] |})).
Proof.
  assert (Hsch : Delta.frame_schema (Polars.to_pandas sample_csv_two_columns)
                 = Ok [("id", Int64); ("nome", Utf8)]) by reflexivity.
  split; [exact Hsch|]. split.
  - destruct (writer_creates_or_appends (H := sample_env) sample_csv_two_columns "diabetes"
                "PACIENTES" sample_world _ Hsch) as (_ & Hcreate & _).
    eexists. apply Hcreate. reflexivity.
  - destruct (writer_creates_or_appends (H := sample_env) sample_csv_two_columns "diabetes"
                "PACIENTES" sample_world_with_table _ Hsch) as (_ & _ & Happend).
    destruct (Happend {| Delta.schema := [("id", Utf8)]; Delta.commits := [] |})
      as (Hok & _).
    { vm_compute. reflexivity. }
    eexists. split.
    + apply (Hok [ {| pcol_name := "id"; pcol_data := PObject [PyStr "1"; PyStr "2"] |};
                   {| pcol_name := "nome";
                      pcol_data := PObject [PyStr "Ana"; PyStr "Rui"] |} ]).
      repeat constructor; simpl; try reflexivity; try discriminate.
    + vm_compute. reflexivity.
Defined.

(** ** Cluster Watcher *)

(** C2, on the code.  watchdog calls the handler in its observer thread,
    which runs no event loop.  There a create event for a supported file
    puts the path into the in-flight set, announces the file and then
    fails in [asyncio.create_task]: no task is made.  Whatever follows, the
    marker stays, no task exists and nothing is written, and every later
    create event for the path is dropped, wherever the handler is called:
    the file is never processed.  Where a task does exist, one that is
    cancelled before its first step leaves its marker behind as well. *)
Theorem create_event_leaves_a_stale_marker `{Environment} (w : world) (file_path : Path) :
  supported file_path = true ->
  let ev := {| is_directory := false; src_path := file_path |} in
  let st := {| processing_files := {[ PathLib.str file_path ]};
               tasks := [];
               observing := true;
               outside := add_log w INFO
                            ("📁 Novo arquivo detectado: " +:+ PathLib.name file_path
                             +:+ " (cluster: " +:+ _detect_cluster file_path +:+ ")") |} in
  on_created false ev (started w) = (Raise (PyException "no running event loop"), st) /\
  (forall acts,
     PathLib.str file_path ∈ processing_files (run acts st) /\
     tasks (run acts st) = [] /\
     bronze (outside (run acts st)) = bronze w /\
     forall loop, on_created loop ev (run acts st) = (Ok tt, run acts st)) /\
  (forall st0 i t,
     tasks st0 !! i = Some t ->
     processing_files (run_task i CancelledUnstarted st0) = processing_files st0 /\
     tasks (run_task i CancelledUnstarted st0) = take i (tasks st0) ++ drop (S i) (tasks st0) /\
     outside (run_task i CancelledUnstarted st0) = outside st0).
Proof.
  intros Hsup ev st. split; [|split].
  - unfold ev. rewrite on_created_fresh; [|exact Hsup|simpl; apply not_elem_of_empty].
    simpl. unfold st. rewrite (left_id_L ∅ (∪)). reflexivity.
  - intros acts. destruct (run_without_tasks acts st eq_refl) as (Hnone & Hsub & Hb).
    assert (Hin : PathLib.str file_path ∈ processing_files (run acts st)).
    { apply Hsub. simpl. apply elem_of_singleton. reflexivity. }
    split; [exact Hin|]. split; [exact Hnone|]. split; [exact Hb|].
    intros loop. apply on_created_in_flight; assumption.
  - intros st0 i t Hi. unfold run_task. rewrite Hi. auto.
Qed.

Lemma create_event_leaves_a_stale_marker_witness :
  on_created (H := sample_env) false {| is_directory := false; src_path := sample_csv |}
    (started sample_world)
  = (Raise (PyException "no running event loop"),
     {| processing_files := {[ PathLib.str sample_csv ]};
        tasks := [];
        observing := true;
        outside := add_log sample_world INFO
                     "📁 Novo arquivo detectado: PACIENTES.CSV (cluster: diabetes)" |}) /\
  tasks (run (H := sample_env)
           [Created {| is_directory := false; src_path := sample_csv |};
            Finish 0 Runs;
            Created {| is_directory := false; src_path := sample_csv |}]
           (started sample_world)) = [].
Proof.
  destruct (create_event_leaves_a_stale_marker (H := sample_env) sample_world sample_csv
              eq_refl) as (Hfirst & Hlater & _).
  split; [exact Hfirst|].
  destruct (Hlater [Finish 0 Runs;
                    Created {| is_directory := false; src_path := sample_csv |}])
    as (_ & Hnone & _).
  unfold run in *. simpl fold_left at 1. simpl observing. cbv iota.
  rewrite Hfirst. exact Hnone.
Defined.

(** C8, as the specification states it, fails: after one create event,
    [stop] returns while the path of the file is in the in-flight set. *)
Lemma stop_does_not_drain :
  ~ (forall (E : Environment) (w : world) (acts : list action),
       processing_files (stop (run acts (started w))) = ∅).
Proof.
  intros Hclaim.
  specialize (Hclaim sample_env sample_world
                [Created {| is_directory := false; src_path := sample_csv |}]).
  assert (Hin : PathLib.str sample_csv
                ∈ processing_files
                    (stop (run (H := sample_env)
                             [Created {| is_directory := false; src_path := sample_csv |}]
                             (started sample_world)))).
  { simpl.
    apply (on_created_marks (H := sample_env) false
             {| is_directory := false; src_path := sample_csv |}); reflexivity. }
  rewrite Hclaim in Hin. apply elem_of_empty in Hin. exact Hin.
Qed.

(** C8, amended.  [stop] ends the observation of the file system, so that
    no later create event reaches the handler; it neither waits for nor
    cancels the tasks in flight: the tasks and the in-flight set are what
    they were when [stop] was called, and nothing is written. *)
Theorem stop_only_ends_observation `{Environment} (st : watcher) :
  observing (stop st) = false /\
  (forall evs, run (map Created evs) (stop st) = stop st) /\
  tasks (stop st) = tasks st /\
  processing_files (stop st) = processing_files st /\
  bronze (outside (stop st)) = bronze (outside st).
Proof.
  split; [reflexivity|]. split; [|repeat split].
  intros evs. unfold run. induction evs as [|ev evs IH]; simpl; [reflexivity|].
  exact IH.
Qed.

(** ** Extensions *)

(** C10.  The watcher, the backlog scan and the reader take a file by the
    same test, the lower-cased suffix being [.xlsx], [.xls] or [.csv]:
    a file that passes is put into the in-flight set and announced by the
    watcher (unless it is in flight), is processed by the scan and is
    handed to a reader; a file that fails is logged as ignored by the
    watcher and not put into the in-flight set, is skipped by the scan and
    makes [_read_file] raise.  A file named [PACIENTES.CSV] passes. *)
Theorem extension_test_ignores_case `{Environment} (file_path : Path) :
  (forall loop st,
     PathLib.str file_path ∉ processing_files st ->
     let st' := snd (on_created loop {| is_directory := false; src_path := file_path |} st) in
     processing_files st'
     = (if supported file_path
        then processing_files st ∪ {[ PathLib.str file_path ]}
        else processing_files st) /\
     outside st'
     = add_log (outside st) INFO
         (if supported file_path
          then "📁 Novo arquivo detectado: " +:+ PathLib.name file_path
               +:+ " (cluster: " +:+ _detect_cluster file_path +:+ ")"
          else "Arquivo ignorado (formato não suportado): " +:+ PathLib.name file_path)) /\
  (forall cluster n,
     scan_entry cluster n (file_path, true)
     = if supported file_path then scan_process cluster n file_path else mret n) /\
  (if supported file_path
   then exists reader,
          (reader = _read_excel \/ reader = _read_csv) /\
          _read_file file_path = read_with reader file_path
   else _read_file file_path
        = raise (ValueError ("Formato não suportado: "
                             +:+ Py.lower (PathLib.suffix file_path)))) /\
  supported sample_csv = true /\
  PathLib.suffix sample_csv = ".CSV".
Proof.
  assert (Hspec := supported_spec file_path).
  split; [|split; [|split; [|split; reflexivity]]].
  - intros loop st Hfresh. unfold on_created. simpl.
    destruct (supported file_path).
    + rewrite bool_decide_eq_false_2 by (intros Hn; apply Hn, Hspec; reflexivity).
      rewrite bool_decide_eq_false_2 by exact Hfresh.
      match goal with |- context [create_task loop ?t ?s] =>
        destruct (create_task_marker loop t s) as (-> & -> & _) end.
      split; reflexivity.
    + rewrite bool_decide_eq_true_2; [split; reflexivity|].
      intros Hin. apply Hspec in Hin. discriminate.
  - intros cluster n. unfold scan_entry. simpl.
    change ({[ ".xlsx"; ".xls"; ".csv" ]} : gset string) with supported_extensions.
    destruct (supported file_path).
    + rewrite bool_decide_eq_true_2 by (apply Hspec; reflexivity). reflexivity.
    + rewrite bool_decide_eq_false_2; [reflexivity|].
      intros Hin. apply Hspec in Hin. discriminate.
  - unfold _read_file.
    destruct (supported_formats !! Py.lower (PathLib.suffix file_path)) as [reader|] eqn:Hl.
    + destruct (supported_formats_lookup _ _ Hl) as [Hext Hreader].
      apply supported_extensions_spec, Hspec in Hext. rewrite Hext. eauto.
    + destruct (supported file_path) eqn:Hsup; [|reflexivity].
      exfalso. apply proj1 in Hspec. specialize (Hspec eq_refl).
      apply supported_extensions_spec in Hspec.
      unfold supported_formats in Hl.
      destruct Hspec as [Hs|[Hs|Hs]]; rewrite Hs in Hl; vm_compute in Hl; discriminate.
Qed.

Lemma extension_test_ignores_case_witness :
  processing_files
    (snd (on_created (H := sample_env) false
            {| is_directory := false; src_path := sample_csv |} (started sample_world)))
  = ∅ ∪ {[ PathLib.str sample_csv ]}.
Proof.
  destruct (extension_test_ignores_case (H := sample_env) sample_csv) as (Hwatch & _).
  apply (Hwatch false (started sample_world)). simpl. apply not_elem_of_empty.
Defined.

(** * Further properties of the code *)

(** ** Row counts through the libraries *)

Lemma series_to_pandas_len s : plen (Polars.series_to_pandas s) = series_len s.
Proof.
  destruct s as [v|v|v|v|n|t v|fs v]; simpl; rewrite ?length_map, ?repeat_length; auto.
  - destruct (Polars.no_null v); simpl; rewrite length_map; reflexivity.
  - destruct (Polars.no_null v); simpl; rewrite length_map; reflexivity.
Qed.

Lemma fillna_series_len p : plen (Pandas.fillna_series p) = plen p.
Proof.
  destruct p as [v|v|v|v]; simpl; rewrite ?length_map; auto.
  destruct (existsb _ v); simpl; rewrite ?length_map; reflexivity.
Qed.

Lemma cells_to_series_len t v : series_len (Arrow.cells_to_series t v) = length v.
Proof. destruct t; simpl; rewrite ?length_map; reflexivity. Qed.

Lemma series_from_pandas_len p s :
  Polars.series_from_pandas p = Ok s -> series_len s = plen p.
Proof.
  destruct p as [v|v|v|v]; simpl; try (intros [= <-]; simpl; rewrite ?length_map; reflexivity).
  destruct (Polars.first_non_none v) as [o|].
  - destruct o;
      try solve [destruct (Arrow.infer_cells v Null); [|discriminate];
                 intros [= <-]; apply cells_to_series_len].
    destruct (forallb Polars.is_str_or_none v); [|discriminate].
    intros [= <-]. apply (cells_to_series_len Utf8).
  - intros [= <-]. simpl. rewrite length_map. reflexivity.
Qed.

Lemma result_map_length {A B} (f : A -> result B) l l' :
  result_map f l = Ok l' -> length l' = length l.
Proof.
  intros Hr. apply result_map_Ok in Hr. symmetry. eapply Forall2_length; eauto.
Qed.

Lemma cast_utf8_len `{Environment} s s' :
  Polars.cast_utf8 s = Ok s' -> series_len s' = series_len s.
Proof.
  destruct s as [v|v|v|v|n|t v|fs v]; simpl;
    try (intros [= <-]; simpl; rewrite ?length_map, ?repeat_length; reflexivity).
  - destruct (result_map _ v) as [v'|] eqn:Hv; simpl; [|discriminate].
    intros [= <-]. simpl. eapply result_map_length; eauto.
  - destruct (result_map _ v) as [v'|] eqn:Hv; simpl; [|discriminate].
    intros [= <-]. simpl. eapply result_map_length; eauto.
Qed.

(** ** No null cell comes back from pandas *)

Lemma unify_widens a b u :
  scalar_or_null a = true -> scalar_or_null b = true -> Arrow.unify a b = Some u ->
  widens a u = true /\ widens b u = true /\ scalar_or_null u = true.
Proof.
  destruct a, b; simpl; try discriminate; intros _ _ [= <-]; auto.
Qed.

Lemma widens_trans a b c :
  scalar_or_null a = true -> scalar_or_null b = true -> scalar_or_null c = true ->
  widens a b = true -> widens b c = true -> widens a c = true.
Proof. destruct a, b, c; simpl; auto; discriminate. Qed.

Lemma fits_widens o a b :
  scalar_or_null a = true -> scalar_or_null b = true ->
  fits o a = true -> widens a b = true -> fits o b = true.
Proof. destruct o, a, b; simpl; auto; discriminate. Qed.

Lemma infer_value_cell o :
  value_cell o = true ->
  exists t, Arrow.infer o = Some t /\ fits o t = true /\ scalar_or_null t = true.
Proof. destruct o; simpl; try discriminate; eauto. Qed.

Lemma infer_cells_fits v : forall acc t,
  Forall (fun o => value_cell o = true) v -> scalar_or_null acc = true ->
  Arrow.infer_cells v acc = Some t ->
  Forall (fun o => fits o t = true) v /\ widens acc t = true /\ scalar_or_null t = true.
Proof.
  induction v as [|o v IH]; simpl; intros acc t Hv Hacc Ht.
  - injection Ht as <-. repeat split; [constructor| |assumption].
    destruct acc; simpl in *; auto; discriminate.
  - inversion Hv as [|? ? Ho Hv']; subst.
    destruct (infer_value_cell o Ho) as (to & Hto & Hfit & Hs). rewrite Hto in Ht.
    destruct (Arrow.unify acc to) as [u|] eqn:Hu; [|discriminate].
    destruct (unify_widens _ _ _ Hacc Hs Hu) as (Hau & Htu & Hus).
    destruct (IH u t Hv' Hus Ht) as (Hall & Hut & Hts).
    repeat split; [constructor; [|exact Hall] | | exact Hts].
    + apply (fits_widens o to t Hs Hts Hfit).
      apply (widens_trans to u t Hs Hus Hts Htu Hut).
    + apply (widens_trans acc u t Hacc Hus Hts Hau Hut).
Qed.

Lemma cells_to_series_no_null t v :
  Forall (fun o => fits o t = true) v ->
  no_null_cells (Arrow.cells_to_series t v) = true.
Proof.
  unfold no_null_cells. intros Hv. apply negb_true_iff.
  destruct t; simpl;
    try (induction Hv as [|o v Ho _ IH]; simpl; [reflexivity|];
         destruct o; simpl in *; try discriminate; exact IH).
Qed.

Lemma first_non_none_None v :
  Forall (fun o => value_cell o = true) v -> Polars.first_non_none v = None -> v = [].
Proof.
  intros Hv. destruct Hv as [|o v Ho _]; [reflexivity|].
  destruct o; simpl in *; discriminate.
Qed.

(** An [object] column of strings, numbers and booleans comes back without
    a null cell, when it comes back. *)
Lemma series_from_pandas_values v s :
  Forall (fun o => value_cell o = true) v ->
  Polars.series_from_pandas (PObject v) = Ok s ->
  no_null_cells s = true.
Proof.
  intros Hv. simpl.
  destruct (Polars.first_non_none v) as [o|] eqn:Hfirst.
  - assert (Hgen : forall t, Arrow.infer_cells v Null = Some t ->
                             no_null_cells (Arrow.cells_to_series t v) = true).
    { intros t Ht. apply cells_to_series_no_null.
      apply (infer_cells_fits v Null t Hv eq_refl Ht). }
    destruct o;
      try solve [destruct (Arrow.infer_cells v Null) as [t|] eqn:Ht; [|discriminate];
                 intros [= <-]; apply Hgen; reflexivity].
    destruct (forallb Polars.is_str_or_none v) eqn:Hstr; [|discriminate].
    intros [= <-]. apply (cells_to_series_no_null Utf8).
    rewrite forallb_forall in Hstr. apply Forall_forall. intros x Hx.
    rewrite Forall_forall in Hv. specialize (Hv x Hx).
    apply list_elem_of_In in Hx. specialize (Hstr x Hx).
    destruct x; simpl in *; auto; discriminate.
  - rewrite (first_non_none_None v Hv Hfirst). intros [= <-]. reflexivity.
Qed.

(** ** What the normalizer keeps *)

Lemma filter_sublist_of {A} (f : A -> bool) (l : list A) : sublist (List.filter f l) l.
Proof.
  induction l as [|x l IH]; simpl; [constructor|].
  destruct (f x); constructor; exact IH.
Qed.

Lemma Forall2_sublist_back {A B} (R : A -> B -> Prop) l l1 k1 :
  Forall2 R l l1 -> sublist k1 l1 -> exists k, sublist k l /\ Forall2 R k k1.
Proof.
  intros HR. revert k1. induction HR as [|x y l l1 Hxy _ IH]; intros k1 Hsub.
  - inversion Hsub; subst. exists []. split; constructor.
  - inversion Hsub as [|? k1' ? Hsub'|? ? ? Hsub']; subst.
    + destruct (IH _ Hsub') as (k & Hk & HRk). exists (x :: k). split; constructor; auto.
    + destruct (IH _ Hsub') as (k & Hk & HRk). exists k. split; [constructor|]; auto.
Qed.

Lemma no_null_map_Some {A} (v : list A) : existsb id (map is_none (map Some v)) = false.
Proof. induction v; simpl; auto. Qed.

(** A column without nested cells comes back from the trip through pandas
    with its rows, a plain type and no null cell, when it comes back. *)
Lemma fillna_trip_kept p s :
  scalar_cells p ->
  Polars.series_from_pandas (Pandas.fillna_series p) = Ok s ->
  series_len s = plen p /\
  is_null_or_nested (dtype_of s) = false /\
  no_null_cells s = true.
Proof.
  intros Hp Hs. split; [|split].
  - rewrite (series_from_pandas_len _ _ Hs). apply fillna_series_len.
  - eapply series_from_pandas_scalar; [|exact Hs]. apply fillna_series_scalar, Hp.
  - destruct p as [v|v|v|v]; simpl in Hs.
    + injection Hs as <-. unfold no_null_cells. simpl. rewrite no_null_map_Some. reflexivity.
    + destruct (existsb _ v) eqn:Hna.
      * eapply series_from_pandas_values; [|exact Hs].
        apply Forall_map, Forall_forall. intros [q|] _; reflexivity.
      * injection Hs as <-. unfold no_null_cells. simpl. apply negb_true_iff.
        rewrite <- Hna. clear. induction v as [|[q|] v IH]; simpl; auto.
    + injection Hs as <-. unfold no_null_cells. simpl. rewrite no_null_map_Some. reflexivity.
    + eapply series_from_pandas_values; [|exact Hs].
      apply Forall_map. simpl in Hp. eapply Forall_impl; [exact Hp|].
      intros o Ho. simpl. destruct o; simpl in *; auto; discriminate.
Qed.

Section KeptFacts.
Context `{Environment}.

Lemma cast_same_rows df cast_dict df1 :
  Polars.cast df cast_dict = Ok df1 ->
  Forall2 (fun c c1 => col_name c1 = col_name c /\
                       series_len (col_data c1) = series_len (col_data c)) df df1.
Proof.
  intros Hr. apply result_map_Ok in Hr.
  eapply Forall2_impl; [exact Hr|]. intros c c1. simpl.
  destruct (cast_dict !! col_name c) as [t|]; [|intros [= <-]; auto].
  destruct t; try discriminate.
  destruct (Polars.cast_utf8 (col_data c)) as [s|] eqn:Hs; simpl; [|discriminate].
  intros [= <-]. simpl. split; [reflexivity|]. eapply cast_utf8_len; eauto.
Qed.

Lemma clean_cast_same_rows df w df1 w1 :
  clean_cast df w = (Ok df1, w1) ->
  Forall2 (fun c c1 => col_name c1 = col_name c /\
                       series_len (col_data c1) = series_len (col_data c)) df df1.
Proof.
  unfold clean_cast. destruct (collect_casts df) as [cast_dict null_count].
  case_bool_decide; unfold_M; simpl.
  - intros [= <- <-]. apply Forall2_same_length_lookup_2; [reflexivity|].
    intros i x y Hx Hy. rewrite Hx in Hy. injection Hy as <-. auto.
  - destruct (Polars.cast df cast_dict) as [d|] eqn:Hc; [|discriminate].
    intros [= <- <-]. eapply cast_same_rows; eauto.
Qed.

(** The columns the trip through pandas returns stand for columns it was
    given, in their order. *)
Lemma clean_pandas_kept d w out w' :
  Forall (fun c => is_null_or_nested (col_dtype c) = false) d ->
  clean_pandas d w = (Ok out, w') ->
  exists kept, sublist kept d /\ Forall2 kept_as kept out.
Proof.
  intros Hd. unfold clean_pandas. rewrite from_pandas_columns. unfold_M.
  set (kept := List.filter (fun c => negb (Pandas.all_na
                              (Polars.series_to_pandas (col_data c)))) d).
  match goal with |- context [result_map ?g kept] =>
    destruct (result_map g kept) as [o|] eqn:Hr end; simpl; [|discriminate].
  intros [= <- <-]. exists kept. split; [apply filter_sublist_of|].
  apply result_map_Ok in Hr.
  assert (Hin : Forall (fun c => is_null_or_nested (col_dtype c) = false) kept).
  { apply Forall_forall. intros c Hc. apply list_elem_of_In, filter_In in Hc.
    rewrite Forall_forall in Hd. apply Hd, list_elem_of_In, Hc. }
  clearbody kept. revert Hin.
  induction Hr as [|c y l l' Hcy _ IH]; intros Hin; [constructor|].
  inversion Hin as [|? ? Hc Hin']; subst. constructor; [|auto].
  cbv beta in Hcy.
  destruct (Polars.series_from_pandas
              (Pandas.fillna_series (Polars.series_to_pandas (col_data c))))
    as [s|] eqn:Hs; simpl in Hcy; [|discriminate].
  injection Hcy as <-.
  assert (Hsc : scalar_or_null (dtype_of (col_data c)) = true).
  { unfold col_dtype in Hc. destruct (dtype_of (col_data c)); simpl in *; congruence. }
  destruct (fillna_trip_kept _ _ (series_to_pandas_scalar _ Hsc) Hs) as (Hlen & Hty & Hnn).
  unfold kept_as, col_dtype. simpl. rewrite Hlen, series_to_pandas_len. auto.
Qed.

Lemma astype_str_len p : plen (Pandas.astype_str p) = plen p.
Proof. destruct p; simpl; rewrite length_map; reflexivity. Qed.

(** The last-resort pass returns every column it was given, as strings. *)
Lemma clean_last_resort_kept d e w out w' :
  clean_last_resort d e w = (Ok out, w') -> Forall2 kept_as d out.
Proof.
  unfold clean_last_resort. fold (last_resort_frame d). unfold_M. simpl.
  destruct (last_resort_from_pandas d) as (o & Hr & _). rewrite Hr. simpl.
  intros [= <- <-]. apply from_pandas_Ok in Hr.
  unfold last_resort_frame, Polars.to_pandas in Hr. rewrite map_map in Hr.
  apply Forall2_fmap_l in Hr.
  eapply Forall2_impl; [exact Hr|]. intros c y [Hname Hs]. simpl in *.
  assert (Hstr := astype_fill_all_str (Polars.series_to_pandas (col_data c))).
  destruct (series_from_pandas_str _ Hstr) as [v Hv].
  assert (Hscalar : scalar_cells (Pandas.astype_str (Polars.series_to_pandas (col_data c)))).
  { destruct (Polars.series_to_pandas (col_data c)) as [v0|v0|v0|v0]; simpl;
      apply Forall_map, Forall_forall; intros x _; try destruct x; reflexivity. }
  destruct (fillna_trip_kept _ _ Hscalar Hs) as (Hlen & Hty & Hnn).
  unfold kept_as, col_dtype. rewrite Hlen, astype_str_len, series_to_pandas_len. auto.
Qed.

End KeptFacts.

Lemma Forall2_compose {A B C} (R1 : A -> B -> Prop) (R2 : B -> C -> Prop)
    (R3 : A -> C -> Prop) l1 l2 l3 :
  (forall a b c, R1 a b -> R2 b c -> R3 a c) ->
  Forall2 R1 l1 l2 -> Forall2 R2 l2 l3 -> Forall2 R3 l1 l3.
Proof.
  intros HR H12. revert l3. induction H12 as [|a b l1 l2 Hab _ IH]; intros l3 H23.
  - inversion H23; subst. constructor.
  - inversion H23; subst. constructor; eauto.
Qed.

Lemma kept_as_after_cast (c c1 y : Column) :
  col_name c1 = col_name c /\ series_len (col_data c1) = series_len (col_data c) ->
  kept_as c1 y -> kept_as c y.
Proof.
  intros [Hn Hl] (Hn' & Hl' & Hty & Hnn). unfold kept_as. repeat split; congruence.
Qed.

(** The table the normalizer returns is made of columns of its input. *)
Lemma clean_null_columns_kept `{Environment} df w out w' :
  _clean_null_columns df w = (Ok out, w') ->
  exists kept, sublist kept df /\ Forall2 kept_as kept out.
Proof.
  unfold _clean_null_columns.
  destruct (clean_cast df w) as [[df1|e] w1] eqn:Hcast.
  - assert (Hrows := clean_cast_same_rows _ _ _ _ Hcast).
    assert (Hscalar := clean_cast_scalar _ _ _ _ Hcast).
    destruct (clean_pandas df1 w1) as [[o|e] w2] eqn:Hp.
    + intros [= <- <-].
      destruct (clean_pandas_kept _ _ _ _ Hscalar Hp) as (kept1 & Hsub1 & Hkept1).
      destruct (Forall2_sublist_back _ _ _ _ Hrows Hsub1) as (kept & Hsub & Hk).
      exists kept. split; [exact Hsub|].
      eapply Forall2_compose; [|exact Hk|exact Hkept1]. apply kept_as_after_cast.
    + destruct (is_Exception e); [|discriminate]. intros Hlast.
      exists df. split; [reflexivity|].
      eapply Forall2_compose; [|exact Hrows|eapply clean_last_resort_kept; exact Hlast].
      apply kept_as_after_cast.
  - destruct (is_Exception e); [|discriminate]. intros Hlast.
    exists df. split; [reflexivity|]. eapply clean_last_resort_kept; exact Hlast.
Qed.

(** ** What leaves the bronze tables alone *)

Ltac bronze_kept :=
  repeat first
    [ apply keeps_bronze_ret | apply keeps_bronze_raise | apply keeps_bronze_lift
    | apply keeps_bronze_logger
    | apply keeps_bronze_bind; [|intros ?]
    | apply keeps_bronze_try_except; [|intros ?]
    | match goal with |- keeps_bronze (match ?x with _ => _ end) => destruct x end
    | match goal with |- keeps_bronze (if ?x then _ else _) => destruct x end ].

Lemma get_now_keeps_bronze : keeps_bronze get_now.
Proof. intros w r w'. unfold get_now. intros [= _ <-]. reflexivity. Qed.

Lemma clean_null_columns_keeps_bronze `{Environment} df : keeps_bronze (_clean_null_columns df).
Proof.
  assert (Hcast : keeps_bronze (clean_cast df)).
  { unfold clean_cast. destruct (collect_casts df). bronze_kept. }
  assert (Hpandas : forall d, keeps_bronze (clean_pandas d)).
  { intros d. unfold clean_pandas. bronze_kept. }
  assert (Hlast : forall d e, keeps_bronze (clean_last_resort d e)).
  { intros d e. unfold clean_last_resort. bronze_kept. }
  intros w r w'. unfold _clean_null_columns.
  destruct (clean_cast df w) as [[df1|e] w1] eqn:Hc; apply Hcast in Hc.
  - destruct (clean_pandas df1 w1) as [[o|e] w2] eqn:Hp; apply Hpandas in Hp.
    + intros [= _ <-]. congruence.
    + destruct (is_Exception e).
      * intros Hl. apply Hlast in Hl. congruence.
      * intros [= _ <-]. congruence.
  - destruct (is_Exception e).
    + intros Hl. apply Hlast in Hl. congruence.
    + intros [= _ <-]. congruence.
Qed.

(** X1.  Whatever pass produces it, the table the normalizer returns is
    made of columns of its input, in their order, under their names and
    with their number of rows: no column is added, renamed or reordered and
    no row is lost.  No column of it holds a null cell, and the bronze
    tables are not touched. *)
Theorem normalizer_keeps_rows_and_fills_every_cell `{Environment}
    (df : DataFrame) (w : world) (out : DataFrame) (w' : world) :
  _clean_null_columns df w = (Ok out, w') ->
  (exists kept, sublist kept df /\ Forall2 kept_as kept out) /\
  (length out <= length df)%nat /\
  bronze w' = bronze w.
Proof.
  intros Hrun.
  destruct (clean_null_columns_kept _ _ _ _ Hrun) as (kept & Hsub & Hkept).
  split; [eauto|]. split.
  - rewrite <- (Forall2_length _ _ _ Hkept). apply sublist_length, Hsub.
  - apply (clean_null_columns_keeps_bronze df _ _ _ Hrun).
Qed.

Lemma normalizer_keeps_rows_and_fills_every_cell_witness :
  (exists kept, sublist kept sample_nested /\ Forall2 kept_as kept sample_nested_clean) /\
  (length sample_nested_clean <= length sample_nested)%nat /\
  bronze sample_nested_world = bronze sample_world.
Proof.
  apply (normalizer_keeps_rows_and_fills_every_cell (H := sample_env)
           sample_nested sample_world sample_nested_clean sample_nested_world).
  vm_compute. reflexivity.
Defined.

(** ** The normalizer on a table it has already cleaned *)

Section CleanTables.
Context `{Environment}.

Lemma null_mask_len s : length (null_mask s) = series_len s.
Proof. destruct s; simpl; rewrite ?length_map, ?repeat_length; reflexivity. Qed.

Lemma clean_column_not_all_empty c : clean_column c -> all_empty c = false.
Proof.
  intros (_ & Hnn & Hlen). unfold all_empty, no_null_cells in *.
  rewrite <- null_mask_len in Hlen. apply negb_true_iff in Hnn.
  destruct (null_mask (col_data c)) as [|b m]; [contradiction|].
  simpl in *. destruct b; simpl in *; [discriminate|reflexivity].
Qed.

Lemma filled_no_null s : no_null_cells s = true -> filled s = s.
Proof.
  unfold no_null_cells. destruct s as [v|v|v|v|n|t v|fs v]; simpl; auto.
  intros Hnn. apply negb_true_iff in Hnn. f_equal.
  induction v as [|[x|] v IH]; simpl in *; try discriminate; [reflexivity|].
  f_equal. auto.
Qed.

Lemma clean_column_primary_ok c : clean_column c -> primary_ok_column c = true.
Proof.
  intros (Hty & Hnn & _). unfold primary_ok_column, partly_empty, no_null_cells, col_dtype in *.
  apply negb_true_iff in Hnn.
  destruct (col_data c); simpl in *; try discriminate; try reflexivity;
    rewrite Hnn; reflexivity.
Qed.

Lemma clean_normalized d : Forall clean_column d -> normalized d = d.
Proof.
  unfold normalized. induction 1 as [|c d Hc _ IH]; simpl; [reflexivity|].
  rewrite (clean_column_not_all_empty c Hc). simpl. rewrite IH.
  destruct Hc as (Hty & Hnn & _).
  rewrite coerced_scalar by exact Hty. rewrite filled_no_null by exact Hnn.
  destruct c; reflexivity.
Qed.

Lemma clean_coerce d : Forall clean_column d -> map coerce_column d = d.
Proof.
  induction 1 as [|c d Hc _ IH]; simpl; [reflexivity|].
  rewrite IH, coerce_column_scalar by apply Hc. reflexivity.
Qed.

Lemma clean_collects_nothing d : Forall clean_column d -> fst (collect_casts d) = ∅.
Proof.
  intros Hd. apply map_eq. intros k. rewrite collect_casts_lookup, lookup_empty.
  replace (existsb _ d) with false; [reflexivity|].
  symmetry. apply not_true_is_false. intros Hex. apply existsb_exists in Hex.
  destruct Hex as (c & Hin & Hc). rewrite Forall_forall in Hd.
  destruct (Hd c) as (Hty & _); [apply list_elem_of_In, Hin|].
  rewrite Hty, andb_false_r in Hc. discriminate.
Qed.

(** The normalizer returns a clean table as it is. *)
Lemma clean_identity d w :
  Forall clean_column d -> exists w', _clean_null_columns d w = (Ok d, w').
Proof.
  intros Hd. unfold _clean_null_columns.
  assert (Hcast : clean_cast d w = (Ok d, w)).
  { unfold clean_cast. assert (He := clean_collects_nothing d Hd).
    destruct (collect_casts d) as [cast_dict null_count]. simpl in He.
    rewrite bool_decide_eq_true_2 by exact He. reflexivity. }
  rewrite Hcast.
  assert (Hok : primary_ok d = true).
  { apply forallb_forall. intros c Hin. apply clean_column_primary_ok.
    rewrite Forall_forall in Hd. apply Hd, list_elem_of_In, Hin. }
  destruct (clean_pandas_primary d w Hok) as (w1 & Hp & _).
  rewrite (clean_coerce d Hd), (clean_normalized d Hd) in Hp. rewrite Hp. eauto.
Qed.

Lemma kept_columns_clean df kept out :
  Forall (fun c => series_len (col_data c) <> 0%nat) df ->
  sublist kept df -> Forall2 kept_as kept out -> Forall clean_column out.
Proof.
  intros Hrows Hsub Hkept.
  assert (Hk : Forall (fun c => series_len (col_data c) <> 0%nat) kept).
  { apply Forall_forall. intros c Hc. rewrite Forall_forall in Hrows.
    apply Hrows. eapply elem_of_sublist; eauto. }
  clear Hsub Hrows. induction Hkept as [|c0 c kept out (Hn & Hl & Hty & Hnn) _ IH];
    [constructor|].
  inversion Hk; subst. constructor; [|auto].
  unfold clean_column. repeat split; auto. congruence.
Qed.

End CleanTables.

(** X2.  The normalizer is idempotent on tables that have rows: given the
    table it returned for an input whose columns are not empty of rows, it
    returns that table again. *)
Theorem normalizer_idempotent `{Environment}
    (df : DataFrame) (w : world) (out : DataFrame) (w' : world) (w2 : world) :
  Forall (fun c => series_len (col_data c) <> 0%nat) df ->
  _clean_null_columns df w = (Ok out, w') ->
  exists w3, _clean_null_columns out w2 = (Ok out, w3).
Proof.
  intros Hrows Hrun.
  destruct (clean_null_columns_kept _ _ _ _ Hrun) as (kept & Hsub & Hkept).
  apply clean_identity. eapply kept_columns_clean; eauto.
Qed.

Lemma normalizer_idempotent_witness :
  exists w3, _clean_null_columns (H := sample_env) sample_nested_clean sample_world
             = (Ok sample_nested_clean, w3).
Proof.
  apply (normalizer_idempotent (H := sample_env)
           sample_nested sample_world sample_nested_clean sample_nested_world sample_world).
  - repeat constructor; simpl; discriminate.
  - vm_compute. reflexivity.
Defined.

(** ** From a file with rows to a new bronze table *)

Section FirstIngestion.
Context `{Environment}.

Lemma clean_null_columns_total df w :
  exists out w', _clean_null_columns df w = (Ok out, w').
Proof.
  unfold _clean_null_columns.
  destruct (clean_cast df w) as [[df1|e] w1] eqn:Hcast.
  - destruct (clean_pandas df1 w1) as [[out|e] w2] eqn:Hp; [eauto|].
    rewrite (clean_pandas_ordinary _ _ _ _ Hp).
    destruct (clean_last_resort_total df1 e w2) as (out & w' & Hr & _). eauto.
  - rewrite (clean_cast_ordinary _ _ _ _ Hcast).
    destruct (clean_last_resort_total df e w1) as (out & w' & Hr & _). eauto.
Qed.

Lemma infer_cells_strings (v : list (option string)) acc :
  existsb id (map is_none v) = false ->
  acc = Null \/ acc = Utf8 ->
  Arrow.infer_cells
    (map (fun c : option string => match c with Some x => PyStr x | None => PyNone end) v) acc
  = Some (match v with [] => acc | _ => Utf8 end).
Proof.
  revert acc. induction v as [|[x|] v IH]; simpl; intros acc Hnn Hacc;
    [reflexivity| |discriminate].
  destruct Hacc as [-> | ->]; simpl; rewrite (IH Utf8 Hnn (or_intror eq_refl));
    destruct v; reflexivity.
Qed.

(** The engine reads a clean column at the type polars gives it. *)
Lemma clean_column_type c :
  clean_column c ->
  Delta.column_type (Polars.series_to_pandas (col_data c)) = Ok (col_dtype c).
Proof.
  intros (Hty & Hnn & Hlen). unfold no_null_cells, col_dtype in *.
  apply negb_true_iff in Hnn.
  destruct (col_data c) as [v|v|v|v|n|t v|fs v]; simpl in *; try discriminate.
  - rewrite (infer_cells_strings v Null Hnn (or_introl eq_refl)).
    destruct v; [contradiction|reflexivity].
  - rewrite no_null_mask, Hnn. reflexivity.
  - reflexivity.
  - rewrite no_null_mask, Hnn. reflexivity.
Qed.

(** The engine accepts a clean table, with the schema polars gives it. *)
Lemma clean_frame_schema d :
  Forall clean_column d -> Delta.frame_schema (Polars.to_pandas d) = Ok (schema_of d).
Proof.
  unfold Delta.frame_schema, Polars.to_pandas, schema_of.
  induction 1 as [|c d Hc _ IH]; simpl; [reflexivity|].
  rewrite (clean_column_type c Hc). simpl.
  destruct Hc as (Hty & _).
  replace (dtype_eqb (col_dtype c) Null) with false
    by (destruct (col_dtype c); simpl in *; congruence).
  rewrite IH. reflexivity.
Qed.

Lemma set_column_clean d c :
  Forall clean_column d -> clean_column c -> Forall clean_column (Polars.set_column d c).
Proof.
  intros Hd Hc. induction Hd as [|x d Hx Hd IH]; simpl; [constructor; [exact Hc|constructor]|].
  destruct (String.eqb (col_name x) (col_name c)); constructor; auto.
Qed.

Lemma lit_column_clean name l n :
  n <> 0%nat -> clean_column {| col_name := name; col_data := Polars.lit_series l n |}.
Proof.
  intros Hn. unfold clean_column, no_null_cells, col_dtype.
  destruct l; simpl; rewrite repeat_length; repeat split; auto;
    apply negb_true_iff; clear Hn; induction n; simpl; auto.
Qed.

Lemma with_columns_clean d exprs :
  Forall clean_column d -> Forall clean_column (Polars.with_columns d exprs).
Proof.
  intros Hd. unfold Polars.with_columns.
  assert (Hn : match d with [] => 1%nat | _ :: _ => height d end <> 0%nat).
  { destruct Hd as [|c d (_ & _ & Hlen) _]; simpl; [discriminate|exact Hlen]. }
  revert Hn. generalize (match d with [] => 1%nat | _ :: _ => height d end). intros n Hn.
  revert d Hd. induction exprs as [|e exprs IH]; simpl; intros d Hd; [exact Hd|].
  apply IH, set_column_clean; [exact Hd|]. apply lit_column_clean, Hn.
Qed.

Lemma rectangular_rows df :
  rectangular df = true -> height df <> 0%nat ->
  Forall (fun c => series_len (col_data c) <> 0%nat) df.
Proof.
  unfold rectangular. rewrite forallb_forall. intros Hrect Hh.
  apply Forall_forall. intros c Hc. apply list_elem_of_In in Hc.
  specialize (Hrect c Hc). apply Nat.eqb_eq in Hrect. congruence.
Qed.

(** The annotator returns a clean table for every table whose columns have
    rows. *)
Lemma add_metadata_clean df file_path cluster w :
  Forall (fun c => series_len (col_data c) <> 0%nat) df ->
  exists out w',
    _add_metadata df file_path cluster w = (Ok out, w') /\
    Forall clean_column out /\
    (forall a, In a audit_columns -> In a (columns out)) /\
    bronze w' = bronze w.
Proof.
  intros Hrows.
  destruct (clean_null_columns_total df w) as (clean & w1 & Hrun).
  destruct (clean_null_columns_kept _ _ _ _ Hrun) as (kept & Hsub & Hkept).
  assert (Hclean := kept_columns_clean _ _ _ Hrows Hsub Hkept).
  unfold _add_metadata. unfold_M. rewrite Hrun. simpl.
  eexists. eexists. split; [reflexivity|]. split; [|split].
  - apply with_columns_clean, Hclean.
  - intros a Ha. unfold Polars.with_columns. cbn [fold_left fst snd].
    rewrite !columns_set_column. cbn [col_name].
    unfold audit_columns in Ha. simpl in Ha. intuition (subst; auto).
  - apply (clean_null_columns_keeps_bronze df _ _ _ Hrun).
Qed.

(** Where nothing exists at the place of the table, the Writer creates the
    table from a frame the engine accepts. *)
Lemma save_to_bronze_creates df cluster file_stem w sch :
  Delta.frame_schema (Polars.to_pandas df) = Ok sch ->
  bronze w !! PathLib.str (table_path cluster) = None ->
  _save_to_bronze df cluster file_stem w
  = (Ok tt,
     {| log := log w ++ [{| lvl := INFO;
                            msg := "🆕 Nova tabela Delta criada: " +:+ cluster +:+ "_bronze" |}];
        now := now w;
        bronze := <[PathLib.str (table_path cluster)
                    := Some {| Delta.schema := sch;
                               Delta.commits := [Polars.to_pandas df] |}]> (bronze w) |}).
Proof.
  intros Hsch Hnone. unfold _save_to_bronze. unfold_M. simpl.
  rewrite bool_decide_eq_false_2 by (rewrite Hnone; apply is_Some_None).
  simpl. unfold Delta.write_deltalake. rewrite Hsch. simpl.
  rewrite lookup_insert_eq. simpl. rewrite insert_insert_eq. reflexivity.
Qed.

End FirstIngestion.

(** X3.  A file that reads as a table with rows, for a cluster that has no
    table yet, is always ingested: [process_file] returns without an error
    and the bronze store holds, at the place of the cluster, a new table
    whose single commit is the annotated table and whose schema is the
    schema of that table.  The annotated table has the five audit columns,
    no null cell and no column of null or nested type. *)
Theorem first_ingestion_creates_table `{Environment}
    (file_path : Path) (cluster : string) (w : world) (df : DataFrame) (w1 : world) :
  _read_file file_path (add_log w INFO ("📊 Lendo arquivo: " +:+ PathLib.name file_path))
    = (Ok (Some df), w1) ->
  height df <> 0%nat ->
  rectangular df = true ->
  bronze w !! PathLib.str (table_path cluster) = None ->
  exists out w2 w',
    _add_metadata df file_path cluster w1 = (Ok out, w2) /\
    process_file file_path cluster w = (Ok tt, w') /\
    bronze w'
    = <[PathLib.str (table_path cluster)
        := Some {| Delta.schema := schema_of out;
                   Delta.commits := [Polars.to_pandas out] |}]> (bronze w) /\
    Forall clean_column out /\
    (forall a, In a audit_columns -> In a (columns out)).
Proof.
  intros Hread Hh Hrect Hnone.
  assert (Hrows := rectangular_rows df Hrect Hh).
  destruct (add_metadata_clean df file_path cluster w1 Hrows)
    as (out & w2 & Hadd & Hclean & Haudit & Hb2).
  assert (Hb1 : bronze w1 = bronze w) by apply (read_file_keeps_bronze _ _ _ _ Hread).
  assert (Hnone2 : bronze w2 !! PathLib.str (table_path cluster) = None) by congruence.
  assert (Hsave := save_to_bronze_creates out cluster (PathLib.stem file_path) w2 _
                     (clean_frame_schema out Hclean) Hnone2).
  exists out, w2. eexists. split; [exact Hadd|]. split; [|split; [|split]].
  - unfold process_file, try_except. unfold mbind at 1. unfold M_bind at 1.
    unfold logger at 1.
    fold (add_log w INFO ("📊 Lendo arquivo: " +:+ PathLib.name file_path)).
    unfold mbind at 1. unfold M_bind at 1. rewrite Hread.
    destruct (height df =? 0)%nat eqn:Hz; [apply Nat.eqb_eq in Hz; contradiction|].
    unfold mbind at 1. unfold M_bind at 1. rewrite Hadd.
    unfold mbind at 1. unfold M_bind at 1. rewrite Hsave.
    unfold logger. reflexivity.
  - simpl. congruence.
  - exact Hclean.
  - exact Haudit.
Qed.

Lemma first_ingestion_creates_table_witness :
  exists out w2 w',
    _add_metadata (H := sample_env) sample_csv_one_column sample_csv "diabetes"
      (add_log (add_log sample_world INFO "📊 Lendo arquivo: PACIENTES.CSV")
               INFO "📈 CSV lido (sep ','): 2 linhas, 1 colunas")
      = (Ok out, w2) /\
    process_file (H := sample_env) sample_csv "diabetes" sample_world = (Ok tt, w') /\
    bronze w'
    = <[PathLib.str (table_path (H := sample_env) "diabetes")
        := Some {| Delta.schema := schema_of out;
                   Delta.commits := [Polars.to_pandas out] |}]> (bronze sample_world) /\
    Forall clean_column out /\
    (forall a, In a audit_columns -> In a (columns out)).
Proof.
  apply (first_ingestion_creates_table (H := sample_env) sample_csv "diabetes" sample_world
           sample_csv_one_column).
  - vm_compute. reflexivity.
  - simpl. discriminate.
  - reflexivity.
  - reflexivity.
Defined.

(** ** A file for a cluster that has a table *)

Section LaterIngestion.
Context `{Environment}.

(** [process_file] once the file is read and annotated: what is left is the
    write, whose error, if any, is logged and raised again. *)
Lemma process_file_after_annotation file_path cluster w df w1 out w2 :
  _read_file file_path (add_log w INFO ("📊 Lendo arquivo: " +:+ PathLib.name file_path))
    = (Ok (Some df), w1) ->
  height df <> 0%nat ->
  _add_metadata df file_path cluster w1 = (Ok out, w2) ->
  process_file file_path cluster w
  = match _save_to_bronze out cluster (PathLib.stem file_path) w2 with
    | (Ok _, w3) =>
        (Ok tt, add_log w3 INFO ("✅ Arquivo salvo no Bronze: " +:+ PathLib.name file_path
                                 +:+ " (" +:+ Py.str_nat (height df) +:+ " registros)"))
    | (Raise e, w3) =>
        if is_Exception e
        then (Raise e, add_log w3 ERROR ("❌ Erro ao processar " +:+ PathLib.name file_path
                                         +:+ ": " +:+ exn_str e))
        else (Raise e, w3)
    end.
Proof.
  intros Hread Hh Hadd.
  unfold process_file, try_except. unfold mbind at 1. unfold M_bind at 1.
  unfold logger at 1.
  fold (add_log w INFO ("📊 Lendo arquivo: " +:+ PathLib.name file_path)).
  unfold mbind at 1. unfold M_bind at 1. rewrite Hread.
  destruct (height df =? 0)%nat eqn:Hz; [apply Nat.eqb_eq in Hz; contradiction|].
  unfold mbind at 1. unfold M_bind at 1. rewrite Hadd.
  unfold mbind at 1. unfold M_bind at 1.
  destruct (_save_to_bronze out cluster (PathLib.stem file_path) w2) as [[[]|e] w3];
    [reflexivity|].
  destruct (is_Exception e); reflexivity.
Qed.

Lemma lookup_type_In n t sch :
  NoDup (map fst sch) -> In (n, t) sch -> Delta.lookup_type n sch = Some t.
Proof.
  induction sch as [|[m x] sch IH]; simpl; intros Hnd Hin; [contradiction|].
  inversion Hnd as [|? ? Hm Hnd']; subst.
  destruct Hin as [[= -> ->]|Hin]; [rewrite String.eqb_refl; reflexivity|].
  destruct (String.eqb_spec m n) as [->|_]; [|auto].
  elim Hm. apply list_elem_of_In. change n with (fst (n, t)). apply in_map, Hin.
Qed.

(** Merging into a schema columns it already has leaves it as it is. *)
Lemma merge_schema_known new : forall old,
  Forall (fun nt => is_Some (Delta.lookup_type (fst nt) old)) new ->
  Delta.merge_schema old new = old.
Proof.
  induction new as [|[m t] new IH]; simpl; intros old Hnew; [reflexivity|].
  inversion Hnew as [|? ? [t0 Hl] Hnew']; subst. simpl in *.
  rewrite Hl. apply IH, Hnew'.
Qed.

Lemma schema_of_names d : map fst (schema_of d) = columns d.
Proof. unfold schema_of, columns. rewrite map_map. reflexivity. Qed.

(** A table that has the schema of a clean frame takes every column of the
    frame as it is. *)
Lemma same_schema_taken out :
  Forall clean_column out -> NoDup (columns out) ->
  Forall2 (taken_as (schema_of out)) (Polars.to_pandas out) (Polars.to_pandas out).
Proof.
  intros Hclean Hnd. apply Forall_Forall2_diag, Forall_forall. intros pc Hpc.
  apply list_elem_of_In in Hpc. unfold Polars.to_pandas in Hpc.
  apply in_map_iff in Hpc. destruct Hpc as (c & <- & Hc).
  split; [reflexivity|]. simpl.
  rewrite (lookup_type_In (col_name c) (col_dtype c)).
  - split; [reflexivity|]. intros Hne. elim Hne. apply clean_column_type.
    rewrite Forall_forall in Hclean. apply Hclean, list_elem_of_In, Hc.
  - rewrite schema_of_names. exact Hnd.
  - unfold schema_of. apply in_map_iff. exists c. auto.
Qed.

End LaterIngestion.

(** X4.  Ingestion does not deduplicate.  When the table of the cluster has
    the schema of the annotated table of a file (as after an earlier
    ingestion of a file of that layout), processing the file succeeds and
    appends its rows as one more commit, the schema unchanged: a file
    dropped twice is stored twice. *)
Theorem same_layout_is_appended_again `{Environment}
    (file_path : Path) (cluster : string) (w : world) (df : DataFrame) (w1 : world)
    (out : DataFrame) (w2 : world) (t : Delta.DeltaTable) :
  _read_file file_path (add_log w INFO ("📊 Lendo arquivo: " +:+ PathLib.name file_path))
    = (Ok (Some df), w1) ->
  height df <> 0%nat ->
  rectangular df = true ->
  _add_metadata df file_path cluster w1 = (Ok out, w2) ->
  NoDup (columns out) ->
  bronze w !! PathLib.str (table_path cluster) = Some (Some t) ->
  Delta.schema t = schema_of out ->
  exists w',
    process_file file_path cluster w = (Ok tt, w') /\
    bronze w'
    = <[PathLib.str (table_path cluster)
        := Some {| Delta.schema := Delta.schema t;
                   Delta.commits := Delta.commits t ++ [Polars.to_pandas out] |}]> (bronze w).
Proof.
  intros Hread Hh Hrect Hadd Hnd Hsome Hschema.
  assert (Hrows := rectangular_rows df Hrect Hh).
  destruct (add_metadata_clean df file_path cluster w1 Hrows)
    as (out' & w2' & Hadd' & Hclean & _ & Hb2).
  rewrite Hadd in Hadd'. injection Hadd' as <- <-.
  assert (Hb1 : bronze w1 = bronze w) by apply (read_file_keeps_bronze _ _ _ _ Hread).
  assert (Hmerge : Delta.merge_schema (Delta.schema t) (schema_of out) = Delta.schema t).
  { apply merge_schema_known. rewrite Hschema. apply Forall_forall. intros [n x] Hin.
    apply list_elem_of_In in Hin. simpl. exists x.
    apply lookup_type_In; [rewrite schema_of_names; exact Hnd|exact Hin]. }
  assert (Hsch := clean_frame_schema out Hclean).
  assert (Htaken : result_map (Delta.merge_column (Delta.schema t)) (Polars.to_pandas out)
                   = Ok (Polars.to_pandas out)).
  { apply merge_columns_taken; [eapply frame_schema_types; exact Hsch|].
    rewrite Hschema. apply same_schema_taken; assumption. }
  assert (Hsome2 : bronze w2 !! PathLib.str (table_path cluster) = Some (Some t))
    by congruence.
  rewrite (process_file_after_annotation _ _ _ _ _ _ _ Hread Hh Hadd).
  rewrite (save_to_bronze_merged out cluster _ w2 _ t _ Hsch Hsome2 Htaken).
  eexists. split; [reflexivity|]. simpl. rewrite Hmerge, Hb2, Hb1. reflexivity.
Qed.

Lemma same_layout_is_appended_again_witness :
  exists w',
    process_file (H := sample_env) sample_csv "diabetes" sample_world_ingested = (Ok tt, w') /\
    bronze w'
    = <[PathLib.str (table_path (H := sample_env) "diabetes")
        := Some {| Delta.schema := Delta.schema sample_table;
                   Delta.commits := Delta.commits sample_table
                                    ++ [Polars.to_pandas sample_annotated] |}]>
        (bronze sample_world_ingested).
Proof.
  apply (same_layout_is_appended_again (H := sample_env) sample_csv "diabetes"
           sample_world_ingested sample_csv_one_column
           (sample_read_world sample_world_ingested) sample_annotated
           (snd (_add_metadata (H := sample_env) sample_csv_one_column sample_csv "diabetes"
                   (sample_read_world sample_world_ingested)))).
  - vm_compute. reflexivity.
  - simpl. discriminate.
  - reflexivity.
  - vm_compute. reflexivity.
  - vm_compute. repeat constructor; rewrite ?list_elem_of_In; simpl; intuition discriminate.
  - vm_compute. reflexivity.
  - reflexivity.
Defined.

(** X5.  A type difference alone does not fail a file.  Where the table of
    the cluster has a column of the file's annotated table at another
    type, the column is cast to the table's type and the file is
    committed, the table keeping its types.  Only a column that cannot be
    cast fails the file: [process_file] raises the engine's error after
    logging it, and the bronze store is as it was, nothing of the file
    written. *)
Theorem type_difference_is_cast_or_fails_the_file `{Environment}
    (file_path : Path) (cluster : string) (w : world) (df : DataFrame) (w1 : world)
    (out : DataFrame) (w2 : world) (t : Delta.DeltaTable) :
  _read_file file_path (add_log w INFO ("📊 Lendo arquivo: " +:+ PathLib.name file_path))
    = (Ok (Some df), w1) ->
  height df <> 0%nat ->
  rectangular df = true ->
  _add_metadata df file_path cluster w1 = (Ok out, w2) ->
  bronze w !! PathLib.str (table_path cluster) = Some (Some t) ->
  (forall pdf',
     Forall2 (taken_as (Delta.schema t)) (Polars.to_pandas out) pdf' ->
     exists w',
       process_file file_path cluster w = (Ok tt, w') /\
       bronze w'
       = <[PathLib.str (table_path cluster)
           := Some {| Delta.schema := Delta.merge_schema (Delta.schema t) (schema_of out);
                      Delta.commits := Delta.commits t ++ [pdf'] |}]> (bronze w)) /\
  (forall c t0 e0,
     In c (Polars.to_pandas out) ->
     Delta.lookup_type (pcol_name c) (Delta.schema t) = Some t0 ->
     Delta.column_type (pcol_data c) <> Ok t0 ->
     delta_cast t0 (pcol_data c) = Raise e0 ->
     exists e w',
       process_file file_path cluster w = (Raise e, w') /\
       bronze w' = bronze w /\
       (is_Exception e = true -> last (map lvl (log w')) = Some ERROR)).
Proof.
  intros Hread Hh Hrect Hadd Hsome.
  assert (Hrows := rectangular_rows df Hrect Hh).
  destruct (add_metadata_clean df file_path cluster w1 Hrows)
    as (out' & w2' & Hadd' & Hclean & _ & Hb2).
  rewrite Hadd in Hadd'. injection Hadd' as <- <-.
  assert (Hb1 : bronze w1 = bronze w) by apply (read_file_keeps_bronze _ _ _ _ Hread).
  assert (Hsome2 : bronze w2 !! PathLib.str (table_path cluster) = Some (Some t))
    by congruence.
  assert (Hsch := clean_frame_schema out Hclean).
  assert (Hty := frame_schema_types _ _ Hsch).
  rewrite (process_file_after_annotation _ _ _ _ _ _ _ Hread Hh Hadd).
  split.
  - intros pdf' Htaken.
    rewrite (save_to_bronze_merged out cluster _ w2 _ t pdf' Hsch Hsome2
               (merge_columns_taken _ _ _ Hty Htaken)).
    eexists. split; [reflexivity|]. simpl. rewrite Hb2, Hb1. reflexivity.
  - intros c t0 e0 Hin Hold Hne Hcast.
    destruct (merge_columns_uncastable _ _ c t0 e0 Hty Hin Hold Hne Hcast) as [e He].
    rewrite (save_to_bronze_refused out cluster _ w2 _ t e Hsch Hsome2 He).
    exists e. destruct (is_Exception e); eexists; (split; [reflexivity|]).
    + split; [simpl; congruence|]. intros _. simpl. rewrite map_app. simpl. apply last_snoc.
    + split; [congruence|discriminate].
Qed.

Lemma type_difference_is_cast_or_fails_the_file_witness :
  (exists w',
     process_file (H := sample_env) sample_csv "diabetes" sample_world_castable = (Ok tt, w') /\
     bronze w'
     = <[PathLib.str (table_path (H := sample_env) "diabetes")
         := Some {| Delta.schema
                      := Delta.merge_schema [("_row_count", Utf8)] (schema_of sample_annotated);
                    Delta.commits := [sample_annotated_cast] |}]>
         (bronze sample_world_castable)) /\
  (exists e w',
     process_file (H := sample_env) sample_csv "diabetes" sample_world_conflict = (Raise e, w') /\
     bronze w' = bronze sample_world_conflict /\
     (is_Exception e = true -> last (map lvl (log w')) = Some ERROR)).
Proof.
  split.
  - apply (proj1 (type_difference_is_cast_or_fails_the_file (H := sample_env)
                    sample_csv "diabetes" sample_world_castable sample_csv_one_column
                    (sample_read_world sample_world_castable) sample_annotated
                    (snd (_add_metadata (H := sample_env) sample_csv_one_column sample_csv
                            "diabetes" (sample_read_world sample_world_castable)))
                    {| Delta.schema := [("_row_count", Utf8)]; Delta.commits := [] |}
                    eq_refl (fun Hz => O_S _ (eq_sym Hz)) eq_refl eq_refl eq_refl)
             sample_annotated_cast).
    repeat constructor; simpl; try reflexivity; try discriminate.
  - apply (proj2 (type_difference_is_cast_or_fails_the_file (H := sample_env)
                    sample_csv "diabetes" sample_world_conflict sample_csv_one_column
                    (sample_read_world sample_world_conflict) sample_annotated
                    (snd (_add_metadata (H := sample_env) sample_csv_one_column sample_csv
                            "diabetes" (sample_read_world sample_world_conflict)))
                    {| Delta.schema := [("id;nome", Int64)]; Delta.commits := [] |}
                    eq_refl (fun Hz => O_S _ (eq_sym Hz)) eq_refl eq_refl eq_refl)
             {| pcol_name := "id;nome"; pcol_data := PObject [PyStr "1;Ana"; PyStr "2;Rui"] |}
             Int64 (PyException "Cannot cast string '1;Ana' to value of Int64 type")).
    + simpl. auto.
    + reflexivity.
    + discriminate.
    + reflexivity.
Defined.

(** ** One file, one table *)

Section Isolation.
Context `{Environment}.

Lemma keeps_bronze_touches_only {A} k (m : M A) : keeps_bronze m -> touches_only k m.
Proof. intros Hm w r w' Hr k' _. rewrite (Hm _ _ _ Hr). reflexivity. Qed.

Lemma touches_only_bind {A B} k (m : M A) (f : A -> M B) :
  touches_only k m -> (forall a, touches_only k (f a)) -> touches_only k (m ≫= f).
Proof.
  intros Hm Hf w r w'. unfold mbind, M_bind.
  destruct (m w) as [[a|e] w1] eqn:Hmw.
  - intros Hfa k' Hk. rewrite (Hf a _ _ _ Hfa k' Hk). eapply Hm; eauto.
  - intros [= _ <-] k' Hk. eapply Hm; eauto.
Qed.

Lemma touches_only_try_except {A} k (m : M A) (h : exn -> M A) :
  touches_only k m -> (forall e, touches_only k (h e)) -> touches_only k (try_except m h).
Proof.
  intros Hm Hh w r w'. unfold try_except.
  destruct (m w) as [[a|e] w1] eqn:Hmw.
  - intros [= _ <-] k' Hk. eapply Hm; eauto.
  - destruct (is_Exception e).
    + intros Hhe k' Hk. rewrite (Hh e _ _ _ Hhe k' Hk). eapply Hm; eauto.
    + intros [= _ <-] k' Hk. eapply Hm; eauto.
Qed.

Lemma write_deltalake_touches st path pdf mode merge st' :
  Delta.write_deltalake st path pdf mode merge = Ok st' ->
  forall k', k' <> path -> st' !! k' = st !! k'.
Proof.
  unfold Delta.write_deltalake.
  destruct (Delta.frame_schema pdf) as [sch|]; simpl; [|discriminate].
  intros Hw k' Hk.
  destruct (st !! path) as [[t|]|].
  - destruct mode.
    + destruct (Delta.schema_eqb (Delta.schema t) sch); [|discriminate].
      injection Hw as <-. apply lookup_insert_ne. congruence.
    + destruct merge.
      * destruct (result_map _ pdf) as [pdf'|]; simpl in Hw; [|discriminate].
        injection Hw as <-. apply lookup_insert_ne. congruence.
      * destruct (Delta.schema_eqb (Delta.schema t) sch); [|discriminate].
        injection Hw as <-. apply lookup_insert_ne. congruence.
  - injection Hw as <-. apply lookup_insert_ne. congruence.
  - injection Hw as <-. apply lookup_insert_ne. congruence.
Qed.

Lemma save_to_bronze_touches df cluster file_stem :
  touches_only (PathLib.str (table_path cluster)) (_save_to_bronze df cluster file_stem).
Proof.
  unfold _save_to_bronze. set (path := PathLib.str (table_path cluster)).
  apply touches_only_try_except;
    [|intros e; apply keeps_bronze_touches_only; bronze_kept].
  intros w r w'. unfold_M. simpl.
  destruct (bool_decide (is_Some (bronze w !! path))).
  - destruct (Delta.write_deltalake (bronze w) path _ Delta.Append true) as [st'|e] eqn:Hw;
      intros [= _ <-] k' Hk; simpl; [|reflexivity].
    eapply write_deltalake_touches; eauto.
  - simpl.
    destruct (Delta.write_deltalake (<[path:=None]> (bronze w)) path _ Delta.Overwrite false)
      as [st'|e] eqn:Hw; intros [= _ <-] k' Hk; simpl.
    + rewrite (write_deltalake_touches _ _ _ _ _ _ Hw k' Hk).
      apply lookup_insert_ne. congruence.
    + apply lookup_insert_ne. congruence.
Qed.

Lemma add_metadata_keeps_bronze df file_path cluster :
  keeps_bronze (_add_metadata df file_path cluster).
Proof.
  unfold _add_metadata.
  apply keeps_bronze_bind; [apply clean_null_columns_keeps_bronze|]. intros clean.
  apply keeps_bronze_bind; [apply get_now_keeps_bronze|]. intros t.
  apply keeps_bronze_ret.
Qed.

Lemma supported_formats_None file_path :
  supported file_path = false ->
  supported_formats !! Py.lower (PathLib.suffix file_path) = None.
Proof.
  unfold supported. rewrite !orb_false_iff, !String.eqb_neq. intros [[H1 H2] H3].
  unfold supported_formats.
  rewrite !lookup_insert_ne by congruence. apply lookup_empty.
Qed.

End Isolation.

(** X6.  [process_file] changes the bronze store at the place of the table
    of its own cluster and nowhere else, however it ends: the table of
    another cluster is never touched. *)
Theorem process_file_touches_its_table_only `{Environment}
    (file_path : Path) (cluster : string) (w : world) (r : result unit) (w' : world) :
  process_file file_path cluster w = (r, w') ->
  (forall k, k <> PathLib.str (table_path cluster) -> bronze w' !! k = bronze w !! k) /\
  (forall other, other <> cluster ->
     bronze w' !! PathLib.str (table_path other) = bronze w !! PathLib.str (table_path other)).
Proof.
  intros Hrun.
  assert (Htouch : touches_only (PathLib.str (table_path cluster))
                     (process_file file_path cluster)).
  { unfold process_file.
    apply touches_only_try_except;
      [|intros e; apply keeps_bronze_touches_only; bronze_kept].
    apply touches_only_bind;
      [apply keeps_bronze_touches_only, keeps_bronze_logger|]. intros _.
    apply touches_only_bind;
      [apply keeps_bronze_touches_only, read_file_keeps_bronze|]. intros [df|];
      [|apply keeps_bronze_touches_only, keeps_bronze_logger].
    destruct (height df =? 0)%nat;
      [apply keeps_bronze_touches_only, keeps_bronze_logger|].
    apply touches_only_bind;
      [apply keeps_bronze_touches_only, add_metadata_keeps_bronze|]. intros out.
    apply touches_only_bind; [apply save_to_bronze_touches|]. intros _.
    apply keeps_bronze_touches_only, keeps_bronze_logger. }
  split.
  - intros k Hk. apply (Htouch _ _ _ Hrun k Hk).
  - intros other Hother. apply (Htouch _ _ _ Hrun).
    intros Heq. apply Hother. apply table_path_inj. exact Heq.
Qed.

Lemma process_file_touches_its_table_only_witness :
  bronze (snd (process_file (H := sample_env) sample_csv "diabetes" sample_world_conflict))
    !! PathLib.str (table_path (H := sample_env) "emagrecimento")
  = bronze sample_world_conflict !! PathLib.str (table_path (H := sample_env) "emagrecimento").
Proof.
  destruct (process_file_touches_its_table_only (H := sample_env) sample_csv "diabetes"
              sample_world_conflict
              (fst (process_file (H := sample_env) sample_csv "diabetes" sample_world_conflict))
              (snd (process_file (H := sample_env) sample_csv "diabetes" sample_world_conflict)))
    as [_ Hother].
  - apply surjective_pairing.
  - apply Hother. discriminate.
Defined.

(** X7.  A file whose extension is not supported is an error for
    [process_file]: it raises the [ValueError] of [_read_file], after two
    log lines, the second being the error; no reader is called and nothing
    is written. *)
Theorem unsupported_file_raises `{Environment}
    (file_path : Path) (cluster : string) (w : world) :
  supported file_path = false ->
  process_file file_path cluster w
  = (Raise (ValueError ("Formato não suportado: " +:+ Py.lower (PathLib.suffix file_path))),
     add_log (add_log w INFO ("📊 Lendo arquivo: " +:+ PathLib.name file_path))
             ERROR ("❌ Erro ao processar " +:+ PathLib.name file_path +:+ ": "
                    +:+ "Formato não suportado: " +:+ Py.lower (PathLib.suffix file_path))).
Proof.
  intros Hsup. unfold process_file, try_except. unfold mbind at 1. unfold M_bind at 1.
  unfold logger at 1. unfold mbind at 1. unfold M_bind at 1.
  unfold _read_file. rewrite (supported_formats_None file_path Hsup). reflexivity.
Qed.

Lemma unsupported_file_raises_witness :
  fst (process_file (H := sample_env) ["srv"; "Landing_zone"; "notas.txt"] "diabetes"
         sample_world)
  = Raise (ValueError "Formato não suportado: .txt").
Proof.
  rewrite (unsupported_file_raises (H := sample_env) ["srv"; "Landing_zone"; "notas.txt"]
             "diabetes" sample_world); reflexivity.
Defined.

(** ** The cluster of a path *)

Section ClusterFacts.
Context `{Environment}.

Lemma relative_to_app base rest : PathLib.relative_to (base ++ rest) base = Some rest.
Proof.
  induction base as [|b base IH]; simpl; [destruct rest; reflexivity|].
  rewrite String.eqb_refl. exact IH.
Qed.

Lemma relative_to_Some p : forall base rest,
  PathLib.relative_to p base = Some rest -> p = base ++ rest.
Proof.
  induction p as [|c p IH]; intros [|b base] rest; simpl; try discriminate.
  - intros [= <-]. reflexivity.
  - intros [= <-]. reflexivity.
  - destruct (String.eqb_spec b c) as [->|]; [|discriminate].
    intros Hr. rewrite (IH _ _ Hr). reflexivity.
Qed.

Lemma name_div p child : PathLib.name (PathLib.div p child) = child.
Proof. unfold PathLib.name, PathLib.div. apply last_last. Qed.

End ClusterFacts.

(** X8.  [_detect_cluster] returns the first component of a path below
    [LANDING_ZONE/data/raw], and "unknown" for every path that is not
    strictly below that directory.  For a file directly in one of the five
    cluster directories it returns the name of that directory, which is the
    cluster the backlog scan uses for the same file. *)
Theorem detect_cluster_is_the_directory_below_raw `{Environment} :
  let raw := PathLib.div (PathLib.div LANDING_ZONE "data") "raw" in
  (forall cluster rest, _detect_cluster (raw ++ cluster :: rest) = cluster) /\
  (forall p, (forall cluster rest, p <> raw ++ cluster :: rest) ->
             _detect_cluster p = "unknown") /\
  (forall cluster_dir file_name,
     In cluster_dir cluster_directories ->
     _detect_cluster (PathLib.div cluster_dir file_name) = PathLib.name cluster_dir).
Proof.
  intros raw. split; [|split].
  - intros cluster rest. unfold _detect_cluster. fold raw.
    rewrite relative_to_app. reflexivity.
  - intros p Hp. unfold _detect_cluster. fold raw.
    destruct (PathLib.relative_to p raw) as [[|c rest]|] eqn:Hr; try reflexivity.
    apply relative_to_Some in Hr. elim (Hp c rest Hr).
  - intros cluster_dir file_name Hin. unfold cluster_directories in Hin. fold raw in Hin.
    apply in_map_iff in Hin. destruct Hin as (c & <- & _).
    rewrite name_div. unfold _detect_cluster. fold raw.
    unfold PathLib.div at 1 2. rewrite <- app_assoc. simpl.
    rewrite relative_to_app. reflexivity.
Qed.

Lemma detect_cluster_is_the_directory_below_raw_witness :
  _detect_cluster (H := sample_env) ["srv"; "Landing_zone"; "video_1.json"] = "unknown" /\
  _detect_cluster (H := sample_env) sample_csv = "diabetes".
Proof.
  destruct (detect_cluster_is_the_directory_below_raw (H := sample_env))
    as (_ & Hunknown & Hdir).
  split.
  - apply Hunknown. intros cluster rest. discriminate.
  - apply (Hdir ["srv"; "Landing_zone"; "data"; "raw"; "diabetes"] "PACIENTES.CSV").
    simpl. auto.
Defined.

(** ** The backlog scan *)

Section ScanFacts.
Context `{Environment}.

Lemma contained_ret {A} (a : A) : contained (mret a).
Proof. intros w e w'. unfold_M. discriminate. Qed.

Lemma contained_logger l m : contained (logger l m).
Proof. intros w e w'. unfold_M. discriminate. Qed.

Lemma contained_bind {A B} (m : M A) (f : A -> M B) :
  contained m -> (forall a, contained (f a)) -> contained (m ≫= f).
Proof.
  intros Hm Hf w e w'. unfold mbind, M_bind.
  destruct (m w) as [[a|e0] w1] eqn:Hmw.
  - apply Hf.
  - intros [= <- <-]. eapply Hm; eauto.
Qed.

(** A [try] whose handler cannot fail lets no ordinary exception out,
    whatever its body does. *)
Lemma contained_try_except {A} (m : M A) (h : exn -> M A) :
  (forall e, contained (h e)) -> contained (try_except m h).
Proof.
  intros Hh w e w'. unfold try_except.
  destruct (m w) as [[a|e0] w1]; [discriminate|].
  destruct (is_Exception e0) eqn:He0; [apply Hh|].
  intros [= <- <-]. exact He0.
Qed.

Lemma scan_process_contained cluster n file_path :
  contained (scan_process cluster n file_path).
Proof.
  unfold scan_process. apply contained_try_except. intros e.
  apply contained_bind; [apply contained_logger|]. intros _. apply contained_ret.
Qed.

Lemma scan_entry_contained cluster n entry : contained (scan_entry cluster n entry).
Proof.
  unfold scan_entry. destruct entry as [file_path is_file].
  destruct (_ && _); [apply scan_process_contained|apply contained_ret].
Qed.

Lemma scan_entries_contained cluster entries : forall n,
  contained (scan_entries cluster n entries).
Proof.
  induction entries as [|entry entries IH]; simpl; intros n; [apply contained_ret|].
  apply contained_bind; [apply scan_entry_contained|]. intros m. apply IH.
Qed.

(** What the loop over the cluster directories raises that is an
    [Exception] was raised by the listing of a directory. *)
Lemma scan_directories_raises dirs : forall n w e w',
  scan_directories n dirs w = (Raise e, w') ->
  is_Exception e = true ->
  exists d, In d dirs /\ iterdir d = Some (Raise e).
Proof.
  induction dirs as [|d dirs IH]; simpl; intros n w e w' Hrun He.
  - revert Hrun. unfold_M. discriminate.
  - destruct (iterdir d) as [[entries|e0]|] eqn:Hd.
    + revert Hrun. unfold mbind at 1. unfold M_bind at 1. unfold lift at 1.
      unfold mbind at 1. unfold M_bind at 1.
      destruct (scan_entries (PathLib.name d) n entries w) as [[m|e1] w1] eqn:Hentries.
      * intros Hrest. destruct (IH _ _ _ _ Hrest He) as (d' & Hin & Hd').
        exists d'. split; [right; exact Hin|exact Hd'].
      * intros [= <- <-]. apply scan_entries_contained in Hentries. congruence.
    + revert Hrun. unfold mbind at 1. unfold M_bind at 1. unfold lift at 1.
      intros [= <- <-]. exists d. split; [left; reflexivity|exact Hd].
    + destruct (IH _ _ _ _ Hrun He) as (d' & Hin & Hd').
      exists d'. split; [right; exact Hin|exact Hd'].
Qed.

End ScanFacts.

(** X9.  A file does not stop the backlog scan; a directory can.  When
    [process_file] raises an ordinary exception for a file of the scan,
    the scan logs it, leaves the count as it was and goes on to the next
    entry; an entry that is not a supported file is passed over without a
    trace.  An [Exception] that leaves the scan was raised by the listing
    of a cluster directory that exists, which stands outside the [try]:
    when the first cluster directory cannot be listed the scan ends there
    with that error. *)
Theorem scan_contains_file_failures `{Environment} :
  (forall cluster n file_path w e w1,
     process_file file_path cluster
       (add_log w INFO ("📄 Processando existente: " +:+ PathLib.name file_path
                        +:+ " (cluster: " +:+ cluster +:+ ")"))
     = (Raise e, w1) ->
     is_Exception e = true ->
     scan_entry cluster n (file_path, true) w
     = if supported file_path
       then (Ok n, add_log w1 ERROR ("❌ Erro ao processar " +:+ PathLib.name file_path
                                     +:+ ": " +:+ exn_str e))
       else (Ok n, w)) /\
  (forall w e w',
     scan_existing_files w = (Raise e, w') ->
     is_Exception e = true ->
     exists d, In d cluster_directories /\ iterdir d = Some (Raise e)) /\
  (forall w e,
     iterdir (PathLib.div (PathLib.div (PathLib.div LANDING_ZONE "data") "raw") "diabetes")
     = Some (Raise e) ->
     scan_existing_files w
     = (Raise e, add_log w INFO "🔍 Escaneando arquivos existentes na Landing Zone...")).
Proof.
  split; [|split].
  - intros cluster n file_path w e w1 Hrun He. unfold scan_entry. simpl.
    change ({[ ".xlsx"; ".xls"; ".csv" ]} : gset string) with supported_extensions.
    destruct (supported file_path) eqn:Hsup.
    + rewrite bool_decide_eq_true_2 by (apply supported_spec; exact Hsup).
      unfold scan_process, try_except. unfold mbind at 1. unfold M_bind at 1.
      unfold logger at 1.
      fold (add_log w INFO ("📄 Processando existente: " +:+ PathLib.name file_path
                            +:+ " (cluster: " +:+ cluster +:+ ")")).
      unfold mbind at 1. unfold M_bind at 1. rewrite Hrun, He. reflexivity.
    + rewrite bool_decide_eq_false_2
        by (intros Hin; apply supported_spec in Hin; congruence).
      reflexivity.
  - intros w e w'. unfold scan_existing_files.
    unfold mbind at 1. unfold M_bind at 1. unfold logger at 1.
    unfold mbind at 1. unfold M_bind at 1.
    destruct (scan_directories 0 cluster_directories _) as [[n|e0] w1] eqn:Hdirs.
    + unfold logger. discriminate.
    + intros [= <- <-] He. eapply scan_directories_raises; eassumption.
  - intros w e Hd. unfold scan_existing_files, cluster_directories. simpl.
    rewrite Hd. reflexivity.
Qed.

Lemma scan_contains_file_failures_witness :
  fst (scan_entry (H := sample_env) "diabetes" 0 (sample_csv, true) sample_world_conflict)
  = Ok 0%nat.
Proof.
  destruct (scan_contains_file_failures (H := sample_env)) as [Hentry _].
  rewrite (Hentry "diabetes" 0%nat sample_csv sample_world_conflict
             (PyException "Cannot cast string '1;Ana' to value of Int64 type")
             (snd (process_file (H := sample_env) sample_csv "diabetes"
                     (add_log sample_world_conflict INFO
                        "📄 Processando existente: PACIENTES.CSV (cluster: diabetes)")))).
  - reflexivity.
  - vm_compute. reflexivity.
  - reflexivity.
Defined.

Section ScanCount.
Context `{Environment}.

Lemma scan_process_count cluster n file_path w m w' :
  scan_process cluster n file_path w = (Ok m, w') -> m = n \/ m = S n.
Proof.
  unfold scan_process, try_except, mbind, M_bind, logger, mret, M_ret.
  destruct (process_file file_path cluster _) as [[[]|e] w2].
  - intros [= <- _]. auto.
  - destruct (is_Exception e); [|discriminate]. intros [= <- _]. auto.
Qed.

Lemma scan_entry_count cluster n entry w m w' :
  scan_entry cluster n entry w = (Ok m, w') ->
  (n <= m <= n + length (scanned [entry]))%nat.
Proof.
  unfold scan_entry, scanned. destruct entry as [file_path is_file]. simpl.
  change ({[ ".xlsx"; ".xls"; ".csv" ]} : gset string) with supported_extensions.
  destruct (supported file_path) eqn:Hsup.
  - rewrite bool_decide_eq_true_2 by (apply supported_spec; exact Hsup).
    destruct is_file; simpl.
    + intros Hr. apply scan_process_count in Hr. lia.
    + unfold_M. intros [= <- _]. lia.
  - rewrite bool_decide_eq_false_2
      by (intros Hin; apply supported_spec in Hin; congruence).
    rewrite andb_false_r. simpl. unfold_M. intros [= <- _]. lia.
Qed.

Lemma scanned_cons entry entries :
  length (scanned (entry :: entries))
  = (length (scanned [entry]) + length (scanned entries))%nat.
Proof. unfold scanned. simpl. destruct (_ && _); simpl; lia. Qed.

Lemma scan_directories_missing dirs : forall n w,
  Forall (fun d => iterdir d = None) dirs -> scan_directories n dirs w = (Ok n, w).
Proof.
  induction dirs as [|d dirs IH]; simpl; intros n w Hd; [reflexivity|].
  inversion Hd as [|? ? Hnone Hd']; subst. rewrite Hnone. apply IH, Hd'.
Qed.

End ScanCount.

(** X10.  The count the scan reports.  A supported file is counted when
    [process_file] returns for it, also when it returned because the file
    was empty or unreadable and nothing was written.  Over a directory
    listing the count grows by at most one for each entry that is a file
    with a supported extension, and never decreases.  When none of the
    cluster directories exists, the scan processes nothing and reports
    zero. *)
Theorem scan_counts_at_most_the_supported_files `{Environment} :
  (forall cluster n file_path w w1,
     supported file_path = true ->
     process_file file_path cluster
       (add_log w INFO ("📄 Processando existente: " +:+ PathLib.name file_path
                        +:+ " (cluster: " +:+ cluster +:+ ")"))
     = (Ok tt, w1) ->
     scan_entry cluster n (file_path, true) w = (Ok (S n), w1)) /\
  (forall cluster entries n w m w',
     scan_entries cluster n entries w = (Ok m, w') ->
     (n <= m <= n + length (scanned entries))%nat) /\
  (forall w,
     (forall d, In d cluster_directories -> iterdir d = None) ->
     scan_existing_files w
     = (Ok tt,
        add_log (add_log w INFO "🔍 Escaneando arquivos existentes na Landing Zone...")
                INFO "✅ Scan concluído! 0 arquivos processados.")).
Proof.
  split; [|split].
  - intros cluster n file_path w w1 Hsup Hrun. unfold scan_entry. simpl.
    change ({[ ".xlsx"; ".xls"; ".csv" ]} : gset string) with supported_extensions.
    rewrite bool_decide_eq_true_2 by (apply supported_spec; exact Hsup).
    unfold scan_process, try_except. unfold mbind at 1. unfold M_bind at 1.
    unfold logger at 1.
    fold (add_log w INFO ("📄 Processando existente: " +:+ PathLib.name file_path
                          +:+ " (cluster: " +:+ cluster +:+ ")")).
    unfold mbind at 1. unfold M_bind at 1. rewrite Hrun. reflexivity.
  - intros cluster entries. induction entries as [|entry entries IH];
      intros n w m w'; cbn [scan_entries].
    + unfold_M. intros [= <- _]. simpl. lia.
    + unfold mbind, M_bind.
      destruct (scan_entry cluster n entry w) as [[k|e] w1] eqn:He; [|discriminate].
      intros Hr. apply scan_entry_count in He. apply IH in Hr.
      rewrite scanned_cons. lia.
  - intros w Hmissing. unfold scan_existing_files, mbind, M_bind. unfold logger at 1.
    rewrite scan_directories_missing; [reflexivity|].
    apply Forall_forall. intros d Hd. apply Hmissing, list_elem_of_In, Hd.
Qed.

Lemma scan_counts_at_most_the_supported_files_witness :
  let entries := [(sample_csv, true); (sample_xlsx, true)] in
  fst (scan_entries (H := sample_env) "diabetes" 0 entries sample_world) = Ok 2%nat /\
  (0 <= 2 <= 0 + length (scanned entries))%nat.
Proof.
  intros entries.
  assert (Hrun : scan_entries (H := sample_env) "diabetes" 0 entries sample_world
                 = (Ok 2%nat,
                    snd (scan_entries (H := sample_env) "diabetes" 0 entries sample_world)))
    by (vm_compute; reflexivity).
  split; [rewrite Hrun; reflexivity|].
  destruct (scan_counts_at_most_the_supported_files (H := sample_env)) as (_ & Hcount & _).
  apply (Hcount "diabetes" entries 0%nat sample_world 2%nat _ Hrun).
Defined.

(** ** The task of a file *)

(** X11.  The task of a file keeps its failures to itself.  When
    [process_file] raises an ordinary exception, [_process_file_async] logs
    it and ends normally.  When the task is cancelled in its settle delay,
    the file is not processed at all: nothing is logged, read or written.
    In both cases, and in every other, the path leaves the in-flight set;
    what the task raises is never an [Exception]. *)
Theorem task_contains_every_failure `{Environment}
    (file_path : Path) (cluster : string) (st : watcher) :
  (forall e w1,
     process_file file_path cluster
       (add_log (outside st) INFO ("🔄 Iniciando processamento: " +:+ PathLib.name file_path))
     = (Raise e, w1) ->
     is_Exception e = true ->
     _process_file_async file_path cluster false st
     = (Ok tt,
        {| processing_files := processing_files st ∖ {[ PathLib.str file_path ]};
           tasks := tasks st;
           observing := observing st;
           outside := add_log w1 ERROR ("❌ Erro ao processar " +:+ PathLib.name file_path
                                        +:+ ": " +:+ exn_str e) |})) /\
  _process_file_async file_path cluster true st
  = (Raise CancelledError,
     {| processing_files := processing_files st ∖ {[ PathLib.str file_path ]};
        tasks := tasks st;
        observing := observing st;
        outside := outside st |}) /\
  (forall cancelled e st',
     _process_file_async file_path cluster cancelled st = (Raise e, st') ->
     is_Exception e = false).
Proof.
  split; [|split].
  - intros e w1 Hrun He. unfold _process_file_async, process_file_guarded, try_except.
    unfold mbind at 1. unfold M_bind at 1. unfold sleep, mret, M_ret.
    unfold mbind at 1. unfold M_bind at 1. unfold logger at 1.
    fold (add_log (outside st) INFO
            ("🔄 Iniciando processamento: " +:+ PathLib.name file_path)).
    unfold mbind at 1. unfold M_bind at 1. rewrite Hrun, He. reflexivity.
  - reflexivity.
  - intros cancelled e st'. unfold _process_file_async.
    destruct (process_file_guarded file_path cluster cancelled (outside st))
      as [r w'] eqn:Hg.
    intros [= -> _]. revert Hg. unfold process_file_guarded.
    match goal with |- try_except ?m ?h _ = _ -> _ =>
      assert (Hc : contained (try_except m h)) end.
    { apply contained_try_except. intros e0. apply contained_logger. }
    apply Hc.
Qed.

Lemma task_contains_every_failure_witness :
  fst (_process_file_async (H := sample_env) sample_csv "diabetes" false
         (started sample_world_conflict))
  = Ok tt.
Proof.
  destruct (task_contains_every_failure (H := sample_env) sample_csv "diabetes"
              (started sample_world_conflict)) as (Hfail & _).
  rewrite (Hfail (PyException "Cannot cast string '1;Ana' to value of Int64 type")
             (snd (process_file (H := sample_env) sample_csv "diabetes"
                     (add_log sample_world_conflict INFO
                        "🔄 Iniciando processamento: PACIENTES.CSV")))).
  - reflexivity.
  - vm_compute. reflexivity.
  - reflexivity.
Defined.

(** X12.  When a file can be dropped again.  Where the handler is called in
    a thread that runs an event loop, a create event for a path in flight
    is dropped.  Once the task of a path has run to its end or has been
    cancelled in its delay, the pipeline has been entered once for the
    file, the path is out of the in-flight set, and a new create event for
    it is taken: the path is marked again and one new task is scheduled.
    A task cancelled before its first step never enters its [try] and its
    [finally]: the marker stays, and every later create event for the path
    is dropped. *)
Theorem path_is_taken_again_after_its_task_ran `{Environment}
    (st : watcher) (i : nat) (t : task) :
  tasks st !! i = Some t ->
  supported (task_path t) = true ->
  let ev := {| is_directory := false; src_path := task_path t |} in
  let rest := take i (tasks st) ++ drop (S i) (tasks st) in
  (forall how,
     how <> CancelledUnstarted ->
     let st' := run_task i how st in
     outside st'
     = snd (process_file_guarded (task_path t) (task_cluster t) (in_delay how) (outside st)) /\
     (PathLib.str (task_path t) ∉ processing_files st') /\
     on_created true ev st'
     = (Ok tt,
        {| processing_files := processing_files st' ∪ {[ PathLib.str (task_path t) ]};
           tasks := rest ++ [{| task_path := task_path t;
                                task_cluster := _detect_cluster (task_path t) |}];
           observing := observing st;
           outside := add_log (outside st') INFO
                        ("📁 Novo arquivo detectado: " +:+ PathLib.name (task_path t)
                         +:+ " (cluster: " +:+ _detect_cluster (task_path t) +:+ ")") |})) /\
  (PathLib.str (task_path t) ∈ processing_files st ->
   let st' := run_task i CancelledUnstarted st in
   tasks st' = rest /\
   outside st' = outside st /\
   PathLib.str (task_path t) ∈ processing_files st' /\
   forall loop, on_created loop ev st' = (Ok tt, st')) /\
  (forall loop st0,
     PathLib.str (task_path t) ∈ processing_files st0 ->
     on_created loop ev st0 = (Ok tt, st0)).
Proof.
  intros Hi Hsup ev rest. split; [|split].
  - intros how Hhow st'.
    assert (Hst' : st' = snd (_process_file_async (task_path t) (task_cluster t) (in_delay how)
                                {| processing_files := processing_files st;
                                   tasks := rest;
                                   observing := observing st;
                                   outside := outside st |})).
    { unfold st', run_task. rewrite Hi. destruct how; try reflexivity. contradiction. }
    match type of Hst' with _ = snd (_process_file_async ?f ?c ?x ?s) =>
      destruct (process_file_async_marker f c x s) as (Hpf & Htasks & Hobs) end.
    rewrite <- Hst' in Hpf, Htasks, Hobs. simpl in Hpf, Htasks, Hobs.
    assert (Hfresh : PathLib.str (task_path t) ∉ processing_files st').
    { rewrite Hpf, elem_of_difference, elem_of_singleton. tauto. }
    split; [|split; [exact Hfresh|]].
    + rewrite Hst'. unfold _process_file_async. simpl.
      destruct (process_file_guarded _ _ _ _) as [r w']. reflexivity.
    + unfold ev. rewrite (on_created_fresh true (task_path t) st' Hsup Hfresh).
      unfold create_task. simpl. rewrite Htasks, Hobs. reflexivity.
  - intros Hin st'.
    assert (Hst' : st' = {| processing_files := processing_files st;
                            tasks := rest;
                            observing := observing st;
                            outside := outside st |}).
    { unfold st', run_task. rewrite Hi. reflexivity. }
    rewrite Hst'. simpl. repeat split; try exact Hin.
    intros loop. apply on_created_in_flight; [exact Hsup|exact Hin].
  - intros loop st0 Hin. apply on_created_in_flight; assumption.
Qed.

Lemma path_is_taken_again_after_its_task_ran_witness :
  tasks (snd (on_created (H := sample_env) true
                {| is_directory := false; src_path := sample_csv |}
                (run_task (H := sample_env) 0 Runs
                   (snd (on_created (H := sample_env) true
                           {| is_directory := false; src_path := sample_csv |}
                           (started sample_world))))))
  = [{| task_path := sample_csv; task_cluster := "diabetes" |}].
Proof.
  destruct (path_is_taken_again_after_its_task_ran (H := sample_env)
              (snd (on_created (H := sample_env) true
                      {| is_directory := false; src_path := sample_csv |}
                      (started sample_world)))
              0 {| task_path := sample_csv; task_cluster := "diabetes" |}
              eq_refl eq_refl) as (Hran & _).
  destruct (Hran Runs) as (_ & _ & Hagain); [discriminate|].
  simpl task_path in Hagain. rewrite Hagain. reflexivity.
Defined.

(** ** Where the table of a file comes from *)

Section ReaderProvenance.
Context `{Environment}.

Lemma supported_formats_csv : supported_formats !! ".csv" = Some _read_csv.
Proof.
  unfold supported_formats.
  rewrite !lookup_insert_ne by discriminate. apply lookup_insert_eq.
Qed.

Lemma supported_formats_xls : supported_formats !! ".xls" = Some _read_excel.
Proof.
  unfold supported_formats.
  rewrite lookup_insert_ne by discriminate. apply lookup_insert_eq.
Qed.

Lemma supported_formats_xlsx : supported_formats !! ".xlsx" = Some _read_excel.
Proof. unfold supported_formats. apply lookup_insert_eq. Qed.

(** A table [read_with] returns is the table its reader returned. *)
Lemma read_with_Some reader file_path w df w' :
  read_with reader file_path w = (Ok (Some df), w') -> reader file_path w = (Ok df, w').
Proof.
  unfold read_with, try_except, mbind, M_bind, mret, M_ret, logger.
  destruct (reader file_path w) as [[d|e] w1].
  - intros [= <- <-]. reflexivity.
  - destruct (is_Exception e); discriminate.
Qed.

(** What the loop over the separators can return. *)
Lemma probe_separators_result file_path seps : forall w r w',
  probe_separators file_path seps w = (r, w') ->
  match r with
  | Ok (Some df) =>
      exists sep, In sep seps /\ pl_read_csv file_path sep = Ok df /\ (0 < height df)%nat
  | Ok None => Forall (yields_no_row file_path) seps /\ w' = w
  | Raise e => is_Exception e = false
  end.
Proof.
  induction seps as [|sep seps IH]; simpl; intros w r w'.
  - unfold_M. intros [= <- <-]. split; [constructor|reflexivity].
  - unfold mbind at 1. unfold M_bind at 1. unfold try_except, mbind, M_bind, lift.
    destruct (pl_read_csv file_path sep) as [d|e] eqn:Hsep.
    + destruct (0 <? height d)%nat eqn:Hlt.
      * unfold logger, mret, M_ret. intros [= <- <-].
        exists sep. repeat split; auto. apply Nat.ltb_lt, Hlt.
      * unfold mret at 1. unfold M_ret at 1. intros Hrest.
        specialize (IH _ _ _ Hrest). destruct r as [[df|]|e]; auto.
        -- destruct IH as (s & Hin & Hs). exists s. split; [right|]; assumption.
        -- destruct IH as [Hall ->]. split; [|reflexivity]. constructor; [|exact Hall].
           unfold yields_no_row. rewrite Hsep. apply Nat.ltb_ge in Hlt. lia.
    + destruct (is_Exception e) eqn:He.
      * unfold mret at 1. unfold M_ret at 1. intros Hrest.
        specialize (IH _ _ _ Hrest). destruct r as [[df|]|e']; auto.
        -- destruct IH as (s & Hin & Hs). exists s. split; [right|]; assumption.
        -- destruct IH as [Hall ->]. split; [|reflexivity]. constructor; [|exact Hall].
           unfold yields_no_row. rewrite Hsep. exact He.
      * intros [= <- <-]. exact He.
Qed.

(** When no separator yields a row the loop ends without a table and
    without a log line. *)
Lemma probe_separators_none file_path seps w :
  Forall (yields_no_row file_path) seps ->
  probe_separators file_path seps w = (Ok None, w).
Proof.
  intros Hseps. induction Hseps as [|s seps Hs _ IH]; simpl; [reflexivity|].
  unfold yields_no_row in Hs. unfold_M.
  destruct (pl_read_csv file_path s) as [d|e0].
  - assert (Hlt : (0 <? height d)%nat = false) by (apply Nat.ltb_ge; lia).
    rewrite Hlt. exact IH.
  - rewrite Hs. exact IH.
Qed.

End ReaderProvenance.

(** X13.  The table read from a [.csv] file is a parse of that file: the
    polars parse under one of the four separators, with at least one row,
    or, when no separator yields a row, the pandas parse.  A polars parse
    without rows is never returned.  When no separator yields a row and
    pandas fails too, [_read_csv] logs the error and raises it. *)
Theorem csv_table_comes_from_a_parse `{Environment} (file_path : Path) (w : world) :
  Py.lower (PathLib.suffix file_path) = ".csv" ->
  (forall df w',
     _read_file file_path w = (Ok (Some df), w') ->
     (exists sep, In sep separators /\ pl_read_csv file_path sep = Ok df /\
                  (0 < height df)%nat) \/
     (Forall (yields_no_row file_path) separators /\
      exists pdf, pd_read_csv file_path = Ok pdf /\ Polars.from_pandas pdf = Ok df)) /\
  (forall e,
     Forall (yields_no_row file_path) separators ->
     pd_read_csv file_path = Raise e ->
     is_Exception e = true ->
     _read_csv file_path w
     = (Raise e, add_log w ERROR ("Erro ao ler CSV " +:+ PathLib.name file_path
                                  +:+ ": " +:+ exn_str e))).
Proof.
  intros Hext. split.
  - intros df w' Hread. unfold _read_file in Hread.
    rewrite Hext, supported_formats_csv in Hread. apply read_with_Some in Hread.
    revert Hread. unfold _read_csv, try_except. unfold mbind at 1. unfold M_bind at 1.
    destruct (probe_separators file_path separators w) as [r w1] eqn:Hprobe.
    apply probe_separators_result in Hprobe.
    destruct r as [[d|]|e].
    + unfold mret, M_ret. intros [= <- <-]. left. exact Hprobe.
    + destruct Hprobe as [Hall ->]. unfold mbind, M_bind, lift.
      destruct (pd_read_csv file_path) as [pdf|e] eqn:Hpd.
      * destruct (Polars.from_pandas pdf) as [d|e] eqn:Hfp.
        -- unfold logger, mret, M_ret. intros [= <- <-]. right. eauto.
        -- destruct (is_Exception e); discriminate.
      * destruct (is_Exception e); discriminate.
    + rewrite Hprobe. discriminate.
  - intros e Hall Hpd He. unfold _read_csv, try_except. unfold mbind at 1. unfold M_bind at 1.
    rewrite (probe_separators_none _ _ w Hall).
    unfold mbind, M_bind, lift. rewrite Hpd, He. reflexivity.
Qed.

Lemma csv_table_comes_from_a_parse_witness :
  Py.lower (PathLib.suffix sample_csv) = ".csv" /\
  ((exists sep, In sep separators /\
      pl_read_csv (Environment := sample_env) sample_csv sep = Ok sample_csv_one_column /\
      (0 < height sample_csv_one_column)%nat) \/
   (Forall (yields_no_row (H := sample_env) sample_csv) separators /\
    exists pdf, pd_read_csv (Environment := sample_env) sample_csv = Ok pdf /\
                Polars.from_pandas pdf = Ok sample_csv_one_column)).
Proof.
  split; [reflexivity|].
  apply (proj1 (csv_table_comes_from_a_parse (H := sample_env) sample_csv sample_world
                  eq_refl)
           sample_csv_one_column
           (add_log sample_world INFO "📈 CSV lido (sep ','): 2 linhas, 1 colunas")).
  vm_compute. reflexivity.
Defined.

(** X14.  A spreadsheet ([.xlsx] or [.xls], in any case) is read by polars
    first; when polars fails with an ordinary error the pandas parse is
    returned instead, after a warning, so the file is not lost.  The
    spreadsheet reader raises only when polars has failed and either the
    error is not an ordinary one, or pandas fails as well, or the pandas
    table cannot be converted. *)
Theorem spreadsheet_falls_back_to_pandas `{Environment} (file_path : Path) (w : world) :
  Py.lower (PathLib.suffix file_path) = ".xlsx" \/
  Py.lower (PathLib.suffix file_path) = ".xls" ->
  (forall df, pl_read_excel file_path = Ok df ->
     _read_file file_path w
     = (Ok (Some df), add_log w INFO ("📈 Excel lido: " +:+ shape_msg df))) /\
  (forall e0 pdf df,
     pl_read_excel file_path = Raise e0 -> is_Exception e0 = true ->
     pd_read_excel file_path = Ok pdf -> Polars.from_pandas pdf = Ok df ->
     _read_file file_path w
     = (Ok (Some df),
        add_log (add_log w WARNING ("Polars falhou, tentando pandas: " +:+ exn_str e0))
                INFO ("📈 Excel lido (pandas): " +:+ shape_msg df))) /\
  (forall e w',
     _read_excel file_path w = (Raise e, w') ->
     exists e0, pl_read_excel file_path = Raise e0 /\
       ((e = e0 /\ is_Exception e0 = false) \/
        pd_read_excel file_path = Raise e \/
        exists pdf, pd_read_excel file_path = Ok pdf /\ Polars.from_pandas pdf = Raise e)).
Proof.
  intros Hext.
  assert (Hdispatch : _read_file file_path = read_with _read_excel file_path).
  { unfold _read_file.
    destruct Hext as [-> | ->];
      [rewrite supported_formats_xlsx | rewrite supported_formats_xls]; reflexivity. }
  rewrite Hdispatch. repeat split.
  - intros df Hpl. unfold read_with, _read_excel. unfold_M. rewrite Hpl. reflexivity.
  - intros e0 pdf df Hpl He0 Hpd Hfp. unfold read_with, _read_excel. unfold_M.
    rewrite Hpl, He0, Hpd, Hfp. reflexivity.
  - intros e w'. unfold _read_excel. unfold_M.
    destruct (pl_read_excel file_path) as [d|e0] eqn:Hpl; [discriminate|].
    destruct (is_Exception e0) eqn:He0.
    + destruct (pd_read_excel file_path) as [pdf|e1] eqn:Hpd.
      * destruct (Polars.from_pandas pdf) as [d|e2] eqn:Hfp; [discriminate|].
        intros [= <- <-]. exists e0. split; [reflexivity|]. right. right. eauto.
      * intros [= <- <-]. exists e0. split; [reflexivity|]. right. left. reflexivity.
    + intros [= <- <-]. exists e0. split; [reflexivity|]. left. split; [reflexivity|exact He0].
Qed.

Lemma spreadsheet_falls_back_to_pandas_witness :
  _read_file (H := sample_env) sample_xlsx sample_world
  = (Ok (Some []), add_log sample_world INFO ("📈 Excel lido: " +:+ shape_msg [])).
Proof.
  apply (proj1 (spreadsheet_falls_back_to_pandas (H := sample_env) sample_xlsx sample_world
                  (or_introl eq_refl)) []).
  reflexivity.
Defined.
